(** * dhcpcd, if-linux.c: the netlink channel to the kernel

    A shallow embedding of [src/if-linux.c]: the attribute codec
    ([add_attr_l], [add_attr_32]), the receive pump ([get_netlink]), the two
    message handlers ([err_netlink], [link_netlink]), the transaction client
    ([send_netlink]), the address and route builders ([if_address],
    [if_route]) and the opening of the link socket ([open_link_socket]).

    Messages are byte buffers, as in the C code: every structure field is
    read and written at its offset, and the netlink macros do the pointer
    arithmetic.  C integers are [Z] with the wrap-around of their type
    written out. *)

From Stdlib Require Import ZArith Lia Bool.
From stdpp Require Import base numbers list.

Local Open Scope Z_scope.

(** ** C integer types *)

Module CInt.

Definition u8 (z : Z) : Z := z mod 2 ^ 8.
Definition u16 (z : Z) : Z := z mod 2 ^ 16.
Definition u32 (z : Z) : Z := z mod 2 ^ 32.

(** Conversion to [int]: the value modulo 2^32, read as two's complement. *)
Definition s32 (z : Z) : Z :=
  let u := u32 z in if u <? 2 ^ 31 then u else u - 2 ^ 32.

(** Conversion to [size_t] (LP64: 64 bits); an [int] sign-extends. *)
Definition size_t (z : Z) : Z := z mod 2 ^ 64.

Definition INT_MAX : Z := 2 ^ 31 - 1.
Definition UINT_MAX : Z := 2 ^ 32 - 1.

End CInt.
Export CInt.

(** ** Memory: a block of bytes

    A block is the list of its bytes.  Offsets are [Z], as they come out of
    the length fields.  A read past the end of the block (undefined in C)
    yields 0 and a write past the end is dropped; multi-byte fields are in
    host byte order, little-endian here. *)

Module Mem.

Abbreviation block := (list Z).

Definition get_u8 (m : block) (a : Z) : Z :=
  u8 (default 0 (m !! Z.to_nat a)).
Definition get_u16 (m : block) (a : Z) : Z :=
  get_u8 m a + 2 ^ 8 * get_u8 m (a + 1).
Definition get_u32 (m : block) (a : Z) : Z :=
  get_u16 m a + 2 ^ 16 * get_u16 m (a + 2).
Definition get_s32 (m : block) (a : Z) : Z := s32 (get_u32 m a).

(** [memcpy (m + a, bs, length bs)] *)
Definition store (m : block) (a : Z) (bs : list Z) : block :=
  list_inserts (Z.to_nat a) bs m.

(** The [n] bytes at offset [a]. *)
Definition load (m : block) (a : Z) (n : nat) : list Z :=
  take n (drop (Z.to_nat a) m).

(** The [n] low bytes of [v], least significant first. *)
Fixpoint le_bytes (n : nat) (v : Z) : list Z :=
  match n with
  | O => []
  | S n' => u8 v :: le_bytes n' (v / 2 ^ 8)
  end.

Definition set_u8 (m : block) (a v : Z) : block := store m a (le_bytes 1 v).
Definition set_u16 (m : block) (a v : Z) : block := store m a (le_bytes 2 v).
Definition set_u32 (m : block) (a v : Z) : block := store m a (le_bytes 4 v).

(** Modelled from the spec: [xzalloc] is defined in [common.c], which is not
    part of the sources at hand.  It is the allocator that hands out
    zero-filled memory: a fresh block of [n] zero bytes. *)
Definition xzalloc (n : Z) : block := replicate (Z.to_nat n) 0.

(** Modelled from the spec: [strlcpy] comes from [common.h], which is not
    part of the sources at hand.  It is the bounded copy of a C string that
    always terminates its result: [cstring m a n] is the string at offset
    [a], cut after [n] characters, which [strlcpy (dst, m + a, n + 1)]
    leaves in [dst]. *)
Fixpoint cstring (m : block) (a : Z) (n : nat) : list Z :=
  match n with
  | O => []
  | S n' =>
      let c := get_u8 m a in
      if c =? 0 then [] else c :: cstring m (a + 1) n'
  end.

End Mem.
Export Mem.

(** ** Constants and macros of the system headers

    [<linux/netlink.h>], [<linux/rtnetlink.h>], [<linux/if_link.h>],
    [<linux/if_addr.h>], [<net/if.h>], [<errno.h>]. *)

Module Linux.

Definition EINTR : Z := 4.
Definition EAGAIN : Z := 11.
Definition EACCES : Z := 13.
Definition ENODEV : Z := 19.
Definition EBADMSG : Z := 74.
Definition ENOBUFS : Z := 105.

Definition AF_INET : Z := 2.
Definition INADDR_ANY : Z := 0.
Definition IF_NAMESIZE : Z := 16.
Definition IFF_LOOPBACK : Z := 8.
Definition MSG_DONTWAIT : Z := 64.

Definition NLMSG_ERROR : Z := 2.
Definition RTM_NEWLINK : Z := 16.
Definition RTM_DELLINK : Z := 17.
Definition RTM_NEWADDR : Z := 20.
Definition RTM_DELADDR : Z := 21.
Definition RTM_NEWROUTE : Z := 24.
Definition RTM_DELROUTE : Z := 25.

Definition NLM_F_REQUEST : Z := 1.
Definition NLM_F_ACK : Z := 4.
Definition NLM_F_REPLACE : Z := 256.
Definition NLM_F_EXCL : Z := 512.
Definition NLM_F_CREATE : Z := 1024.

Definition IFLA_IFNAME : Z := 3.
Definition IFLA_WIRELESS : Z := 11.

Definition IFA_LOCAL : Z := 2.
Definition IFA_LABEL : Z := 3.
Definition IFA_BROADCAST : Z := 4.

Definition RTA_DST : Z := 1.
Definition RTA_OIF : Z := 4.
Definition RTA_GATEWAY : Z := 5.
Definition RTA_PRIORITY : Z := 6.
Definition RTA_PREFSRC : Z := 7.

Definition RT_TABLE_MAIN : Z := 254.
Definition RT_SCOPE_UNIVERSE : Z := 0.
Definition RT_SCOPE_LINK : Z := 253.
Definition RT_SCOPE_NOWHERE : Z := 255.
Definition RTPROT_KERNEL : Z := 2.
Definition RTPROT_BOOT : Z := 3.
Definition RTN_UNICAST : Z := 1.

(** [sizeof] of the structures. *)
Definition sizeof_nlmsghdr : Z := 16.
Definition sizeof_nlmsgerr : Z := 20.
Definition sizeof_ifinfomsg : Z := 16.
Definition sizeof_ifaddrmsg : Z := 8.
Definition sizeof_rtmsg : Z := 12.
Definition sizeof_rtattr : Z := 4.

(** [((len) + 4U - 1) & ~(4U - 1)], in [unsigned int]. *)
Definition align4 (len : Z) : Z := Z.land (u32 (len + 3)) (u32 (Z.lnot 3)).

Definition NLMSG_ALIGN (len : Z) : Z := align4 len.
Definition NLMSG_HDRLEN : Z := NLMSG_ALIGN sizeof_nlmsghdr.
Definition NLMSG_LENGTH (len : Z) : Z := len + NLMSG_HDRLEN.
Definition NLMSG_SPACE (len : Z) : Z := NLMSG_ALIGN (NLMSG_LENGTH len).

Definition RTA_ALIGN (len : Z) : Z := align4 len.
Definition RTA_LENGTH (len : Z) : Z := RTA_ALIGN sizeof_rtattr + len.

(** Fields of [struct nlmsghdr] at offset [nlm] of a block. *)
Definition nlmsg_len (m : block) (nlm : Z) : Z := get_u32 m nlm.
Definition nlmsg_type (m : block) (nlm : Z) : Z := get_u16 m (nlm + 4).
Definition nlmsg_flags (m : block) (nlm : Z) : Z := get_u16 m (nlm + 6).
Definition nlmsg_seq (m : block) (nlm : Z) : Z := get_u32 m (nlm + 8).
Definition nlmsg_pid (m : block) (nlm : Z) : Z := get_u32 m (nlm + 12).

Definition NLMSG_DATA (nlm : Z) : Z := nlm + NLMSG_LENGTH 0.

(** [NLMSG_OK (nlm, len)], [len] of type [size_t]. *)
Definition NLMSG_OK (m : block) (nlm : Z) (len : Z) : bool :=
  (sizeof_nlmsghdr <=? len)
  && (sizeof_nlmsghdr <=? nlmsg_len m nlm)
  && (nlmsg_len m nlm <=? len).

(** [NLMSG_PAYLOAD (nlm, len)], converted to [int]. *)
Definition NLMSG_PAYLOAD (m : block) (nlm : Z) (len : Z) : Z :=
  s32 (nlmsg_len m nlm - NLMSG_SPACE len).

(** [struct nlmsgerr]. *)
Definition err_error (m : block) (err : Z) : Z := get_s32 m err.

(** [struct ifinfomsg]. *)
Definition ifi_flags (m : block) (ifi : Z) : Z := get_u32 m (ifi + 8).
Definition ifi_change (m : block) (ifi : Z) : Z := get_u32 m (ifi + 12).

(** [struct rtattr]. *)
Definition rta_len (m : block) (rta : Z) : Z := get_u16 m rta.
Definition rta_type (m : block) (rta : Z) : Z := get_u16 m (rta + 2).
Definition RTA_DATA (rta : Z) : Z := rta + RTA_LENGTH 0.

(** [RTA_OK (rta, len)], [len] of type [int]. *)
Definition RTA_OK (m : block) (rta : Z) (len : Z) : bool :=
  (sizeof_rtattr <=? len)
  && (sizeof_rtattr <=? rta_len m rta)
  && (rta_len m rta <=? len).

(** [struct ifaddrmsg], at offset [ifa]. *)
Definition ifa_family (m : block) (ifa : Z) : Z := get_u8 m ifa.
Definition ifa_prefixlen (m : block) (ifa : Z) : Z := get_u8 m (ifa + 1).
Definition ifa_index (m : block) (ifa : Z) : Z := get_u32 m (ifa + 4).

(** [struct rtmsg], at offset [rt]. *)
Definition rtm_family (m : block) (rt : Z) : Z := get_u8 m rt.
Definition rtm_dst_len (m : block) (rt : Z) : Z := get_u8 m (rt + 1).
Definition rtm_table (m : block) (rt : Z) : Z := get_u8 m (rt + 4).
Definition rtm_protocol (m : block) (rt : Z) : Z := get_u8 m (rt + 5).
Definition rtm_scope (m : block) (rt : Z) : Z := get_u8 m (rt + 6).
Definition rtm_type (m : block) (rt : Z) : Z := get_u8 m (rt + 7).

End Linux.
Export Linux.

(** ** The state of the process *)

(** A listener is a function of the caller; it is known by its address. *)
Definition listener := positive.

Record state := State {
  errno : Z;
  (** [static unsigned int seq] of [send_netlink] *)
  seq : Z;
  (** the three listener slots, [None] for [NULL] *)
  nl_carrier : option listener;
  nl_add : option listener;
  nl_remove : option listener;
  (** the listener calls made so far, oldest first, with their argument *)
  calls : list (listener * list Z);
  (** the requests handed to [sendmsg] so far, oldest first *)
  sent : list block
}.

Definition set_errno (e : Z) (w : state) : state :=
  State e (seq w) (nl_carrier w) (nl_add w) (nl_remove w) (calls w) (sent w).
Definition set_seq (s : Z) (w : state) : state :=
  State (errno w) s (nl_carrier w) (nl_add w) (nl_remove w) (calls w) (sent w).
Definition set_listeners (c a r : option listener) (w : state) : state :=
  State (errno w) (seq w) c a r (calls w) (sent w).
Definition log_call (f : listener) (arg : list Z) (w : state) : state :=
  State (errno w) (seq w) (nl_carrier w) (nl_add w) (nl_remove w)
        (calls w ++ [(f, arg)]) (sent w).
Definition log_sent (msg : block) (w : state) : state :=
  State (errno w) (seq w) (nl_carrier w) (nl_add w) (nl_remove w)
        (calls w) (sent w ++ [msg]).

(** [if (f) f(arg);] *)
Definition call_if_set (f : option listener) (arg : list Z) (w : state) : state :=
  match f with
  | Some g => log_call g arg w
  | None => w
  end.

(** ** The attribute codec *)

Definition NLMSG_TAIL (n : block) : Z := NLMSG_ALIGN (nlmsg_len n 0).

(** [add_attr_l (n, maxlen, type, data, alen)]: [data] is the [alen] bytes
    the pointer designates.  Returns the C result, the message and the
    state. *)
Definition add_attr_l (n : block) (maxlen : Z) (type : Z) (data : list Z)
    (w : state) : Z * block * state :=
  let alen := Z.of_nat (length data) in
  let len := s32 (RTA_LENGTH alen) in
  if u32 (NLMSG_ALIGN (nlmsg_len n 0) + RTA_ALIGN len) >? maxlen then
    (-1, n, set_errno ENOBUFS w)
  else
    let rta := NLMSG_TAIL n in
    let n := set_u16 n (rta + 2) type in
    let n := set_u16 n rta len in
    let n := store n (RTA_DATA rta) data in
    let n := set_u32 n 0 (NLMSG_ALIGN (nlmsg_len n 0) + RTA_ALIGN len) in
    (0, n, w).

(** [add_attr_32 (n, maxlen, type, data)] *)
Definition add_attr_32 (n : block) (maxlen : Z) (type : Z) (data : Z)
    (w : state) : Z * block * state :=
  let len := s32 (RTA_LENGTH 4) in
  if u32 (NLMSG_ALIGN (nlmsg_len n 0) + len) >? maxlen then
    (-1, n, set_errno ENOBUFS w)
  else
    let rta := NLMSG_TAIL n in
    let n := set_u16 n (rta + 2) type in
    let n := set_u16 n rta len in
    let n := store n (RTA_DATA rta) (le_bytes 4 data) in
    let n := set_u32 n 0 (NLMSG_ALIGN (nlmsg_len n 0) + len) in
    (0, n, w).

(** ** The kernel, as the program meets it

    [syscalls] holds the fate of the [socket], [bind] and [sendmsg] calls to
    come, in order: [None] for a success, [Some e] for a failure with
    [errno = e]; when it runs out, calls succeed.  [incoming] holds what the
    successive [recv] calls find on the socket being read.  [if_index] is
    the kernel's table from interface names to indices (0 for an unknown
    name), which [if_nametoindex] consults. *)

Inductive received :=
| Datagram (bs : list Z)
| RecvFails (e : Z).

Record kernel := Kernel {
  if_index : list Z -> Z;
  syscalls : list (option Z);
  incoming : list received
}.

Definition set_syscalls (s : list (option Z)) (k : kernel) : kernel :=
  Kernel (if_index k) s (incoming k).
Definition set_incoming (q : list received) (k : kernel) : kernel :=
  Kernel (if_index k) (syscalls k) q.

(** A system call that returns -1 and sets [errno] when it fails.  On
    success it returns 0: sockets are not told apart here, so the number of
    a descriptor plays no role. *)
Definition syscall (k : kernel) (w : state) : Z * kernel * state :=
  match syscalls k with
  | [] => (0, k, w)
  | None :: s => (0, set_syscalls s k, w)
  | Some e :: s => (-1, set_syscalls s k, set_errno e w)
  end.

(** How a call that may wait for the kernel ends: it returns [r], or it
    never returns (blocked in [recv] with nothing more to come, or walking
    a message that [NLMSG_NEXT] does not step over). *)
Inductive outcome (K : Type) :=
| Returns (r : Z) (k : K) (w : state)
| Hangs (w : state).
Arguments Returns {K} r k w.
Arguments Hangs {K} w.

Definition final {K} (o : outcome K) : state :=
  match o with
  | Returns _ _ w => w
  | Hangs w => w
  end.

Definition result {K} (o : outcome K) : option Z :=
  match o with
  | Returns r _ _ => Some r
  | Hangs _ => None
  end.

(** ** The receive pump *)

Definition BUFFERLEN : Z := 256.

Definition handler := block -> Z -> state -> Z * state.

(** How the walk over the messages of one datagram ends. *)
Inductive walk :=
| Stopped (r : Z) (w : state)     (* [goto eexit]: the handler answered non-zero *)
| Finished (r : Z) (w : state)    (* [NLMSG_OK] failed: back to [recv] *)
| Spinning (w : state).           (* no progress: the loop never ends *)

(** The inner [for] loop of [get_netlink].  [nlm] is the offset of the
    current message in [buffer] and [bytes] the [ssize_t] count.  Every
    message stepped over is at least a header long, so [fuel] as large as
    the buffer is never used up; a message whose aligned length wraps to 0
    is visited again and again, a handler that answered 0 answering 0
    again. *)
Fixpoint for_each_nlmsg (fuel : nat) (callback : handler) (buffer : block)
    (nlm bytes : Z) (r : Z) (w : state) : walk :=
  if NLMSG_OK buffer nlm (size_t bytes) then
    let '(r, w) := callback buffer nlm w in
    if negb (r =? 0) then Stopped r w
    else
      let step := NLMSG_ALIGN (nlmsg_len buffer nlm) in
      match fuel with
      | O => Spinning w
      | S fuel' =>
          if step =? 0 then Spinning w
          else for_each_nlmsg fuel' callback buffer (nlm + step) (bytes - step) r w
      end
  else Finished r w.

(** The [for (;;)] loop of [get_netlink], over what [recv] will find. *)
Fixpoint get_netlink_loop (flags : Z) (callback : handler)
    (q : list received) (buffer : block) (r : Z) (w : state)
    : outcome (list received) :=
  match q with
  | [] =>
      (* nothing to read: EAGAIN when non-blocking, or wait for ever *)
      if negb (Z.land flags MSG_DONTWAIT =? 0)
      then Returns 0 [] (set_errno EAGAIN w)
      else Hangs w
  | RecvFails e :: q' =>
      let w := set_errno e w in
      if e =? EAGAIN then Returns 0 q' w
      else if e =? EINTR then get_netlink_loop flags callback q' buffer r w
      else Returns r q' w
  | Datagram bs :: q' =>
      let data := take (Z.to_nat BUFFERLEN) bs in
      let bytes := Z.of_nat (length data) in
      let buffer := store buffer 0 data in
      match for_each_nlmsg (length buffer) callback buffer 0 bytes r w with
      | Stopped r w => Returns r q' w
      | Finished r w => get_netlink_loop flags callback q' buffer r w
      | Spinning w => Hangs w
      end
  end.

(** [get_netlink (fd, flags, callback)] *)
Definition get_netlink (fd flags : Z) (callback : handler) (k : kernel)
    (w : state) : outcome kernel :=
  match get_netlink_loop flags callback (incoming k)
          (xzalloc BUFFERLEN) (-1) w with
  | Returns r q w => Returns r (set_incoming q k) w
  | Hangs w => Hangs w
  end.

(** ** The acknowledgment decoder *)

Definition err_netlink : handler := fun buffer nlm w =>
  if negb (nlmsg_type buffer nlm =? NLMSG_ERROR) then (0, w)
  else
    let l := s32 (size_t (nlmsg_len buffer nlm - sizeof_nlmsghdr)) in
    if size_t l <? sizeof_nlmsgerr then (-1, set_errno EBADMSG w)
    else
      let err := NLMSG_DATA nlm in
      if err_error buffer err =? 0 then (l, w)
      else (-1, set_errno (s32 (- err_error buffer err)) w).

(** ** The link event monitor *)

(** The [while (RTA_OK (rta, len))] loop of [link_netlink]: [None] when it
    leaves the function through [return 1] (a wireless event), the name in
    [ifn] otherwise.  An attribute is at least 4 bytes long, so [fuel] as
    large as the buffer is never used up. *)
Fixpoint scan_rtattrs (fuel : nat) (buffer : block) (nlm ifi : Z)
    (rta len : Z) (ifn : list Z) : option (list Z) :=
  if RTA_OK buffer rta len then
    let t := rta_type buffer rta in
    if (t =? IFLA_WIRELESS)
       && (nlmsg_type buffer nlm =? RTM_NEWLINK)
       && (ifi_change buffer ifi =? 0)
    then None
    else
      let ifn :=
        if t =? IFLA_IFNAME
        then cstring buffer (RTA_DATA rta) (Z.to_nat IF_NAMESIZE)
        else ifn in
      match fuel with
      | O => Some ifn
      | S fuel' =>
          scan_rtattrs fuel' buffer nlm ifi
            (rta + RTA_ALIGN (rta_len buffer rta))
            (s32 (len - RTA_ALIGN (rta_len buffer rta))) ifn
      end
  else Some ifn.

Definition link_netlink : handler := fun buffer nlm w =>
  if negb (nlmsg_type buffer nlm =? RTM_NEWLINK)
     && negb (nlmsg_type buffer nlm =? RTM_DELLINK)
  then (0, w)
  else
    let len := s32 (size_t (nlmsg_len buffer nlm - sizeof_nlmsghdr)) in
    if size_t len <? sizeof_ifinfomsg then (-1, set_errno EBADMSG w)
    else
      let ifi := NLMSG_DATA nlm in
      if negb (Z.land (ifi_flags buffer ifi) IFF_LOOPBACK =? 0) then (1, w)
      else
        let rta := ifi + NLMSG_ALIGN sizeof_ifinfomsg in
        let len := NLMSG_PAYLOAD buffer nlm sizeof_ifinfomsg in
        match scan_rtattrs (length buffer) buffer nlm ifi rta len [] with
        | None => (1, w)
        | Some ifn =>
            if nlmsg_type buffer nlm =? RTM_NEWLINK then
              if ifi_change buffer ifi =? UINT_MAX
              then (1, call_if_set (nl_add w) ifn w)
              else (1, call_if_set (nl_carrier w) ifn w)
            else (1, call_if_set (nl_remove w) ifn w)
        end.

(** [manage_link (fd, if_carrier, if_add, if_remove)] *)
Definition manage_link (fd : Z) (if_carrier if_add if_remove : option listener)
    (k : kernel) (w : state) : outcome kernel :=
  let w := set_listeners if_carrier if_add if_remove w in
  get_netlink fd MSG_DONTWAIT link_netlink k w.

(** ** The transaction client *)

(** [send_netlink (hdr)].  The request handed to [sendmsg] is the first
    [nlmsg_len] bytes of [hdr]. *)
Definition send_netlink (hdr : block) (k : kernel) (w : state)
    : outcome kernel :=
  let '(fd, k, w) := syscall k w in                      (* socket *)
  if fd =? -1 then Returns (-1) k w
  else
    let '(b, k, w) := syscall k w in                     (* bind *)
    if b =? -1 then Returns (-1) k w
    else
      let iov_len := nlmsg_len hdr 0 in
      let hdr := set_u16 hdr 6 (Z.lor (nlmsg_flags hdr 0) NLM_F_ACK) in
      let w := set_seq (u32 (seq w + 1)) w in
      let hdr := set_u32 hdr 8 (seq w) in
      let w := log_sent (load hdr 0 (Z.to_nat iov_len)) w in
      let '(s, k, w) := syscall k w in                   (* sendmsg *)
      if negb (s =? -1) then get_netlink fd 0 err_netlink k w
      else Returns (-1) k w.

(** ** The address and route builders *)

(** Modelled from the spec: [struct interface] is declared in [net.h], which
    is not part of the sources at hand.  Only the two fields this file reads
    are kept: the interface name (a C string, here without its final NUL)
    and the address bound to the interface ([s_addr], as the host reads
    it). *)
Record interface := Interface {
  name : list Z;
  addr : Z
}.

(** [struct nlma] and [struct nlmr]: the header, the fixed payload at offset
    16, then the attribute area. *)
Definition sizeof_nlma : Z := sizeof_nlmsghdr + sizeof_ifaddrmsg + 64.
Definition sizeof_nlmr : Z := sizeof_nlmsghdr + sizeof_rtmsg + 256.

Section Builders.

(** [inet_ntocidr] (the prefix length of a netmask) is defined in [net.c],
    which is not part of the sources at hand: it is a parameter. *)
Variable inet_ntocidr : Z -> Z.

(** [if_address], lines 305-319: the header and the fixed payload. *)
Definition if_address_fixed (netmask : Z) (action : Z) (ifindex : Z)
    : block :=
  let nlm := xzalloc sizeof_nlma in
  let nlm := set_u32 nlm 0 (NLMSG_LENGTH sizeof_ifaddrmsg) in
  let nlm := set_u16 nlm 6 NLM_F_REQUEST in
  let nlm :=
    if action >=? 0 then
      let nlm := set_u16 nlm 6
        (Z.lor (nlmsg_flags nlm 0) (Z.lor NLM_F_CREATE NLM_F_REPLACE)) in
      set_u16 nlm 4 RTM_NEWADDR
    else set_u16 nlm 4 RTM_DELADDR in
  let nlm := set_u32 nlm (16 + 4) ifindex in
  let nlm := set_u8 nlm 16 AF_INET in
  set_u8 nlm (16 + 1) (inet_ntocidr netmask).

(** [if_address], lines 320-327: the attributes.  The result is the
    message handed to [send_netlink], with the results of the appends,
    which the C code drops. *)
Definition if_address_request (iface : interface)
    (address netmask broadcast : Z) (action : Z) (ifindex : Z) (w : state)
    : list Z * block * state :=
  let nlm := if_address_fixed netmask action ifindex in
  let '(r1, nlm, w) :=
    add_attr_l nlm sizeof_nlma IFA_LABEL (name iface ++ [0]) w in
  let '(r2, nlm, w) :=
    add_attr_l nlm sizeof_nlma IFA_LOCAL (le_bytes 4 address) w in
  if action >=? 0 then
    let '(r3, nlm, w) :=
      add_attr_l nlm sizeof_nlma IFA_BROADCAST (le_bytes 4 broadcast) w in
    ([r1; r2; r3], nlm, w)
  else ([r1; r2], nlm, w).

(** [if_address (iface, address, netmask, broadcast, action)] *)
Definition if_address (iface : interface) (address netmask broadcast : Z)
    (action : Z) (k : kernel) (w : state) : outcome kernel :=
  let ifindex := u32 (if_index k (name iface)) in
  if ifindex =? 0 then Returns (-1) k (set_errno ENODEV w)
  else
    let '(_, nlm, w) :=
      if_address_request iface address netmask broadcast action ifindex w in
    match send_netlink nlm k w with
    | Returns r k w => Returns (if r =? -1 then -1 else 0) k w
    | Hangs w => Hangs w
    end.

(** [if_route], lines 350-376: the header and the fixed payload. *)
Definition if_route_fixed (netmask gateway : Z) (action : Z) : block :=
  let nlm := xzalloc sizeof_nlmr in
  let nlm := set_u32 nlm 0 (NLMSG_LENGTH sizeof_rtmsg) in
  let nlm := set_u16 nlm 4 RTM_NEWROUTE in
  let nlm :=
    if action =? 0 then set_u16 nlm 6 NLM_F_REPLACE
    else if action =? 1 then set_u16 nlm 6 (Z.lor NLM_F_CREATE NLM_F_EXCL)
    else set_u16 nlm 4 RTM_DELROUTE in
  let nlm := set_u16 nlm 6 (Z.lor (nlmsg_flags nlm 0) NLM_F_REQUEST) in
  let nlm := set_u8 nlm 16 AF_INET in
  let nlm := set_u8 nlm (16 + 4) RT_TABLE_MAIN in
  let nlm :=
    if (action =? -1) || (action =? -2)
    then set_u8 nlm (16 + 6) RT_SCOPE_NOWHERE
    else
      let nlm := set_u16 nlm 6
        (Z.lor (nlmsg_flags nlm 0) (Z.lor NLM_F_CREATE NLM_F_EXCL)) in
      let nlm := set_u8 nlm (16 + 5)
        (if negb (action =? 0) then RTPROT_BOOT else RTPROT_KERNEL) in
      let nlm :=
        if gateway =? INADDR_ANY
        then set_u8 nlm (16 + 6) RT_SCOPE_LINK
        else set_u8 nlm (16 + 6) RT_SCOPE_UNIVERSE in
      set_u8 nlm (16 + 7) RTN_UNICAST in
  set_u8 nlm (16 + 1) (inet_ntocidr netmask).

(** [if_route], lines 377-387: the attributes.  The result is the message
    handed to [send_netlink], with the results of the appends, which the
    C code drops (0 stands for the append that action 1 skips). *)
Definition if_route_request (iface : interface)
    (destination netmask gateway : Z) (metric action : Z) (ifindex : Z)
    (w : state) : list Z * block * state :=
  let nlm := if_route_fixed netmask gateway action in
  let '(r1, nlm, w) :=
    add_attr_l nlm sizeof_nlmr RTA_DST (le_bytes 4 destination) w in
  let '(r2, nlm, w) :=
    if negb (action =? 1)
    then add_attr_l nlm sizeof_nlmr RTA_PREFSRC (le_bytes 4 (addr iface)) w
    else (0, nlm, w) in
  let '(r3, nlm, w) :=
    add_attr_l nlm sizeof_nlmr RTA_GATEWAY (le_bytes 4 gateway) w in
  let '(r4, nlm, w) := add_attr_32 nlm sizeof_nlmr RTA_OIF ifindex w in
  let '(r5, nlm, w) := add_attr_32 nlm sizeof_nlmr RTA_PRIORITY metric w in
  ([r1; r2; r3; r4; r5], nlm, w).

(** [if_route (iface, destination, netmask, gateway, metric, action)] *)
Definition if_route (iface : interface) (destination netmask gateway : Z)
    (metric action : Z) (k : kernel) (w : state) : outcome kernel :=
  let ifindex := u32 (if_index k (name iface)) in
  if ifindex =? 0 then Returns (-1) k (set_errno ENODEV w)
  else
    let '(_, nlm, w) :=
      if_route_request iface destination netmask gateway metric action
        ifindex w in
    match send_netlink nlm k w with
    | Returns r k w => Returns (if r =? -1 then -1 else 0) k w
    | Hangs w => Hangs w
    end.

End Builders.

(** ** Specification-side views of a message *)

(** The attributes of a message, as [RTA_OK] and [RTA_NEXT] enumerate them
    from offset [rta] with [len] bytes left: the offsets of their headers. *)
Fixpoint rtattrs (fuel : nat) (buffer : block) (rta len : Z) : list Z :=
  if RTA_OK buffer rta len then
    rta :: match fuel with
           | O => []
           | S fuel' =>
               rtattrs fuel' buffer
                 (rta + RTA_ALIGN (rta_len buffer rta))
                 (s32 (len - RTA_ALIGN (rta_len buffer rta)))
           end
  else [].

(** The attributes of the link message at [nlm]. *)
Definition link_attrs (buffer : block) (nlm : Z) : list Z :=
  rtattrs (length buffer) buffer
    (NLMSG_DATA nlm + NLMSG_ALIGN sizeof_ifinfomsg)
    (NLMSG_PAYLOAD buffer nlm sizeof_ifinfomsg).

(** The message carries an attribute of type [t]. *)
Definition has_attr (buffer : block) (nlm : Z) (t : Z) : bool :=
  existsb (fun rta => rta_type buffer rta =? t) (link_attrs buffer nlm).

(** The interface name the message carries: that of its last name
    attribute, empty when it has none. *)
Definition link_name (buffer : block) (nlm : Z) : list Z :=
  fold_left
    (fun ifn rta =>
       if rta_type buffer rta =? IFLA_IFNAME
       then cstring buffer (RTA_DATA rta) (Z.to_nat IF_NAMESIZE)
       else ifn)
    (link_attrs buffer nlm) [].

(** A link-added or link-removed message with its fixed payload. *)
Definition is_link_msg (buffer : block) (nlm : Z) : Prop :=
  (nlmsg_type buffer nlm = RTM_NEWLINK \/ nlmsg_type buffer nlm = RTM_DELLINK)
  /\ NLMSG_LENGTH sizeof_ifinfomsg <= nlmsg_len buffer nlm.

Definition is_loopback (buffer : block) (nlm : Z) : bool :=
  negb (Z.land (ifi_flags buffer (NLMSG_DATA nlm)) IFF_LOOPBACK =? 0).

(** Wireless noise: a link-added message with a wireless-extension
    attribute and a zero change mask. *)
Definition is_wireless_noise (buffer : block) (nlm : Z) : bool :=
  (nlmsg_type buffer nlm =? RTM_NEWLINK)
  && (ifi_change buffer (NLMSG_DATA nlm) =? 0)
  && has_attr buffer nlm IFLA_WIRELESS.

(** What [if (f) f (arg);] adds to the calls made. *)
Definition dispatches (f : option listener) (arg : list Z)
    : list (listener * list Z) :=
  match f with
  | Some g => [(g, arg)]
  | None => []
  end.

(** The messages of a datagram, as [NLMSG_OK] and [NLMSG_NEXT] enumerate
    them from offset [nlm] with [bytes] bytes left: the offsets of their
    headers.  The list ends at a message that [NLMSG_NEXT] does not step
    over. *)
Fixpoint nlmsgs (fuel : nat) (buffer : block) (nlm bytes : Z) : list Z :=
  if NLMSG_OK buffer nlm (size_t bytes) then
    nlm :: match fuel with
           | O => []
           | S fuel' =>
               let step := NLMSG_ALIGN (nlmsg_len buffer nlm) in
               if step =? 0 then []
               else nlmsgs fuel' buffer (nlm + step) (bytes - step)
           end
  else [].

(** The receive buffer of [get_netlink] after a first datagram [bs], and
    the messages in it. *)
Definition first_buffer (bs : list Z) : block :=
  store (xzalloc BUFFERLEN) 0 (take (Z.to_nat BUFFERLEN) bs).

Definition first_nlmsgs (bs : list Z) : list Z :=
  nlmsgs (length (first_buffer bs)) (first_buffer bs) 0
    (Z.of_nat (length (take (Z.to_nat BUFFERLEN) bs))).

(** The first [n] system calls to come succeed. *)
Definition succeed (n : nat) (k : kernel) : Prop :=
  Forall (fun x => x = None) (take n (syscalls k)).

(** The state after [n] transactions of request [hdr] in a row, each
    against the kernel [k]. *)
Fixpoint transactions (n : nat) (hdr : block) (k : kernel) (w : state)
    : state :=
  match n with
  | O => w
  | S n' => final (send_netlink hdr k (transactions n' hdr k w))
  end.

(** ** Specification-side view of an append *)

(** The attribute at offset [rta] of [n'] has type [type] and value
    [data]. *)
Definition attr_written (n' : block) (rta type : Z) (data : list Z) : Prop :=
  rta_len n' rta = RTA_LENGTH (Z.of_nat (length data))
  /\ rta_type n' rta = u16 type
  /\ load n' (RTA_DATA rta) (length data) = data.

(** [n'] is [n] with an attribute of [alen] value bytes appended: the
    bytes of [n] up to its logical length are kept (but for the length
    field itself), the new logical length is the old one, aligned, plus the
    aligned length of the attribute, and the bytes behind the value, its
    padding included, are those [n] had there. *)
Definition attr_appended (n n' : block) (alen : Z) : Prop :=
  length n' = length n
  /\ (forall i : nat,
        4 <= Z.of_nat i < nlmsg_len n 0 -> n' !! i = n !! i)
  /\ nlmsg_len n' 0
     = NLMSG_ALIGN (nlmsg_len n 0) + RTA_ALIGN (RTA_LENGTH alen)
  /\ nlmsg_len n' 0 mod 4 = 0
  /\ (nlmsg_len n 0 mod 4 = 0 ->
      nlmsg_len n' 0 = nlmsg_len n 0 + RTA_ALIGN (RTA_LENGTH alen))
  /\ (forall i : nat,
        NLMSG_ALIGN (nlmsg_len n 0) + RTA_LENGTH alen <= Z.of_nat i ->
        n' !! i = n !! i).

(** The parts of the state other than [errno]. *)
Definition but_errno (w : state) : state := set_errno 0 w.

(** ** Sample data *)

Module Sample.

(** The state of a process that has made no transaction and has no
    listener. *)
Definition start : state := State 0 0 None None None [] [].

(** A kernel that knows one interface, of index 2, whatever its name. *)
Definition kernel_with (q : list received) : kernel :=
  Kernel (fun _ => 2) [] q.

Definition nlmsghdr (len type : Z) : list Z :=
  le_bytes 4 len ++ le_bytes 2 type ++ le_bytes 2 0
  ++ le_bytes 4 0 ++ le_bytes 4 0.

Definition ifinfomsg (flags change : Z) : list Z :=
  [0; 0] ++ le_bytes 2 1 ++ le_bytes 4 2
  ++ le_bytes 4 flags ++ le_bytes 4 change.

(** ["eth0"] *)
Definition eth0 : list Z := [101; 116; 104; 48].

(** A name attribute for ["eth0"] and a wireless-extension attribute. *)
Definition rta_ifname : list Z :=
  le_bytes 2 9 ++ le_bytes 2 IFLA_IFNAME ++ eth0 ++ [0; 0; 0; 0].
Definition rta_wireless : list Z :=
  le_bytes 2 8 ++ le_bytes 2 IFLA_WIRELESS ++ [1; 2; 3; 4].

(** Link messages about ["eth0"], and one that bears no name. *)
Definition newlink (flags change : Z) : list Z :=
  nlmsghdr 44 RTM_NEWLINK ++ ifinfomsg flags change ++ rta_ifname.
Definition dellink (flags change : Z) : list Z :=
  nlmsghdr 44 RTM_DELLINK ++ ifinfomsg flags change ++ rta_ifname.
Definition newlink_wireless : list Z :=
  nlmsghdr 52 RTM_NEWLINK ++ ifinfomsg 0 0 ++ rta_ifname ++ rta_wireless.
Definition dellink_nameless : list Z :=
  nlmsghdr 32 RTM_DELLINK ++ ifinfomsg 0 0.

(** A message of type [NLMSG_NOOP], which both handlers pass over. *)
Definition noop : list Z := nlmsghdr 16 1.

(** The acknowledgment of a request, with the kernel's error code. *)
Definition ack (code : Z) : list Z :=
  nlmsghdr 36 NLMSG_ERROR ++ le_bytes 4 code ++ nlmsghdr 16 RTM_NEWADDR.

(** A request that is only a header. *)
Definition request : block := nlmsghdr 16 RTM_NEWADDR.

(** An interface whose name is 60 characters long. *)
Definition long_name : interface := Interface (replicate 60 97) 0.

End Sample.

(** [n] is a message in a block of [maxlen] bytes, at least [lo] bytes
    long, whose first [lo] bytes are those of [n0] (but for the length
    field). *)
Definition same_fixed (lo maxlen : Z) (n0 n : block) : Prop :=
  Z.of_nat (length n) = maxlen
  /\ lo <= nlmsg_len n 0 <= maxlen
  /\ forall i, 4 <= i < lo -> get_u8 n i = get_u8 n0 i.

Module SampleRuns.
Import Sample.

(** A state with the three listeners registered. *)
Definition listening : state :=
  set_listeners (Some 1%positive) (Some 2%positive) (Some 3%positive) start.

(** Receive buffers holding one message. *)
Definition added : block := first_buffer (newlink 0 UINT_MAX).
Definition looped : block := first_buffer (newlink IFF_LOOPBACK 1).
Definition nameless : block := first_buffer dellink_nameless.
Definition denied : block := first_buffer (ack (- EACCES)).

(** A datagram of three messages. *)
Definition three : list Z := noop ++ dellink 0 1 ++ newlink 0 1.

(** A prefix-length function, and the interface ["eth0"]. *)
Definition cidr24 : Z -> Z := fun _ => 24.
Definition iface_eth0 : interface := Interface eth0 0.

(** The address message before its first attribute. *)
Definition bare_address : block := if_address_fixed cidr24 0 1 2.

End SampleRuns.

(** ** Specification-side view of the attributes of a request *)

(** Two blocks hold the same bytes from offset [lo] up to [hi]. *)
Definition agree (lo hi : Z) (m m' : block) : Prop :=
  forall i : nat, lo <= Z.of_nat i < hi -> m' !! i = m !! i.

(** The type of the attribute at offset [rta] and its value, the
    [RTA_PAYLOAD (rta)] bytes at [RTA_DATA (rta)]. *)
Definition attr_at (m : block) (rta : Z) : Z * list Z :=
  (rta_type m rta,
   load m (RTA_DATA rta) (Z.to_nat (rta_len m rta - RTA_LENGTH 0))).

(** The attributes of the message at offset 0 of [m] whose fixed payload
    is [size] bytes long, as a receiver enumerates them: from [IFA_RTA] or
    [RTM_RTA] with [IFA_PAYLOAD] or [RTM_PAYLOAD] bytes, by [RTA_OK] and
    [RTA_NEXT]. *)
Definition attributes (m : block) (size : Z) : list (Z * list Z) :=
  map (attr_at m)
    (rtattrs (length m) m (NLMSG_DATA 0 + NLMSG_ALIGN size)
       (NLMSG_PAYLOAD m 0 size)).

(** The attributes from offset [rta] on cover the bytes up to [e] exactly:
    each is at least a header long and the next one starts at its aligned
    end. *)
Fixpoint tiles (fuel : nat) (m : block) (rta e : Z) : bool :=
  if rta =? e then true
  else
    match fuel with
    | O => false
    | S fuel' =>
        (sizeof_rtattr <=? rta_len m rta)
        && (rta + rta_len m rta <=? e)
        && tiles fuel' m (rta + RTA_ALIGN (rta_len m rta)) e
    end.

(** [n] is a message with a fixed payload of [size] bytes in a block of
    [maxlen] bytes, and attributes cover the rest of its length. *)
Definition well_formed (size maxlen : Z) (n : block) : Prop :=
  Z.of_nat (length n) = maxlen
  /\ maxlen <= INT_MAX
  /\ 0 <= size <= maxlen
  /\ NLMSG_SPACE size <= nlmsg_len n 0 <= maxlen
  /\ tiles (length n) n (NLMSG_SPACE size) (nlmsg_len n 0) = true.

(** A run of appends whose results are dropped, as the builders make
    them. *)
Fixpoint add_attrs (n : block) (maxlen : Z) (attrs : list (Z * list Z))
    (w : state) : block * state :=
  match attrs with
  | [] => (n, w)
  | (type, data) :: rest =>
      let '(_, n, w) := add_attr_l n maxlen type data w in
      add_attrs n maxlen rest w
  end.

(** The room a list of attributes takes in a message. *)
Definition attrs_space (attrs : list (Z * list Z)) : Z :=
  foldr (fun a s => RTA_ALIGN (RTA_LENGTH (Z.of_nat (length a.2))) + s) 0
    attrs.

(** What a receiver reads back of an attribute given to [add_attr_l]: the
    type goes through the [unsigned short] field. *)
Definition as_written (a : Z * list Z) : Z * list Z := (u16 a.1, a.2).

(** ** The link socket *)

(** [socket (...)], where the descriptor matters: when the call succeeds
    its result is the descriptor the kernel hands out, [given], a number of
    the kernel's choosing; when it fails the result is -1 and [errno] is
    set. *)
Definition socket (given : Z) (k : kernel) (w : state) : Z * kernel * state :=
  let '(r, k, w) := syscall k w in
  (if r =? -1 then -1 else given, k, w).

Section LinkSocket.

(** [set_cloexec] is defined in [common.c], which is not part of the
    sources at hand: it is a parameter, a function of the descriptor on the
    state of the process.  Its result is not looked at. *)
Variable set_cloexec : Z -> state -> state.

(** [open_link_socket ()], in a kernel whose next descriptor is [given]. *)
Definition open_link_socket (given : Z) (k : kernel) (w : state)
    : Z * kernel * state :=
  let '(fd, k, w) := socket given k w in
  if fd =? -1 then (-1, k, w)
  else
    let '(b, k, w) := syscall k w in                     (* bind *)
    if b =? -1 then (-1, k, w)
    else (fd, k, set_cloexec fd w).

End LinkSocket.

(** ** Specification-side views of the pump *)

(** The [errno] of the first of the [n] system calls to come that fails. *)
Definition first_failure (n : nat) (k : kernel) : option Z :=
  head (omap id (take n (syscalls k))).

(** An interface name as a listener may be given it: at most IF_NAMESIZE
    characters, none of them NUL. *)
Definition good_name (ifn : list Z) : Prop :=
  Z.of_nat (length ifn) <= IF_NAMESIZE
  /\ Forall (fun c => 0 < c < 2 ^ 8) ifn.

(** The message at [nlm] lies within the first [bytes] bytes of the
    buffer, header included. *)
Definition within (buffer : block) (bytes : Z) (nlm : Z) : Prop :=
  0 <= nlm
  /\ sizeof_nlmsghdr <= nlmsg_len buffer nlm
  /\ nlm + nlmsg_len buffer nlm <= bytes.

(** What [recv] finds when it is interrupted [n] times in a row. *)
Definition interrupted (n : nat) : list received :=
  replicate n (RecvFails EINTR).

(** The receive buffer of the pump once it has read [p]: each datagram
    is copied over the start of what the buffer held. *)
Fixpoint buffer_after (p : list received) (buffer : block) : block :=
  match p with
  | [] => buffer
  | Datagram bs :: p' =>
      buffer_after p' (store buffer 0 (take (Z.to_nat BUFFERLEN) bs))
  | RecvFails _ :: p' => buffer_after p' buffer
  end.

(** The receive buffer once the datagram [bs] has been read into [buffer],
    and the messages the pump finds in it. *)
Definition buffer_with (buffer : block) (bs : list Z) : block :=
  store buffer 0 (take (Z.to_nat BUFFERLEN) bs).

Definition nlmsgs_in (buffer : block) (bs : list Z) : list Z :=
  nlmsgs (length (buffer_with buffer bs)) (buffer_with buffer bs) 0
    (Z.of_nat (length (take (Z.to_nat BUFFERLEN) bs))).

(** Neither a link-added nor a link-removed message. *)
Definition other_msg (buffer : block) (nlm : Z) : Prop :=
  nlmsg_type buffer nlm <> RTM_NEWLINK /\ nlmsg_type buffer nlm <> RTM_DELLINK.

(** The monitor passes over [p], read into [buffer]: every [recv] is
    interrupted, or reads a datagram in which the pump finds no link
    message and whose messages [NLMSG_NEXT] steps over, one after the
    other. *)
Fixpoint passed_over (p : list received) (buffer : block) : Prop :=
  match p with
  | [] => True
  | RecvFails e :: p' => e = EINTR /\ passed_over p' buffer
  | Datagram bs :: p' =>
      Forall (fun m => other_msg (buffer_with buffer bs) m
                       /\ NLMSG_ALIGN (nlmsg_len (buffer_with buffer bs) m)
                          <> 0)
        (nlmsgs_in buffer bs)
      /\ passed_over p' (buffer_with buffer bs)
  end.

(** The state of the process once the pump has passed over [p]: [errno]
    is EINTR if a [recv] was interrupted. *)
Definition after_interrupts (p : list received) (w : state) : state :=
  if existsb (fun x => match x with RecvFails _ => true | _ => false end) p
  then set_errno EINTR w else w.

Module SampleLinks.
Import Sample.

(** A link-removed message that stops after 8 bytes of its payload,
    behind a message of another type. *)
Definition cut_short : list Z :=
  noop ++ nlmsghdr 24 RTM_DELLINK ++ [0; 0; 0; 0; 0; 0; 0; 0].

(** A request is answered by a message of another type, then refused. *)
Definition refusal : list Z := noop ++ ack (- EACCES).

(** A kernel whose next system calls fare as [s] tells, with an
    acknowledgment waiting on the socket. *)
Definition kernel_failing (s : list (option Z)) : kernel :=
  Kernel (fun _ => 2) s [Datagram (ack 0)].

(** A [set_cloexec] that fails without a word but for [errno]. *)
Definition cloexec_fails : Z -> state -> state := fun _ => set_errno EACCES.


(** What the monitor passes over: an interrupted [recv], then a datagram
    of other people's messages. *)
Definition quiet : list received :=
  [RecvFails EINTR; Datagram (noop ++ ack 0)].

(** A datagram of two link messages, the first about the loopback
    interface. *)
Definition loopback_first : list Z :=
  newlink IFF_LOOPBACK 1 ++ dellink 0 1.

End SampleLinks.

(** * Properties *)

(** Case analysis on every test the goal branches on. *)
Ltac case_ifs :=
  repeat match goal with
         | |- context [if ?b then _ else _] => destruct b
         | |- context [match ?o with Some _ => _ | None => _ end] => destruct o
         end.

(** ** Integer conversions *)

Lemma u8_range z : 0 <= u8 z < 2 ^ 8.
Proof. unfold u8. apply Z.mod_pos_bound. lia. Qed.

Lemma u16_range z : 0 <= u16 z < 2 ^ 16.
Proof. unfold u16. apply Z.mod_pos_bound. lia. Qed.

Lemma u32_range z : 0 <= u32 z < 2 ^ 32.
Proof. unfold u32. apply Z.mod_pos_bound. lia. Qed.

Lemma u8_small z : 0 <= z < 2 ^ 8 -> u8 z = z.
Proof. intros. unfold u8. apply Z.mod_small. lia. Qed.

Lemma u16_small z : 0 <= z < 2 ^ 16 -> u16 z = z.
Proof. intros. unfold u16. apply Z.mod_small. lia. Qed.

Lemma u32_small z : 0 <= z < 2 ^ 32 -> u32 z = z.
Proof. intros. unfold u32. apply Z.mod_small. lia. Qed.

Lemma s32_small z : - 2 ^ 31 <= z < 2 ^ 31 -> s32 z = z.
Proof.
  intros Hz. unfold s32, u32.
  destruct (Z.ltb_spec (z mod 2 ^ 32) (2 ^ 31)) as [Hlt | Hge];
    Z.div_mod_to_equations; lia.
Qed.

Lemma s32_size_t z : s32 (size_t z) = s32 z.
Proof.
  unfold s32, u32, size_t.
  rewrite Z.mod_mod_divide; [reflexivity |].
  exists (2 ^ 32). reflexivity.
Qed.

Lemma size_t_nonneg z : 0 <= z < 2 ^ 64 -> size_t z = z.
Proof. intros. unfold size_t. apply Z.mod_small. lia. Qed.

Lemma size_t_neg z : - 2 ^ 31 <= z < 0 -> 2 ^ 63 <= size_t z.
Proof. intros. unfold size_t. Z.div_mod_to_equations. lia. Qed.

(** ** Alignment *)

Lemma align4_eq x : align4 x = 4 * (u32 (x + 3) / 4).
Proof.
  unfold align4.
  assert (Hr := u32_range (x + 3)).
  set (y := u32 (x + 3)) in *.
  assert (Hm : u32 (Z.lnot 3) = Z.land (Z.lnot 3) (Z.ones 32)).
  { unfold u32. rewrite Z.land_ones by lia. reflexivity. }
  rewrite Hm, (Z.land_comm (Z.lnot 3)), Z.land_assoc.
  rewrite (Z.land_ones y) by lia. rewrite (Z.mod_small y) by lia.
  rewrite <- Z.ldiff_land. change 3 with (Z.ones 2).
  rewrite Z.ldiff_ones_r by lia.
  rewrite Z.shiftr_div_pow2, Z.shiftl_mul_pow2 by lia.
  change (2 ^ 2) with 4. lia.
Qed.

Lemma align4_bounds x :
  0 <= x <= 2 ^ 32 - 4 -> x <= align4 x < x + 4 /\ align4 x mod 4 = 0.
Proof.
  intros Hx. rewrite align4_eq, u32_small by lia.
  split; [| rewrite Z.mul_comm; apply Z.mod_mul; lia].
  Z.div_mod_to_equations. lia.
Qed.

Lemma align4_aligned x : 0 <= x <= 2 ^ 32 - 4 -> x mod 4 = 0 -> align4 x = x.
Proof.
  intros Hx Hm. rewrite align4_eq, u32_small by lia.
  Z.div_mod_to_equations. lia.
Qed.

Lemma align4_range x : 0 <= align4 x < 2 ^ 32 /\ align4 x mod 4 = 0.
Proof.
  rewrite align4_eq. pose proof (u32_range (x + 3)).
  split; [| rewrite Z.mul_comm; apply Z.mod_mul; lia].
  Z.div_mod_to_equations. lia.
Qed.

(** ** Reading and writing a block *)

Lemma get_u8_range m a : 0 <= get_u8 m a < 2 ^ 8.
Proof. apply u8_range. Qed.

Lemma get_u16_range m a : 0 <= get_u16 m a < 2 ^ 16.
Proof.
  unfold get_u16. pose proof (get_u8_range m a).
  pose proof (get_u8_range m (a + 1)). lia.
Qed.

Lemma get_u32_range m a : 0 <= get_u32 m a < 2 ^ 32.
Proof.
  unfold get_u32. pose proof (get_u16_range m a).
  pose proof (get_u16_range m (a + 2)). lia.
Qed.

Lemma get_u8_outside m a : Z.of_nat (length m) <= a -> get_u8 m a = 0.
Proof.
  intros Ha. unfold get_u8.
  rewrite lookup_ge_None_2 by lia. reflexivity.
Qed.

Lemma get_u16_outside m a : Z.of_nat (length m) <= a -> get_u16 m a = 0.
Proof.
  intros Ha. unfold get_u16. rewrite !get_u8_outside by lia. reflexivity.
Qed.

Lemma get_u32_outside m a : Z.of_nat (length m) <= a -> get_u32 m a = 0.
Proof.
  intros Ha. unfold get_u32. rewrite !get_u16_outside by lia. reflexivity.
Qed.

Lemma length_store m a bs : length (store m a bs) = length m.
Proof. apply length_inserts. Qed.

Lemma length_le_bytes n v : length (le_bytes n v) = n.
Proof. revert v. induction n as [| n IH]; intros v; simpl; [| rewrite IH]; reflexivity. Qed.

(** A store leaves the bytes outside its range alone. *)
Lemma lookup_store_other m a bs (i : nat) :
  0 <= a ->
  (Z.of_nat i < a \/ a + Z.of_nat (length bs) <= Z.of_nat i) ->
  store m a bs !! i = m !! i.
Proof.
  intros Ha [Hlt | Hge]; unfold store.
  - apply list_lookup_inserts_lt. lia.
  - apply list_lookup_inserts_ge. lia.
Qed.

Lemma get_u8_store_other m a bs i :
  0 <= a -> 0 <= i ->
  (i < a \/ a + Z.of_nat (length bs) <= i) ->
  get_u8 (store m a bs) i = get_u8 m i.
Proof.
  intros Ha Hi Hout. unfold get_u8.
  rewrite lookup_store_other by lia. reflexivity.
Qed.

Lemma get_u16_store_other m a bs i :
  0 <= a -> 0 <= i ->
  (i + 2 <= a \/ a + Z.of_nat (length bs) <= i) ->
  get_u16 (store m a bs) i = get_u16 m i.
Proof.
  intros Ha Hi Hout. unfold get_u16.
  rewrite !get_u8_store_other by lia. reflexivity.
Qed.

Lemma get_u32_store_other m a bs i :
  0 <= a -> 0 <= i ->
  (i + 4 <= a \/ a + Z.of_nat (length bs) <= i) ->
  get_u32 (store m a bs) i = get_u32 m i.
Proof.
  intros Ha Hi Hout. unfold get_u32.
  rewrite !get_u16_store_other by lia. reflexivity.
Qed.

(** Inside the block, a store is read back. *)
Lemma lookup_store_inside m a bs (i : nat) :
  0 <= a ->
  a <= Z.of_nat i < a + Z.of_nat (length bs) ->
  Z.of_nat i < Z.of_nat (length m) ->
  store m a bs !! i = bs !! (i - Z.to_nat a)%nat.
Proof.
  intros Ha Hi Hm. unfold store. apply list_lookup_inserts; lia.
Qed.

Lemma load_store m a bs :
  0 <= a -> a + Z.of_nat (length bs) <= Z.of_nat (length m) ->
  load (store m a bs) a (length bs) = bs.
Proof.
  intros Ha Hfit. unfold load. apply list_eq. intros i.
  destruct (decide (i < length bs)%nat) as [Hi | Hi].
  - rewrite lookup_take_lt, lookup_drop by lia.
    rewrite lookup_store_inside by lia. f_equal. lia.
  - rewrite lookup_take_ge by lia. symmetry. apply lookup_ge_None. lia.
Qed.

Lemma get_u8_store_inside m a bs i :
  0 <= a -> a <= i < a + Z.of_nat (length bs) ->
  i < Z.of_nat (length m) ->
  get_u8 (store m a bs) i = u8 (default 0 (bs !! Z.to_nat (i - a))).
Proof.
  intros Ha Hi Hm. unfold get_u8.
  rewrite lookup_store_inside by lia.
  do 3 f_equal. lia.
Qed.

Lemma u8_u8 z : u8 (u8 z) = u8 z.
Proof. unfold u8. apply Z.mod_mod. lia. Qed.

Lemma get_u8_set_u8 m a v :
  0 <= a < Z.of_nat (length m) -> get_u8 (set_u8 m a v) a = u8 v.
Proof.
  intros Ha. unfold set_u8.
  rewrite get_u8_store_inside by (simpl; lia).
  rewrite Z.sub_diag. simpl. apply u8_u8.
Qed.

Lemma get_u16_set_u16 m a v :
  0 <= a -> a + 2 <= Z.of_nat (length m) ->
  get_u16 (set_u16 m a v) a = u16 v.
Proof.
  intros Ha Hm. unfold set_u16, get_u16.
  rewrite !get_u8_store_inside by (simpl; lia).
  rewrite Z.sub_diag. replace (a + 1 - a) with 1 by lia. simpl.
  rewrite !u8_u8. unfold u8, u16.
  replace (2 ^ 16) with (2 ^ 8 * 2 ^ 8) by reflexivity.
  rewrite Z.rem_mul_r by lia. reflexivity.
Qed.

Lemma get_u32_set_u32 m a v :
  0 <= a -> a + 4 <= Z.of_nat (length m) ->
  get_u32 (set_u32 m a v) a = u32 v.
Proof.
  intros Ha Hm. unfold set_u32, get_u32, get_u16.
  rewrite !get_u8_store_inside by (simpl; lia).
  rewrite Z.sub_diag. replace (a + 1 - a) with 1 by lia.
  replace (a + 2 - a) with 2 by lia. replace (a + 2 + 1 - a) with 3 by lia.
  simpl. rewrite !u8_u8. unfold u8, u32.
  change (2 ^ 32) with (2 ^ 8 * (2 ^ 8 * (2 ^ 8 * 2 ^ 8))).
  rewrite !Z.rem_mul_r by lia. lia.
Qed.

Lemma load_store_other m a bs b (k : nat) :
  0 <= a -> 0 <= b ->
  (b + Z.of_nat k <= a \/ a + Z.of_nat (length bs) <= b) ->
  load (store m a bs) b k = load m b k.
Proof.
  intros Ha Hb Hout. unfold load. apply list_eq. intros i.
  destruct (decide (i < k)%nat) as [Hi | Hi].
  - rewrite !lookup_take_lt, !lookup_drop by lia.
    apply lookup_store_other; lia.
  - rewrite !lookup_take_ge by lia. reflexivity.
Qed.

(** ** The attribute codec *)

Lemma RTA_LENGTH_eq alen : RTA_LENGTH alen = 4 + alen.
Proof. reflexivity. Qed.

Lemma RTA_DATA_eq rta : RTA_DATA rta = rta + 4.
Proof. unfold RTA_DATA. rewrite RTA_LENGTH_eq. lia. Qed.

Lemma NLMSG_HDRLEN_eq : NLMSG_HDRLEN = 16.
Proof. reflexivity. Qed.

(** The four writes of a successful append, at the aligned tail [rta] of a
    message that has its header and fits its block. *)
Lemma attr_writes n type len data total :
  let rta := NLMSG_ALIGN (nlmsg_len n 0) in
  let n' :=
    set_u32 (store (set_u16 (set_u16 n (rta + 2) type) rta len)
               (RTA_DATA rta) data) 0 total in
  NLMSG_HDRLEN <= nlmsg_len n 0 <= Z.of_nat (length n) ->
  rta + 4 + Z.of_nat (length data) <= Z.of_nat (length n) ->
  Z.of_nat (length n) <= INT_MAX ->
  length n' = length n
  /\ (forall i : nat, 4 <= Z.of_nat i < nlmsg_len n 0 -> n' !! i = n !! i)
  /\ nlmsg_len n' 0 = u32 total
  /\ rta_len n' rta = u16 len
  /\ rta_type n' rta = u16 type
  /\ load n' (RTA_DATA rta) (length data) = data
  /\ (forall i : nat,
        rta + 4 + Z.of_nat (length data) <= Z.of_nat i -> n' !! i = n !! i).
Proof.
  intros rta n' [Hhdr Hin] Hfit Hmax. subst n'.
  rewrite NLMSG_HDRLEN_eq in Hhdr. unfold INT_MAX in Hmax.
  assert (Hrta : nlmsg_len n 0 <= rta < nlmsg_len n 0 + 4).
  { unfold rta, NLMSG_ALIGN. apply align4_bounds. lia. }
  rewrite RTA_DATA_eq. unfold set_u16, set_u32.
  repeat split.
  - rewrite !length_store. reflexivity.
  - intros i Hi. rewrite !lookup_store_other; [reflexivity | ..];
      rewrite ?length_le_bytes; simpl; lia.
  - unfold nlmsg_len. change (store ?m 0 (le_bytes 4 total)) with (set_u32 m 0 total).
    apply get_u32_set_u32; [lia |]. rewrite !length_store. lia.
  - unfold rta_len.
    rewrite !get_u16_store_other by (rewrite ?length_le_bytes; simpl; lia).
    change (store ?m rta (le_bytes 2 len)) with (set_u16 m rta len).
    apply get_u16_set_u16; [lia |]. rewrite !length_store. lia.
  - unfold rta_type.
    rewrite !get_u16_store_other by (rewrite ?length_le_bytes; simpl; lia).
    change (store ?m (rta + 2) (le_bytes 2 type)) with (set_u16 m (rta + 2) type).
    apply get_u16_set_u16; [lia |]. lia.
  - rewrite load_store_other by (simpl; lia).
    apply load_store; [lia |]. rewrite !length_store. lia.
  - intros i Hi. rewrite !lookup_store_other; [reflexivity | ..];
      rewrite ?length_le_bytes; simpl; lia.
Qed.

(** What [add_attr_l] does to a message that has its header, lies within
    its capacity, the capacity within the block. *)
Lemma add_attr_l_spec n maxlen type data w :
  NLMSG_HDRLEN <= nlmsg_len n 0 <= maxlen ->
  maxlen <= Z.of_nat (length n) <= INT_MAX ->
  RTA_LENGTH (Z.of_nat (length data)) < 2 ^ 16 ->
  let rta := NLMSG_ALIGN (nlmsg_len n 0) in
  let alen := Z.of_nat (length data) in
  if rta + RTA_ALIGN (RTA_LENGTH alen) >? maxlen
  then add_attr_l n maxlen type data w = (-1, n, set_errno ENOBUFS w)
  else exists n',
      add_attr_l n maxlen type data w = (0, n', w)
      /\ attr_written n' rta type data
      /\ attr_appended n n' alen.
Proof.
  intros [Hhdr Hcap] [Hblk Hmax] Hlen rta alen.
  pose proof Hhdr as Hhdr'. pose proof Hmax as Hmax'.
  rewrite NLMSG_HDRLEN_eq in Hhdr'. unfold INT_MAX in Hmax'.
  rewrite RTA_LENGTH_eq in Hlen.
  assert (Hrta : nlmsg_len n 0 <= rta < nlmsg_len n 0 + 4 /\ rta mod 4 = 0).
  { apply align4_bounds. lia. }
  assert (Hal : forall l, 0 <= l < 2 ^ 16 ->
                  l <= RTA_ALIGN l < l + 4 /\ RTA_ALIGN l mod 4 = 0).
  { intros l Hl. apply align4_bounds. lia. }
  assert (Haligned : forall a, a mod 4 = 0 -> (rta + a) mod 4 = 0).
  { intros a Ha. rewrite Z.add_mod, Ha by lia. destruct Hrta as [_ ->]. reflexivity. }
  unfold add_attr_l. fold alen. rewrite RTA_LENGTH_eq.
  rewrite (s32_small (4 + alen)) by (subst alen; lia).
  fold rta. destruct (Hal (4 + alen)) as [Hb Hm]; [subst alen; lia |].
  rewrite (u32_small (rta + _)) by lia.
  destruct (Z.gtb_spec (rta + RTA_ALIGN (4 + alen)) maxlen) as [Hgt | Hle];
    [reflexivity |].
  unfold NLMSG_TAIL. fold rta.
  destruct (attr_writes n type (4 + alen) data
              (rta + RTA_ALIGN (4 + alen)))
    as (Hl & Hfr & Hnl & Hrl & Hrt & Hld & Hbehind);
    [lia | fold rta; subst alen; lia | lia |].
  fold rta in Hl, Hfr, Hnl, Hrl, Hrt, Hld, Hbehind.
  set (n3 := store _ (RTA_DATA rta) data) in *.
  assert (Hkeep : nlmsg_len n3 0 = nlmsg_len n 0).
  { subst n3. unfold nlmsg_len, set_u16. rewrite RTA_DATA_eq.
    rewrite !get_u32_store_other by (rewrite ?length_le_bytes; simpl; lia).
    reflexivity. }
  rewrite Hkeep. fold rta.
  eexists. split; [reflexivity |].
  rewrite u32_small in Hnl by lia. rewrite u16_small in Hrl by (subst alen; lia).
  split; [| split; [| split; [| split; [| split; [| split]]]]].
  - split; [| split]; [exact Hrl | exact Hrt | exact Hld].
  - exact Hl.
  - exact Hfr.
  - exact Hnl.
  - rewrite Hnl. apply Haligned, Hm.
  - intros Ha. rewrite Hnl. unfold rta, NLMSG_ALIGN.
    rewrite (align4_aligned (nlmsg_len n 0)) by lia. reflexivity.
  - intros i Hi. apply Hbehind. rewrite RTA_LENGTH_eq in Hi.
    fold rta in Hi. subst alen. lia.
Qed.

(** The same for [add_attr_32]. *)
Lemma add_attr_32_spec n maxlen type v w :
  NLMSG_HDRLEN <= nlmsg_len n 0 <= maxlen ->
  maxlen <= Z.of_nat (length n) <= INT_MAX ->
  let rta := NLMSG_ALIGN (nlmsg_len n 0) in
  if rta + RTA_ALIGN (RTA_LENGTH 4) >? maxlen
  then add_attr_32 n maxlen type v w = (-1, n, set_errno ENOBUFS w)
  else exists n',
      add_attr_32 n maxlen type v w = (0, n', w)
      /\ attr_written n' rta type (le_bytes 4 v)
      /\ attr_appended n n' 4.
Proof.
  intros [Hhdr Hcap] [Hblk Hmax] rta.
  pose proof Hhdr as Hhdr'. pose proof Hmax as Hmax'.
  rewrite NLMSG_HDRLEN_eq in Hhdr'. unfold INT_MAX in Hmax'.
  assert (Hrta : nlmsg_len n 0 <= rta < nlmsg_len n 0 + 4 /\ rta mod 4 = 0).
  { apply align4_bounds. lia. }
  assert (Haligned : forall a, a mod 4 = 0 -> (rta + a) mod 4 = 0).
  { intros a Ha. rewrite Z.add_mod, Ha by lia. destruct Hrta as [_ ->]. reflexivity. }
  unfold add_attr_32. rewrite RTA_LENGTH_eq.
  change (s32 (4 + 4)) with 8. change (RTA_ALIGN (4 + 4)) with 8.
  fold rta. rewrite (u32_small (rta + 8)) by lia.
  destruct (Z.gtb_spec (rta + 8) maxlen) as [Hgt | Hle]; [reflexivity |].
  unfold NLMSG_TAIL. fold rta.
  destruct (attr_writes n type 8 (le_bytes 4 v) (rta + 8))
    as (Hl & Hfr & Hnl & Hrl & Hrt & Hld & Hbehind);
    [lia | fold rta; rewrite length_le_bytes; lia | lia |].
  fold rta in Hl, Hfr, Hnl, Hrl, Hrt, Hld, Hbehind.
  set (n3 := store _ (RTA_DATA rta) (le_bytes 4 v)) in *.
  assert (Hkeep : nlmsg_len n3 0 = nlmsg_len n 0).
  { subst n3. unfold nlmsg_len, set_u16. rewrite RTA_DATA_eq.
    rewrite !get_u32_store_other by (rewrite ?length_le_bytes; simpl; lia).
    reflexivity. }
  rewrite Hkeep. fold rta.
  eexists. split; [reflexivity |].
  rewrite u32_small in Hnl by lia. rewrite length_le_bytes in Hld, Hbehind.
  split; [| split; [| split; [| split; [| split; [| split]]]]].
  - split; [| split]; [| exact Hrt |].
    + rewrite length_le_bytes. exact Hrl.
    + rewrite length_le_bytes. exact Hld.
  - exact Hl.
  - exact Hfr.
  - exact Hnl.
  - rewrite Hnl. apply Haligned. reflexivity.
  - intros Ha. rewrite Hnl. unfold rta, NLMSG_ALIGN.
    rewrite (align4_aligned (nlmsg_len n 0)) by lia. reflexivity.
  - intros i Hi. apply Hbehind. rewrite RTA_LENGTH_eq in Hi.
    fold rta in Hi. simpl Z.of_nat. lia.
Qed.

(** C7.  An append ([add_attr_l], [add_attr_32]) whose aligned length would
    take the message past the capacity [maxlen] leaves the message as it
    was, logical length included, and reports ENOBUFS; any other append
    writes the attribute header and the value at the aligned tail, and
    nothing else, and moves the logical length forward by the aligned
    length of the attribute, to a 4-byte boundary.  The message has its
    header and lies within its capacity, the capacity within the block, and
    the attribute length fits the 16-bit length field. *)
Theorem add_attr_overflow_or_append n maxlen type data v w :
  NLMSG_HDRLEN <= nlmsg_len n 0 <= maxlen ->
  maxlen <= Z.of_nat (length n) <= INT_MAX ->
  RTA_LENGTH (Z.of_nat (length data)) < 2 ^ 16 ->
  let rta := NLMSG_ALIGN (nlmsg_len n 0) in
  let alen := Z.of_nat (length data) in
  (if rta + RTA_ALIGN (RTA_LENGTH alen) >? maxlen
   then add_attr_l n maxlen type data w = (-1, n, set_errno ENOBUFS w)
   else exists n',
       add_attr_l n maxlen type data w = (0, n', w)
       /\ attr_written n' rta type data
       /\ attr_appended n n' alen)
  /\
  (if rta + RTA_ALIGN (RTA_LENGTH 4) >? maxlen
   then add_attr_32 n maxlen type v w = (-1, n, set_errno ENOBUFS w)
   else exists n',
       add_attr_32 n maxlen type v w = (0, n', w)
       /\ attr_written n' rta type (le_bytes 4 v)
       /\ attr_appended n n' 4).
Proof.
  intros Hmsg Hcap Hlen rta alen. split.
  - exact (add_attr_l_spec n maxlen type data w Hmsg Hcap Hlen).
  - exact (add_attr_32_spec n maxlen type v w Hmsg Hcap).
Qed.

(** ** The link event monitor *)

Lemma s32_range z : - 2 ^ 31 <= s32 z < 2 ^ 31.
Proof.
  unfold s32. pose proof (u32_range z).
  destruct (Z.ltb_spec (u32 z) (2 ^ 31)); lia.
Qed.

(** The test on the fixed payload lets a message through as soon as its
    length covers the header and the payload. *)
Lemma payload_check m nlm size :
  0 <= size < 2 ^ 31 ->
  NLMSG_LENGTH size <= nlmsg_len m nlm ->
  (size_t (s32 (size_t (nlmsg_len m nlm - sizeof_nlmsghdr))) <? size) = false.
Proof.
  intros Hs Hlen. unfold NLMSG_LENGTH in Hlen.
  rewrite NLMSG_HDRLEN_eq in Hlen. unfold sizeof_nlmsghdr.
  pose proof (get_u32_range m nlm) as Hr. unfold nlmsg_len in *.
  rewrite s32_size_t. apply Z.ltb_ge.
  pose proof (s32_range (get_u32 m nlm - 16)) as Hs32.
  destruct (Z.lt_ge_cases (get_u32 m nlm - 16) (2 ^ 31)) as [Hlt | Hge].
  - rewrite s32_small by lia. rewrite size_t_nonneg by lia. lia.
  - assert (Hneg : s32 (get_u32 m nlm - 16) < 0).
    { unfold s32. rewrite u32_small by lia.
      destruct (Z.ltb_spec (get_u32 m nlm - 16) (2 ^ 31)); lia. }
    pose proof (size_t_neg (s32 (get_u32 m nlm - 16))). lia.
Qed.

(** The loop over the attributes, against the list of the attributes. *)
Lemma scan_rtattrs_spec fuel buffer nlm ifi rta len ifn :
  scan_rtattrs fuel buffer nlm ifi rta len ifn =
  if (nlmsg_type buffer nlm =? RTM_NEWLINK)
     && (ifi_change buffer ifi =? 0)
     && existsb (fun a => rta_type buffer a =? IFLA_WIRELESS)
          (rtattrs fuel buffer rta len)
  then None
  else Some (fold_left
               (fun ifn a =>
                  if rta_type buffer a =? IFLA_IFNAME
                  then cstring buffer (RTA_DATA a) (Z.to_nat IF_NAMESIZE)
                  else ifn)
               (rtattrs fuel buffer rta len) ifn).
Proof.
  revert rta len ifn.
  induction fuel as [| fuel IH]; intros rta len ifn; simpl;
    destruct (RTA_OK buffer rta len); simpl;
    destruct (nlmsg_type buffer nlm =? RTM_NEWLINK) eqn:Hn;
    destruct (ifi_change buffer ifi =? 0) eqn:Hc;
    destruct (rta_type buffer rta =? IFLA_WIRELESS) eqn:Hw; simpl;
    rewrite ?IH, ?Hn, ?Hc; reflexivity.
Qed.

(** What [link_netlink] does with a link message. *)
Lemma link_netlink_spec buffer nlm w :
  is_link_msg buffer nlm ->
  link_netlink buffer nlm w =
  if is_loopback buffer nlm || is_wireless_noise buffer nlm then (1, w)
  else
    (1, call_if_set
          (if nlmsg_type buffer nlm =? RTM_NEWLINK then
             if ifi_change buffer (NLMSG_DATA nlm) =? UINT_MAX
             then nl_add w else nl_carrier w
           else nl_remove w)
          (link_name buffer nlm) w).
Proof.
  intros [Htype Hlen]. unfold link_netlink.
  assert (Hlink : negb (nlmsg_type buffer nlm =? RTM_NEWLINK)
                  && negb (nlmsg_type buffer nlm =? RTM_DELLINK) = false).
  { destruct Htype as [-> | ->]; reflexivity. }
  rewrite Hlink, payload_check by (try exact Hlen; unfold sizeof_ifinfomsg; lia).
  unfold is_loopback.
  destruct (Z.land (ifi_flags buffer (NLMSG_DATA nlm)) IFF_LOOPBACK =? 0);
    simpl; [| reflexivity].
  rewrite scan_rtattrs_spec. unfold is_wireless_noise, has_attr, link_attrs.
  destruct (_ && _ && existsb _ _); [reflexivity |].
  unfold link_name, link_attrs.
  destruct (nlmsg_type buffer nlm =? RTM_NEWLINK); [| reflexivity].
  destruct (ifi_change buffer (NLMSG_DATA nlm) =? UINT_MAX); reflexivity.
Qed.

(** A message without a name attribute carries the empty name. *)
Lemma link_name_without_attr buffer nlm :
  has_attr buffer nlm IFLA_IFNAME = false -> link_name buffer nlm = [].
Proof.
  unfold has_attr, link_name.
  generalize (link_attrs buffer nlm) as attrs. intros attrs.
  generalize (@nil Z) as ifn.
  induction attrs as [| a attrs IH]; intros ifn Hnone; simpl in *;
    [reflexivity |].
  apply orb_false_iff in Hnone as [Ha Hrest].
  rewrite Ha. apply IH, Hrest.
Qed.

Lemma calls_call_if_set f arg w :
  calls (call_if_set f arg w) = calls w ++ dispatches f arg.
Proof. destruct f; simpl; [reflexivity | rewrite app_nil_r; reflexivity]. Qed.

(** C3, as amended.  A link message that is neither from a loopback
    interface nor wireless noise makes [link_netlink] answer 1 and call the
    listener of its class with the interface name, when that listener is
    registered: the added listener for a link-added message whose change
    mask has every bit set, the carrier listener for any other link-added
    message, the removed listener for a link-removed message.  That call is
    the only one; without a listener for the class there is none. *)
Theorem link_netlink_classifies buffer nlm w :
  is_link_msg buffer nlm ->
  is_loopback buffer nlm = false ->
  is_wireless_noise buffer nlm = false ->
  let ifn := link_name buffer nlm in
  let '(r, w') := link_netlink buffer nlm w in
  r = 1
  /\ errno w' = errno w
  /\ (nlmsg_type buffer nlm = RTM_NEWLINK ->
      ifi_change buffer (NLMSG_DATA nlm) = UINT_MAX ->
      calls w' = calls w ++ dispatches (nl_add w) ifn)
  /\ (nlmsg_type buffer nlm = RTM_NEWLINK ->
      ifi_change buffer (NLMSG_DATA nlm) <> UINT_MAX ->
      calls w' = calls w ++ dispatches (nl_carrier w) ifn)
  /\ (nlmsg_type buffer nlm = RTM_DELLINK ->
      calls w' = calls w ++ dispatches (nl_remove w) ifn).
Proof.
  intros Hmsg Hlo Hwl ifn.
  rewrite (link_netlink_spec _ _ _ Hmsg), Hlo, Hwl. simpl.
  rewrite calls_call_if_set.
  split; [reflexivity |]. split; [destruct (if _ =? _ then _ else _); reflexivity |].
  split; [| split].
  - intros -> ->. reflexivity.
  - intros -> Hne. apply Z.eqb_neq in Hne. rewrite Hne. reflexivity.
  - intros ->. reflexivity.
Qed.

(** C8.  A link message from a loopback interface, and a link-added
    message with a wireless-extension attribute and a zero change mask, are
    consumed: [link_netlink] answers 1 and leaves the state as it was, so no
    listener is called and [errno] is not set. *)
Theorem link_netlink_filters buffer nlm w :
  is_link_msg buffer nlm ->
  is_loopback buffer nlm = true \/ is_wireless_noise buffer nlm = true ->
  link_netlink buffer nlm w = (1, w).
Proof.
  intros Hmsg Hfilter. rewrite (link_netlink_spec _ _ _ Hmsg).
  destruct Hfilter as [-> | ->]; [| rewrite orb_true_r]; reflexivity.
Qed.

(** C10.  A link message that passes both filters and has no name
    attribute still makes [link_netlink] call the listener of its class,
    when registered, and the argument is the empty string. *)
Theorem link_netlink_without_name buffer nlm w :
  is_link_msg buffer nlm ->
  is_loopback buffer nlm = false ->
  is_wireless_noise buffer nlm = false ->
  has_attr buffer nlm IFLA_IFNAME = false ->
  let '(r, w') := link_netlink buffer nlm w in
  r = 1
  /\ calls w' =
     calls w ++
     dispatches
       (if nlmsg_type buffer nlm =? RTM_NEWLINK then
          if ifi_change buffer (NLMSG_DATA nlm) =? UINT_MAX
          then nl_add w else nl_carrier w
        else nl_remove w) [].
Proof.
  intros Hmsg Hlo Hwl Hname.
  rewrite (link_netlink_spec _ _ _ Hmsg), Hlo, Hwl. simpl.
  rewrite calls_call_if_set, (link_name_without_attr _ _ Hname).
  split; reflexivity.
Qed.

(** ** The receive pump *)

(** The three answers of the pump to a failed [recv]. *)
Lemma get_netlink_loop_eagain flags callback q buffer r w :
  get_netlink_loop flags callback (RecvFails EAGAIN :: q) buffer r w
  = Returns 0 q (set_errno EAGAIN w).
Proof. reflexivity. Qed.

Lemma get_netlink_loop_eintr flags callback q buffer r w :
  get_netlink_loop flags callback (RecvFails EINTR :: q) buffer r w
  = get_netlink_loop flags callback q buffer r (set_errno EINTR w).
Proof. reflexivity. Qed.

Lemma get_netlink_loop_failure flags callback e q buffer r w :
  e <> EAGAIN -> e <> EINTR ->
  get_netlink_loop flags callback (RecvFails e :: q) buffer r w
  = Returns r q (set_errno e w).
Proof.
  intros Ha Hi. simpl.
  apply Z.eqb_neq in Ha, Hi. rewrite Ha, Hi. reflexivity.
Qed.

(** A failure of the very first [recv] is reported as -1. *)
Lemma get_netlink_first_failure fd flags callback e q k w :
  incoming k = RecvFails e :: q ->
  e <> EAGAIN -> e <> EINTR ->
  get_netlink fd flags callback k w
  = Returns (-1) (set_incoming q k) (set_errno e w).
Proof.
  intros Hq Ha Hi. unfold get_netlink.
  rewrite Hq, get_netlink_loop_failure by assumption. reflexivity.
Qed.

(** With nothing left to read, a non-blocking pump ends with 0. *)
Lemma get_netlink_loop_drained callback buffer r w :
  get_netlink_loop MSG_DONTWAIT callback [] buffer r w
  = Returns 0 [] (set_errno EAGAIN w).
Proof. reflexivity. Qed.

(** The walk stops at the first message for which the handler answers
    non-zero, with the state that call left. *)
Lemma for_each_nlmsg_stops callback fuel buffer nlm bytes r w pre o post :
  nlmsgs fuel buffer nlm bytes = pre ++ o :: post ->
  Forall (fun p => callback buffer p w = (0, w)) pre ->
  fst (callback buffer o w) <> 0 ->
  for_each_nlmsg fuel callback buffer nlm bytes r w
  = Stopped (fst (callback buffer o w)) (snd (callback buffer o w)).
Proof.
  revert nlm bytes r pre.
  induction fuel as [| fuel IH]; intros nlm bytes r pre Hmsgs Hpre Hstop;
    simpl in *; destruct (NLMSG_OK buffer nlm (size_t bytes));
    try (destruct pre; discriminate Hmsgs).
  - destruct pre as [| p [| p' pre]]; try discriminate Hmsgs.
    injection Hmsgs as <- _.
    destruct (callback buffer nlm w) as [r' w'] eqn:Hcb. simpl in *.
    apply Z.eqb_neq in Hstop. rewrite Hstop. reflexivity.
  - destruct pre as [| p pre]; simpl in Hmsgs; injection Hmsgs as <- Hrest.
    + destruct (callback buffer nlm w) as [r' w'] eqn:Hcb. simpl in *.
      apply Z.eqb_neq in Hstop. rewrite Hstop. reflexivity.
    + apply Forall_cons in Hpre as [Hp Hpre]. rewrite Hp. simpl.
      destruct (NLMSG_ALIGN (nlmsg_len buffer nlm) =? 0);
        [destruct pre; discriminate Hrest |].
      apply IH with (pre := pre); assumption.
Qed.

(** [link_netlink] passes over anything but a link message. *)
Lemma link_netlink_other buffer nlm w :
  nlmsg_type buffer nlm <> RTM_NEWLINK ->
  nlmsg_type buffer nlm <> RTM_DELLINK ->
  link_netlink buffer nlm w = (0, w).
Proof.
  intros Hn Hd. unfold link_netlink.
  apply Z.eqb_neq in Hn, Hd. rewrite Hn, Hd. reflexivity.
Qed.

(** A link message cut short of its fixed payload is refused. *)
Lemma link_netlink_truncated buffer nlm w :
  nlmsg_type buffer nlm = RTM_NEWLINK \/ nlmsg_type buffer nlm = RTM_DELLINK ->
  NLMSG_HDRLEN <= nlmsg_len buffer nlm < NLMSG_LENGTH sizeof_ifinfomsg ->
  link_netlink buffer nlm w = (-1, set_errno EBADMSG w).
Proof.
  intros Htype Hlen. unfold link_netlink.
  assert (Hlink : negb (nlmsg_type buffer nlm =? RTM_NEWLINK)
                  && negb (nlmsg_type buffer nlm =? RTM_DELLINK) = false).
  { destruct Htype as [-> | ->]; reflexivity. }
  rewrite Hlink, s32_size_t.
  change (NLMSG_LENGTH sizeof_ifinfomsg) with 32 in Hlen.
  rewrite NLMSG_HDRLEN_eq in Hlen. unfold sizeof_nlmsghdr, sizeof_ifinfomsg.
  rewrite s32_small, size_t_nonneg by lia.
  destruct (Z.ltb_spec (nlmsg_len buffer nlm - 16) 16); [reflexivity | lia].
Qed.

(** Once a message has been handled, a walk that goes back to [recv]
    carries the result 0. *)
Lemma for_each_nlmsg_finished_zero callback fuel buffer nlm bytes r w r' w' :
  NLMSG_OK buffer nlm (size_t bytes) = true ->
  for_each_nlmsg fuel callback buffer nlm bytes r w = Finished r' w' ->
  r' = 0.
Proof.
  revert nlm bytes r w.
  induction fuel as [| fuel IH]; intros nlm bytes r w Hok Hwalk;
    simpl in Hwalk; rewrite Hok in Hwalk;
    destruct (callback buffer nlm w) as [r1 w1];
    destruct (Z.eqb_spec r1 0) as [-> | Hne]; simpl in Hwalk;
    try discriminate Hwalk.
  destruct (NLMSG_ALIGN (nlmsg_len buffer nlm) =? 0); [discriminate Hwalk |].
  destruct (NLMSG_OK buffer (nlm + NLMSG_ALIGN (nlmsg_len buffer nlm))
              (size_t (bytes - NLMSG_ALIGN (nlmsg_len buffer nlm)))) eqn:Hnext.
  - exact (IH _ _ _ _ Hnext Hwalk).
  - destruct fuel; simpl in Hwalk; rewrite Hnext in Hwalk;
      injection Hwalk as <- _; reflexivity.
Qed.

(** So a [recv] failure that comes after a datagram in which a message was
    handled is returned as 0. *)
Lemma get_netlink_loop_failure_after flags callback bs e q buffer r w r1 w1 :
  let buffer' := store buffer 0 (take (Z.to_nat BUFFERLEN) bs) in
  let bytes := Z.of_nat (length (take (Z.to_nat BUFFERLEN) bs)) in
  NLMSG_OK buffer' 0 (size_t bytes) = true ->
  for_each_nlmsg (length buffer') callback buffer' 0 bytes r w
  = Finished r1 w1 ->
  e <> EAGAIN -> e <> EINTR ->
  get_netlink_loop flags callback (Datagram bs :: RecvFails e :: q) buffer r w
  = Returns 0 q (set_errno e w1).
Proof.
  intros buffer' bytes Hok Hwalk Ha Hi. cbn [get_netlink_loop].
  fold buffer'. fold bytes. rewrite Hwalk.
  apply for_each_nlmsg_finished_zero in Hwalk as ->; [| exact Hok].
  apply Z.eqb_neq in Ha, Hi. rewrite Ha, Hi. reflexivity.
Qed.

(** One call of [link_netlink] makes at most one listener call, and none
    when it answers 0. *)
Lemma link_netlink_calls buffer nlm w :
  let '(r, w') := link_netlink buffer nlm w in
  (r = 0 -> w' = w)
  /\ exists l, calls w' = calls w ++ l /\ (length l <= 1)%nat.
Proof.
  unfold link_netlink.
  assert (Hsame : exists l, calls w = calls w ++ l /\ (length l <= 1)%nat).
  { exists []. rewrite app_nil_r. split; [reflexivity | simpl; lia]. }
  assert (Hcall : forall f ifn,
             exists l, calls (call_if_set f ifn w) = calls w ++ l
                       /\ (length l <= 1)%nat).
  { intros f ifn. exists (dispatches f ifn). rewrite calls_call_if_set.
    split; [reflexivity | destruct f; simpl; lia]. }
  case_ifs; (split; [intros; try reflexivity; try discriminate | auto]).
Qed.

(** The walk of the monitor makes at most one listener call, and leaves
    the state alone unless it is stopped. *)
Lemma for_each_link_calls fuel buffer nlm bytes r w :
  match for_each_nlmsg fuel link_netlink buffer nlm bytes r w with
  | Stopped _ w' => exists l, calls w' = calls w ++ l /\ (length l <= 1)%nat
  | Finished _ w' => w' = w
  | Spinning w' => w' = w
  end.
Proof.
  revert nlm bytes r.
  induction fuel as [| fuel IH]; intros nlm bytes r; simpl;
    destruct (NLMSG_OK buffer nlm (size_t bytes)); try reflexivity;
    pose proof (link_netlink_calls buffer nlm w) as Hone;
    destruct (link_netlink buffer nlm w) as [r' w'];
    destruct Hone as [Hzero Hone];
    destruct (Z.eqb_spec r' 0) as [-> | Hne]; simpl; try exact Hone;
    rewrite (Hzero eq_refl); try reflexivity.
  destruct (NLMSG_ALIGN (nlmsg_len buffer nlm) =? 0); [reflexivity | apply IH].
Qed.

Lemma get_netlink_loop_link_calls flags q buffer r w :
  exists l,
    calls (final (get_netlink_loop flags link_netlink q buffer r w))
    = calls w ++ l /\ (length l <= 1)%nat.
Proof.
  assert (Hsame : forall w e,
             exists l, calls (set_errno e w) = calls w ++ l
                       /\ (length l <= 1)%nat).
  { intros w1 e. exists []. simpl. rewrite app_nil_r.
    split; [reflexivity | simpl; lia]. }
  assert (Hnone : forall w,
             exists l, calls w = calls w ++ l /\ (length l <= 1)%nat).
  { intros w1. exists []. rewrite app_nil_r. split; [reflexivity | simpl; lia]. }
  revert buffer r w.
  induction q as [| [bs | e] q IH]; intros buffer r w; simpl.
  - destruct (negb _); simpl; auto.
  - set (buffer' := store buffer 0 _).
    pose proof (for_each_link_calls (length buffer') buffer' 0
                  (Z.of_nat (length (take (Z.to_nat BUFFERLEN) bs))) r w) as Hwalk.
    destruct (for_each_nlmsg _ _ _ _ _ _ _) as [r' w' | r' w' | w'];
      simpl; subst; auto.
  - destruct (e =? EAGAIN); [simpl; auto |].
    destruct (e =? EINTR); [| simpl; auto].
    destruct (IH buffer r (set_errno e w)) as (l & Hl & Hlen).
    exists l. split; [exact Hl | exact Hlen].
Qed.

(** At any turn of the pump of the monitor: when the datagram read holds a
    link message [o], behind messages [pre] of other types, the pump
    returns 1 with the state [link_netlink] left after [o] alone. *)
Lemma get_netlink_loop_stops_at_link flags bs q buffer r w pre o post :
  let buffer' := store buffer 0 (take (Z.to_nat BUFFERLEN) bs) in
  let bytes := Z.of_nat (length (take (Z.to_nat BUFFERLEN) bs)) in
  nlmsgs (length buffer') buffer' 0 bytes = pre ++ o :: post ->
  Forall (fun p => nlmsg_type buffer' p <> RTM_NEWLINK
                   /\ nlmsg_type buffer' p <> RTM_DELLINK) pre ->
  is_link_msg buffer' o ->
  get_netlink_loop flags link_netlink (Datagram bs :: q) buffer r w
  = Returns 1 q (snd (link_netlink buffer' o w)).
Proof.
  intros buffer' bytes Hmsgs Hpre Hlink.
  assert (Hone : fst (link_netlink buffer' o w) = 1).
  { rewrite (link_netlink_spec _ _ _ Hlink). destruct (_ || _); reflexivity. }
  cbn [get_netlink_loop]. fold buffer'. fold bytes.
  rewrite (for_each_nlmsg_stops link_netlink _ _ _ _ _ _ pre o post).
  - rewrite Hone. reflexivity.
  - exact Hmsgs.
  - eapply Forall_impl; [exact Hpre |].
    intros p [Hn Hd]. apply link_netlink_other; assumption.
  - rewrite Hone. discriminate.
Qed.

(** ** The fuel of the two walks is never used up *)

Lemma RTA_OK_inside buffer rta len :
  RTA_OK buffer rta len = true ->
  rta < Z.of_nat (length buffer) /\ 4 <= RTA_ALIGN (rta_len buffer rta).
Proof.
  unfold RTA_OK, sizeof_rtattr. intros Hok.
  apply andb_true_iff in Hok as [Hok _].
  apply andb_true_iff in Hok as [_ Hlen]. apply Z.leb_le in Hlen.
  pose proof (get_u16_range buffer rta) as Hr. unfold rta_len in *.
  split.
  - destruct (Z.lt_ge_cases rta (Z.of_nat (length buffer))) as [Hin | Hout];
      [exact Hin |].
    rewrite get_u16_outside in Hlen by lia. lia.
  - pose proof (align4_bounds (get_u16 buffer rta)) as Hb.
    unfold RTA_ALIGN. lia.
Qed.

Lemma rtattrs_fuel f1 f2 buffer rta len :
  0 <= rta ->
  Z.of_nat (length buffer) <= rta + 4 * Z.of_nat f1 ->
  Z.of_nat (length buffer) <= rta + 4 * Z.of_nat f2 ->
  rtattrs f1 buffer rta len = rtattrs f2 buffer rta len.
Proof.
  revert f2 rta len.
  induction f1 as [| f1 IH]; intros [| f2] rta len Hrta H1 H2; simpl;
    destruct (RTA_OK buffer rta len) eqn:Hok; try reflexivity;
    apply RTA_OK_inside in Hok as [Hin Hstep]; try lia.
  f_equal. apply IH; lia.
Qed.

Lemma NLMSG_OK_inside buffer nlm len :
  NLMSG_OK buffer nlm len = true ->
  nlm < Z.of_nat (length buffer)
  /\ (NLMSG_ALIGN (nlmsg_len buffer nlm) = 0
      \/ 16 <= NLMSG_ALIGN (nlmsg_len buffer nlm)).
Proof.
  unfold NLMSG_OK, sizeof_nlmsghdr. intros Hok.
  apply andb_true_iff in Hok as [Hok _].
  apply andb_true_iff in Hok as [_ Hlen]. apply Z.leb_le in Hlen.
  pose proof (get_u32_range buffer nlm) as Hr. unfold nlmsg_len in *.
  split.
  - destruct (Z.lt_ge_cases nlm (Z.of_nat (length buffer))) as [Hin | Hout];
      [exact Hin |].
    rewrite get_u32_outside in Hlen by lia. lia.
  - unfold NLMSG_ALIGN. rewrite align4_eq. unfold u32.
    Z.div_mod_to_equations. lia.
Qed.

Lemma for_each_nlmsg_fuel f1 f2 callback buffer nlm bytes r w :
  0 <= nlm ->
  Z.of_nat (length buffer) <= nlm + 16 * Z.of_nat f1 ->
  Z.of_nat (length buffer) <= nlm + 16 * Z.of_nat f2 ->
  for_each_nlmsg f1 callback buffer nlm bytes r w
  = for_each_nlmsg f2 callback buffer nlm bytes r w.
Proof.
  revert f2 nlm bytes r w.
  induction f1 as [| f1 IH]; intros [| f2] nlm bytes r w Hnlm H1 H2; simpl;
    destruct (NLMSG_OK buffer nlm (size_t bytes)) eqn:Hok; try reflexivity;
    apply NLMSG_OK_inside in Hok as [Hin Hstep]; try lia.
  destruct (callback buffer nlm w) as [r' w'].
  destruct (negb (r' =? 0)); [reflexivity |].
  destruct (Z.eqb_spec (NLMSG_ALIGN (nlmsg_len buffer nlm)) 0) as [Hz | Hnz];
    [reflexivity |].
  apply IH; lia.
Qed.

Lemma link_attrs_any_fuel buffer nlm fuel :
  0 <= nlm -> (length buffer <= fuel)%nat ->
  rtattrs fuel buffer (NLMSG_DATA nlm + NLMSG_ALIGN sizeof_ifinfomsg)
    (NLMSG_PAYLOAD buffer nlm sizeof_ifinfomsg)
  = link_attrs buffer nlm.
Proof.
  intros Hnlm Hfuel. unfold link_attrs.
  assert (Hrta : NLMSG_DATA nlm + NLMSG_ALIGN sizeof_ifinfomsg = nlm + 32)
    by (unfold NLMSG_DATA; change (NLMSG_LENGTH 0) with 16;
        change (NLMSG_ALIGN sizeof_ifinfomsg) with 16; lia).
  rewrite Hrta. apply rtattrs_fuel; lia.
Qed.

Lemma get_netlink_walk_any_fuel callback buffer bytes r w fuel :
  (length buffer <= fuel)%nat ->
  for_each_nlmsg fuel callback buffer 0 bytes r w
  = for_each_nlmsg (length buffer) callback buffer 0 bytes r w.
Proof. intros Hfuel. apply for_each_nlmsg_fuel; lia. Qed.

(** ** The acknowledgment decoder *)

(** C6.  [err_netlink] answers 0 for a message that is not an error
    message.  For an error message it fails with EBADMSG when the payload is
    shorter than a [struct nlmsgerr]; it answers the length of the payload
    when the error code is 0; and it fails with the negated code in [errno]
    when the code is not 0.  The message has its header, as those the pump
    hands over do, and its length fits an [int]. *)
Theorem err_netlink_decodes buffer nlm w :
  NLMSG_HDRLEN <= nlmsg_len buffer nlm <= INT_MAX ->
  let payload := nlmsg_len buffer nlm - NLMSG_HDRLEN in
  let code := err_error buffer (NLMSG_DATA nlm) in
  (nlmsg_type buffer nlm <> NLMSG_ERROR -> err_netlink buffer nlm w = (0, w))
  /\ (nlmsg_type buffer nlm = NLMSG_ERROR ->
      (payload < sizeof_nlmsgerr ->
       err_netlink buffer nlm w = (-1, set_errno EBADMSG w))
      /\ (sizeof_nlmsgerr <= payload -> code = 0 ->
          err_netlink buffer nlm w = (payload, w))
      /\ (sizeof_nlmsgerr <= payload -> code <> 0 -> - INT_MAX <= code ->
          err_netlink buffer nlm w = (-1, set_errno (- code) w))).
Proof.
  intros [Hhdr Hmax] payload code. rewrite NLMSG_HDRLEN_eq in Hhdr.
  unfold INT_MAX in *. unfold err_netlink. split.
  - intros Hne. apply Z.eqb_neq in Hne. rewrite Hne. reflexivity.
  - intros Herr. rewrite Herr. simpl negb. cbv iota.
    rewrite s32_size_t. unfold sizeof_nlmsghdr, sizeof_nlmsgerr in *.
    rewrite s32_small by lia. rewrite size_t_nonneg by lia.
    fold code. subst payload. rewrite NLMSG_HDRLEN_eq.
    split; [| split].
    + intros Hshort. apply Z.ltb_lt in Hshort. rewrite Hshort. reflexivity.
    + intros Hlong ->. apply Z.ltb_ge in Hlong. rewrite Hlong. reflexivity.
    + intros Hlong Hcode Hmin. apply Z.ltb_ge in Hlong. rewrite Hlong.
      apply Z.eqb_neq in Hcode. rewrite Hcode.
      pose proof (s32_range (get_u32 buffer (NLMSG_DATA nlm))) as Hr.
      rewrite s32_small; [reflexivity |].
      unfold code, err_error, get_s32 in *. lia.
Qed.

(** ** The transaction client *)

Lemma but_errno_set_errno e w : but_errno (set_errno e w) = but_errno w.
Proof. reflexivity. Qed.

Lemma but_errno_fields w w' :
  but_errno w' = but_errno w ->
  seq w' = seq w /\ sent w' = sent w /\ calls w' = calls w.
Proof.
  destruct w, w'. unfold but_errno, set_errno. simpl.
  intros Heq. injection Heq as -> -> -> -> -> ->. auto.
Qed.

Lemma err_netlink_but_errno buffer nlm w :
  but_errno (snd (err_netlink buffer nlm w)) = but_errno w.
Proof.
  unfold err_netlink.
  case_ifs; reflexivity.
Qed.

(** A pump whose handler only touches [errno] only touches [errno]. *)
Lemma for_each_nlmsg_but_errno callback fuel buffer nlm bytes r w :
  (forall nlm w, but_errno (snd (callback buffer nlm w)) = but_errno w) ->
  match for_each_nlmsg fuel callback buffer nlm bytes r w with
  | Stopped _ w' | Finished _ w' | Spinning w' => but_errno w' = but_errno w
  end.
Proof.
  intros Hcb. revert nlm bytes r w.
  induction fuel as [| fuel IH]; intros nlm bytes r w; simpl;
    destruct (NLMSG_OK buffer nlm (size_t bytes)); try reflexivity;
    pose proof (Hcb nlm w) as Hw;
    destruct (callback buffer nlm w) as [r' w']; simpl in Hw;
    destruct (negb (r' =? 0)); try exact Hw.
  destruct (NLMSG_ALIGN (nlmsg_len buffer nlm) =? 0); [exact Hw |].
  specialize (IH (nlm + NLMSG_ALIGN (nlmsg_len buffer nlm))
                (bytes - NLMSG_ALIGN (nlmsg_len buffer nlm)) r' w').
  destruct (for_each_nlmsg _ _ _ _ _ _ _); congruence.
Qed.

Lemma get_netlink_loop_but_errno flags callback q buffer r w :
  (forall buffer nlm w,
      but_errno (snd (callback buffer nlm w)) = but_errno w) ->
  but_errno (final (get_netlink_loop flags callback q buffer r w))
  = but_errno w.
Proof.
  intros Hcb. revert buffer r w.
  induction q as [| [bs | e] q IH]; intros buffer r w; simpl.
  - destruct (negb _); reflexivity.
  - set (buffer' := store buffer 0 _).
    pose proof (for_each_nlmsg_but_errno callback (length buffer') buffer' 0
                  (Z.of_nat (length (take (Z.to_nat BUFFERLEN) bs))) r w
                  (Hcb buffer')) as Hwalk.
    destruct (for_each_nlmsg _ _ _ _ _ _ _) as [r' w' | r' w' | w'];
      simpl; try exact Hwalk.
    rewrite IH. exact Hwalk.
  - destruct (e =? EAGAIN); [reflexivity |].
    destruct (e =? EINTR); [| reflexivity].
    rewrite IH. reflexivity.
Qed.

Lemma get_netlink_but_errno fd flags callback k w :
  (forall buffer nlm w,
      but_errno (snd (callback buffer nlm w)) = but_errno w) ->
  but_errno (final (get_netlink fd flags callback k w)) = but_errno w.
Proof.
  intros Hcb. unfold get_netlink.
  pose proof (get_netlink_loop_but_errno flags callback (incoming k)
                (xzalloc BUFFERLEN) (-1) w Hcb) as Hloop.
  destruct (get_netlink_loop _ _ _ _ _ _); exact Hloop.
Qed.

(** A system call that succeeds. *)
Lemma syscall_succeeds n k w :
  succeed (S n) k ->
  exists k', syscall k w = (0, k', w) /\ succeed n k'
             /\ if_index k' = if_index k /\ incoming k' = incoming k.
Proof.
  unfold succeed, syscall. intros Hok.
  destruct (syscalls k) as [| [e |] s] eqn:Hs.
  - exists k. rewrite Hs. destruct n; simpl; auto.
  - simpl in Hok. apply Forall_cons in Hok as [Hno _]. discriminate Hno.
  - simpl in Hok. apply Forall_cons in Hok as [_ Hrest].
    exists (set_syscalls s k). simpl. auto.
Qed.

Lemma syscall_but_errno k w :
  but_errno (snd (syscall k w)) = but_errno w.
Proof. unfold syscall. destruct (syscalls k) as [| [e |] s]; reflexivity. Qed.

Lemma get_u8_load m (n : nat) a :
  0 <= a < Z.of_nat n -> get_u8 (load m 0 n) a = get_u8 m a.
Proof.
  intros Ha. unfold get_u8, load. simpl. rewrite drop_0.
  rewrite lookup_take_lt by lia. reflexivity.
Qed.

Lemma get_u32_load m (n : nat) a :
  0 <= a -> a + 4 <= Z.of_nat n -> get_u32 (load m 0 n) a = get_u32 m a.
Proof.
  intros Ha Hn. unfold get_u32, get_u16.
  rewrite !get_u8_load by lia. reflexivity.
Qed.

(** What [send_netlink] does once [socket] and [bind] have succeeded: the
    counter moves to the next [unsigned int], and the request is handed to
    [sendmsg] with that number. *)
Lemma send_netlink_sends hdr k w :
  succeed 2 k ->
  let w' := final (send_netlink hdr k w) in
  let hdr' :=
    set_u32 (set_u16 hdr 6 (Z.lor (nlmsg_flags hdr 0) NLM_F_ACK)) 8
      (u32 (seq w + 1)) in
  seq w' = u32 (seq w + 1)
  /\ sent w' = sent w ++ [load hdr' 0 (Z.to_nat (nlmsg_len hdr 0))]
  /\ calls w' = calls w.
Proof.
  intros Hok. unfold send_netlink.
  destruct (syscall_succeeds 1 k w Hok) as (k1 & -> & Hok1 & _).
  destruct (syscall_succeeds 0 k1 w Hok1) as (k2 & -> & _).
  simpl Z.eqb. cbv iota.
  set (w1 := log_sent _ _).
  pose proof (syscall_but_errno k2 w1) as Hsys.
  destruct (syscall k2 w1) as [[s k3] w2]. simpl in Hsys.
  assert (Hfields : forall w3, but_errno w3 = but_errno w2 ->
            seq w3 = u32 (seq w + 1)
            /\ sent w3 = sent w ++ [load (set_u32 (set_u16 hdr 6
                 (Z.lor (nlmsg_flags hdr 0) NLM_F_ACK)) 8 (u32 (seq w + 1)))
                 0 (Z.to_nat (nlmsg_len hdr 0))]
            /\ calls w3 = calls w).
  { intros w3 Hw3. rewrite Hsys in Hw3.
    apply but_errno_fields in Hw3 as (-> & -> & ->). auto. }
  destruct (negb (s =? -1)).
  - apply Hfields, get_netlink_but_errno. intros. apply err_netlink_but_errno.
  - apply Hfields. reflexivity.
Qed.

Lemma u32_succ_u32 z : u32 (u32 z + 1) = u32 (z + 1).
Proof. unfold u32. apply Z.add_mod_idemp_l. lia. Qed.

(** After [n] transactions the counter has moved [n] times. *)
Lemma transactions_seq n hdr k w :
  succeed 2 k ->
  0 <= seq w <= UINT_MAX ->
  seq (transactions n hdr k w) = u32 (seq w + Z.of_nat n).
Proof.
  intros Hok Hseq. unfold UINT_MAX in Hseq. induction n as [| n IH].
  - simpl. rewrite Z.add_0_r, u32_small by lia. reflexivity.
  - cbn [transactions].
    destruct (send_netlink_sends hdr k (transactions n hdr k w) Hok) as [-> _].
    rewrite IH, u32_succ_u32. f_equal. lia.
Qed.

(** C5, as amended.  A [send_netlink] call that gets as far as [sendmsg]
    gives its request the number that follows the previous one in
    [unsigned int]: the previous number plus one, or 0 after [UINT_MAX].
    So the number differs from the previous one, and is greater unless the
    counter wraps. *)
Theorem send_netlink_next_seq hdr k w :
  succeed 2 k ->
  NLMSG_HDRLEN <= nlmsg_len hdr 0 <= Z.of_nat (length hdr) ->
  0 <= seq w <= UINT_MAX ->
  let w' := final (send_netlink hdr k w) in
  exists req,
    sent w' = sent w ++ [req]
    /\ seq w' = nlmsg_seq req 0
    /\ nlmsg_seq req 0 = u32 (seq w + 1)
    /\ (seq w < UINT_MAX -> nlmsg_seq req 0 = seq w + 1)
    /\ (seq w = UINT_MAX -> nlmsg_seq req 0 = 0)
    /\ nlmsg_seq req 0 <> seq w.
Proof.
  intros Hok [Hhdr Hlen] Hseq w'. rewrite NLMSG_HDRLEN_eq in Hhdr.
  destruct (send_netlink_sends hdr k w Hok) as (Hs & Hsent & _).
  fold w' in Hs, Hsent.
  eexists. split; [exact Hsent |].
  assert (Hreq : nlmsg_seq
                   (load (set_u32 (set_u16 hdr 6
                            (Z.lor (nlmsg_flags hdr 0) NLM_F_ACK)) 8
                            (u32 (seq w + 1))) 0
                      (Z.to_nat (nlmsg_len hdr 0))) 0
                 = u32 (seq w + 1)).
  { unfold nlmsg_seq. rewrite get_u32_load by lia.
    rewrite get_u32_set_u32; [| lia |].
    - unfold u32. apply Z.mod_mod. lia.
    - unfold set_u16. rewrite length_store. lia. }
  rewrite Hreq, Hs. unfold UINT_MAX in *.
  split; [reflexivity |]. split; [reflexivity |].
  split; [| split].
  - intros Hlt. apply u32_small. lia.
  - intros ->. reflexivity.
  - destruct (Z.eq_dec (seq w) (2 ^ 32 - 1)) as [-> | Hne].
    + discriminate.
    + rewrite u32_small by lia. lia.
Qed.

(** The counter does reach [UINT_MAX - 1]: after that many
    transactions. *)
Lemma seq_reaches_UINT_MAX_minus_1 :
  seq (transactions (Z.to_nat (UINT_MAX - 1)) Sample.request
         (Sample.kernel_with [Datagram (Sample.ack 0)]) Sample.start)
  = UINT_MAX - 1.
Proof.
  rewrite transactions_seq.
  - rewrite Z2Nat.id by (unfold UINT_MAX; lia). reflexivity.
  - unfold succeed. simpl. constructor.
  - unfold UINT_MAX. simpl. lia.
Qed.

(** ** The address and route builders *)

(** An append either succeeds and leaves the state alone, or fails with
    ENOBUFS and leaves the message alone. *)
Lemma add_attr_l_result n maxlen type data w :
  let '(r, n', w') := add_attr_l n maxlen type data w in
  (r = 0 /\ w' = w) \/ (r = -1 /\ n' = n /\ w' = set_errno ENOBUFS w).
Proof. unfold add_attr_l. destruct (_ >? _); auto. Qed.

Lemma add_attr_32_result n maxlen type v w :
  let '(r, n', w') := add_attr_32 n maxlen type v w in
  (r = 0 /\ w' = w) \/ (r = -1 /\ n' = n /\ w' = set_errno ENOBUFS w).
Proof. unfold add_attr_32. destruct (_ >? _); auto. Qed.

Lemma attr_appended_same_fixed lo maxlen n0 n n' alen :
  NLMSG_HDRLEN <= lo -> maxlen <= INT_MAX ->
  same_fixed lo maxlen n0 n ->
  attr_appended n n' alen ->
  nlmsg_len n' 0 <= maxlen ->
  same_fixed lo maxlen n0 n'.
Proof.
  intros Hlo Hmax (Hlen & Hnl & Hfix) (Hl & Hfr & Hnl' & _) Hfit.
  rewrite NLMSG_HDRLEN_eq in Hlo. unfold INT_MAX in Hmax.
  assert (Hrta : nlmsg_len n 0 <= NLMSG_ALIGN (nlmsg_len n 0)).
  { unfold NLMSG_ALIGN. apply align4_bounds. lia. }
  pose proof (proj1 (align4_range (RTA_LENGTH alen))) as Ha.
  fold (RTA_ALIGN (RTA_LENGTH alen)) in Ha.
  split; [| split].
  - rewrite Hl. exact Hlen.
  - lia.
  - intros i Hi. rewrite <- Hfix by exact Hi. unfold get_u8.
    rewrite Hfr by lia. reflexivity.
Qed.

(** An append keeps the header and the fixed payload of a message. *)
Lemma add_attr_l_same_fixed lo maxlen n0 n type data w :
  NLMSG_HDRLEN <= lo -> maxlen <= INT_MAX ->
  RTA_LENGTH (Z.of_nat (length data)) < 2 ^ 16 ->
  same_fixed lo maxlen n0 n ->
  same_fixed lo maxlen n0 (snd (fst (add_attr_l n maxlen type data w))).
Proof.
  intros Hlo Hmax Hdata Hn. pose proof Hn as (Hlen & Hnl & _).
  pose proof (add_attr_l_spec n maxlen type data w) as Hspec.
  cbv zeta in Hspec.
  destruct (_ >? maxlen) eqn:Hcmp.
  - rewrite Hspec by lia. exact Hn.
  - destruct Hspec as (n' & -> & _ & Happ); try lia.
    simpl. apply (attr_appended_same_fixed lo maxlen n0 n n' _ Hlo Hmax Hn Happ).
    destruct Happ as (_ & _ & -> & _).
    rewrite Z.gtb_ltb in Hcmp. apply Z.ltb_ge in Hcmp. exact Hcmp.
Qed.

Lemma add_attr_32_same_fixed lo maxlen n0 n type v w :
  NLMSG_HDRLEN <= lo -> maxlen <= INT_MAX ->
  same_fixed lo maxlen n0 n ->
  same_fixed lo maxlen n0 (snd (fst (add_attr_32 n maxlen type v w))).
Proof.
  intros Hlo Hmax Hn. pose proof Hn as (Hlen & Hnl & _).
  pose proof (add_attr_32_spec n maxlen type v w) as Hspec.
  cbv zeta in Hspec.
  destruct (_ >? maxlen) eqn:Hcmp.
  - rewrite Hspec by lia. exact Hn.
  - destruct Hspec as (n' & -> & _ & Happ); try lia.
    simpl. apply (attr_appended_same_fixed lo maxlen n0 n n' _ Hlo Hmax Hn Happ).
    destruct Happ as (_ & _ & -> & _).
    rewrite Z.gtb_ltb in Hcmp. apply Z.ltb_ge in Hcmp. exact Hcmp.
Qed.

(** One append on a message that keeps the fixed part of [n0]: it keeps
    it; it succeeds or fails with ENOBUFS; and it succeeds when the
    aligned attribute fits behind an aligned message. *)
Lemma add_attr_l_step lo maxlen n0 n type data w :
  NLMSG_HDRLEN <= lo -> maxlen <= INT_MAX ->
  RTA_LENGTH (Z.of_nat (length data)) < 2 ^ 16 ->
  same_fixed lo maxlen n0 n ->
  let total :=
    nlmsg_len n 0 + RTA_ALIGN (RTA_LENGTH (Z.of_nat (length data))) in
  let '(r, n', w') := add_attr_l n maxlen type data w in
  same_fixed lo maxlen n0 n'
  /\ ((r = 0 /\ w' = w) \/ (r = -1 /\ n' = n /\ w' = set_errno ENOBUFS w))
  /\ (nlmsg_len n 0 mod 4 = 0 -> total <= maxlen ->
      r = 0 /\ nlmsg_len n' 0 = total).
Proof.
  intros Hlo Hmax Hdata Hn total.
  pose proof (add_attr_l_same_fixed lo maxlen n0 n type data w
                Hlo Hmax Hdata Hn) as Hsame.
  pose proof (add_attr_l_result n maxlen type data w) as Hres.
  pose proof (add_attr_l_spec n maxlen type data w) as Hspec.
  cbv zeta in Hspec. destruct Hn as (Hlen & Hnl & _).
  rewrite NLMSG_HDRLEN_eq in Hlo. unfold INT_MAX in Hmax.
  destruct (add_attr_l n maxlen type data w) as [[r n'] w'].
  simpl in Hsame. split; [exact Hsame |]. split; [exact Hres |].
  intros Hal Hfit.
  unfold NLMSG_ALIGN in Hspec.
  rewrite (align4_aligned (nlmsg_len n 0)) in Hspec by lia.
  fold total in Hspec.
  destruct (Z.gtb_spec total maxlen) as [Hgt | _]; [lia |].
  destruct Hspec as (n2 & Heq & _ & Happ);
    [rewrite NLMSG_HDRLEN_eq; lia | unfold INT_MAX; lia | exact Hdata |].
  injection Heq as -> -> ->. split; [reflexivity |].
  destruct Happ as (_ & _ & _ & _ & Hnext & _). apply Hnext, Hal.
Qed.

Lemma add_attr_32_step lo maxlen n0 n type v w :
  NLMSG_HDRLEN <= lo -> maxlen <= INT_MAX ->
  same_fixed lo maxlen n0 n ->
  let total := nlmsg_len n 0 + 8 in
  let '(r, n', w') := add_attr_32 n maxlen type v w in
  same_fixed lo maxlen n0 n'
  /\ ((r = 0 /\ w' = w) \/ (r = -1 /\ n' = n /\ w' = set_errno ENOBUFS w))
  /\ (nlmsg_len n 0 mod 4 = 0 -> total <= maxlen ->
      r = 0 /\ nlmsg_len n' 0 = total).
Proof.
  intros Hlo Hmax Hn total.
  pose proof (add_attr_32_same_fixed lo maxlen n0 n type v w
                Hlo Hmax Hn) as Hsame.
  pose proof (add_attr_32_result n maxlen type v w) as Hres.
  pose proof (add_attr_32_spec n maxlen type v w) as Hspec.
  cbv zeta in Hspec. destruct Hn as (Hlen & Hnl & _).
  rewrite NLMSG_HDRLEN_eq in Hlo. unfold INT_MAX in Hmax.
  destruct (add_attr_32 n maxlen type v w) as [[r n'] w'].
  simpl in Hsame. split; [exact Hsame |]. split; [exact Hres |].
  intros Hal Hfit.
  unfold NLMSG_ALIGN in Hspec.
  rewrite (align4_aligned (nlmsg_len n 0)) in Hspec by lia.
  change (RTA_ALIGN (RTA_LENGTH 4)) with 8 in Hspec. fold total in Hspec.
  destruct (Z.gtb_spec total maxlen) as [Hgt | _]; [lia |].
  destruct Hspec as (n2 & Heq & _ & Happ);
    [rewrite NLMSG_HDRLEN_eq; lia | unfold INT_MAX; lia |].
  injection Heq as -> -> ->. split; [reflexivity |].
  destruct Happ as (_ & _ & _ & _ & Hnext & _). apply Hnext, Hal.
Qed.

(** The fixed parts the builders start from. *)
Lemma if_address_fixed_ok c netmask action ifindex :
  let n0 := if_address_fixed c netmask action ifindex in
  same_fixed 24 sizeof_nlma n0 n0 /\ nlmsg_len n0 0 = 24.
Proof.
  intros n0. subst n0.
  assert (Hlen : nlmsg_len
            (if_address_fixed c netmask action ifindex) 0 = 24).
  { unfold nlmsg_len, if_address_fixed, set_u8, set_u16.
    destruct (action >=? 0);
      rewrite !get_u32_store_other by (rewrite ?length_le_bytes; simpl; lia);
      reflexivity. }
  unfold same_fixed. rewrite Hlen.
  repeat split; try reflexivity; try discriminate.
  unfold if_address_fixed, set_u8, set_u16, set_u32.
  destruct (action >=? 0); rewrite !length_store; reflexivity.
Qed.

Lemma if_route_fixed_ok c netmask gateway action :
  let n0 := if_route_fixed c netmask gateway action in
  same_fixed 28 sizeof_nlmr n0 n0 /\ nlmsg_len n0 0 = 28.
Proof.
  intros n0. subst n0.
  assert (Hlen : nlmsg_len (if_route_fixed c netmask gateway action) 0 = 28).
  { unfold nlmsg_len, if_route_fixed, set_u8, set_u16.
    case_ifs;
      rewrite !get_u32_store_other by (rewrite ?length_le_bytes; simpl; lia);
      reflexivity. }
  unfold same_fixed. rewrite Hlen.
  repeat split; try reflexivity; try discriminate.
  unfold if_route_fixed, set_u8, set_u16, set_u32.
  case_ifs; rewrite !length_store; reflexivity.
Qed.

(** A 4-byte attribute fits behind an aligned message with 8 bytes left. *)
Lemma add_attr_l_4 lo maxlen n0 n type x w :
  NLMSG_HDRLEN <= lo -> maxlen <= INT_MAX ->
  same_fixed lo maxlen n0 n ->
  nlmsg_len n 0 mod 4 = 0 -> nlmsg_len n 0 + 8 <= maxlen ->
  exists n',
    add_attr_l n maxlen type (le_bytes 4 x) w = (0, n', w)
    /\ same_fixed lo maxlen n0 n'
    /\ nlmsg_len n' 0 = nlmsg_len n 0 + 8.
Proof.
  intros Hlo Hmax Hn Hal Hfit.
  pose proof (add_attr_l_step lo maxlen n0 n type (le_bytes 4 x) w
                Hlo Hmax) as Hstep.
  rewrite length_le_bytes in Hstep.
  change (RTA_ALIGN (RTA_LENGTH (Z.of_nat 4))) with 8 in Hstep.
  specialize (Hstep eq_refl Hn). cbv zeta in Hstep.
  destruct (add_attr_l n maxlen type (le_bytes 4 x) w) as [[r n'] w'].
  destruct Hstep as (Hsame & Hres & Hok).
  destruct (Hok Hal Hfit) as [-> Hnext].
  destruct Hres as [[_ ->] | [Hr _]]; [| discriminate Hr].
  exists n'. auto.
Qed.

Lemma add_attr_32_4 lo maxlen n0 n type x w :
  NLMSG_HDRLEN <= lo -> maxlen <= INT_MAX ->
  same_fixed lo maxlen n0 n ->
  nlmsg_len n 0 mod 4 = 0 -> nlmsg_len n 0 + 8 <= maxlen ->
  exists n',
    add_attr_32 n maxlen type x w = (0, n', w)
    /\ same_fixed lo maxlen n0 n'
    /\ nlmsg_len n' 0 = nlmsg_len n 0 + 8.
Proof.
  intros Hlo Hmax Hn Hal Hfit.
  pose proof (add_attr_32_step lo maxlen n0 n type x w Hlo Hmax Hn) as Hstep.
  cbv zeta in Hstep.
  destruct (add_attr_32 n maxlen type x w) as [[r n'] w'].
  destruct Hstep as (Hsame & Hres & Hok).
  destruct (Hok Hal Hfit) as [-> Hnext].
  destruct Hres as [[_ ->] | [Hr _]]; [| discriminate Hr].
  exists n'. auto.
Qed.

(** No append of [if_route] fails, and the message keeps its fixed
    part. *)
Lemma if_route_request_spec c iface destination netmask gateway metric
    action ifindex w :
  exists nlm,
    if_route_request c iface destination netmask gateway metric action
      ifindex w = ([0; 0; 0; 0; 0], nlm, w)
    /\ same_fixed 28 sizeof_nlmr (if_route_fixed c netmask gateway action) nlm.
Proof.
  unfold if_route_request.
  destruct (if_route_fixed_ok c netmask gateway action) as [H0 L0].
  cbv zeta in H0, L0.
  set (n0 := if_route_fixed c netmask gateway action) in *.
  assert (Hlo : NLMSG_HDRLEN <= 28) by (rewrite NLMSG_HDRLEN_eq; lia).
  assert (Hmax : sizeof_nlmr <= INT_MAX) by (vm_compute; discriminate).
  assert (Hsize : sizeof_nlmr = 284) by reflexivity.
  assert (Hstep : forall n L,
             same_fixed 28 sizeof_nlmr n0 n -> nlmsg_len n 0 = L ->
             L mod 4 = 0 -> L <= 60 ->
             (forall type x, exists n',
                 add_attr_l n sizeof_nlmr type (le_bytes 4 x) w = (0, n', w)
                 /\ same_fixed 28 sizeof_nlmr n0 n'
                 /\ nlmsg_len n' 0 = L + 8)
             /\ (forall type x, exists n',
                    add_attr_32 n sizeof_nlmr type x w = (0, n', w)
                    /\ same_fixed 28 sizeof_nlmr n0 n'
                    /\ nlmsg_len n' 0 = L + 8)).
  { intros n L Hn HL Hal Hb. subst L.
    split; intros type x;
      [apply (add_attr_l_4 28 sizeof_nlmr n0 n type x w Hlo Hmax Hn Hal)
      |apply (add_attr_32_4 28 sizeof_nlmr n0 n type x w Hlo Hmax Hn Hal)];
      rewrite Hsize; lia. }
  assert (B0 : 28 <= 60) by lia.
  assert (B1 : 36 <= 60) by lia.
  destruct (proj1 (Hstep n0 28 H0 L0 eq_refl B0) RTA_DST destination)
    as (n1 & -> & H1 & L1).
  assert (Hsecond : exists n2 L2,
             (if negb (action =? 1)
              then add_attr_l n1 sizeof_nlmr RTA_PREFSRC
                     (le_bytes 4 (addr iface)) w
              else (0, n1, w)) = (0, n2, w)
             /\ same_fixed 28 sizeof_nlmr n0 n2
             /\ nlmsg_len n2 0 = L2 /\ L2 mod 4 = 0 /\ L2 <= 44).
  { destruct (negb (action =? 1)).
    - destruct (proj1 (Hstep n1 36 H1 L1 eq_refl B1)
                  RTA_PREFSRC (addr iface)) as (n2 & -> & H2 & L2).
      exists n2, 44.
      split; [reflexivity | split; [exact H2 | split; [lia | split; [reflexivity | lia]]]].
    - exists n1, 36.
      split; [reflexivity | split; [exact H1 | split; [lia | split; [reflexivity | lia]]]]. }
  destruct Hsecond as (n2 & L2 & -> & H2 & HL2 & Hal2 & Hb2).
  assert (B2 : L2 <= 60) by lia.
  assert (B3 : L2 + 8 <= 60) by lia.
  assert (B4 : L2 + 8 + 8 <= 60) by lia.
  destruct (proj1 (Hstep n2 L2 H2 HL2 Hal2 B2) RTA_GATEWAY gateway)
    as (n3 & -> & H3 & L3).
  assert (Hal3 : (L2 + 8) mod 4 = 0).
  { rewrite Z.add_mod, Hal2 by lia. reflexivity. }
  destruct (proj2 (Hstep n3 (L2 + 8) H3 L3 Hal3 B3) RTA_OIF ifindex)
    as (n4 & -> & H4 & L4).
  assert (Hal4 : (L2 + 8 + 8) mod 4 = 0).
  { rewrite Z.add_mod, Hal3 by lia. reflexivity. }
  destruct (proj2 (Hstep n4 (L2 + 8 + 8) H4 L4 Hal4 B4)
              RTA_PRIORITY metric) as (n5 & -> & H5 & L5).
  exists n5. split; [reflexivity | exact H5].
Qed.

(** C4, as amended.  For the actions -1 and -2 the request [if_route]
    builds is a delete: its type is RTM_DELROUTE, its scope
    RT_SCOPE_NOWHERE, and neither the route type nor the protocol is
    set. *)
Theorem if_route_delete c iface destination netmask gateway metric action
    ifindex w :
  action = -1 \/ action = -2 ->
  let '(_, nlm, _) :=
    if_route_request c iface destination netmask gateway metric action
      ifindex w in
  nlmsg_type nlm 0 = RTM_DELROUTE
  /\ rtm_scope nlm 16 = RT_SCOPE_NOWHERE
  /\ rtm_type nlm 16 = 0
  /\ rtm_protocol nlm 16 = 0.
Proof.
  intros Haction.
  destruct (if_route_request_spec c iface destination netmask gateway metric
              action ifindex w) as (nlm & -> & _ & _ & Hfixed).
  unfold nlmsg_type, rtm_scope, rtm_type, rtm_protocol, get_u16.
  rewrite !Hfixed by lia.
  destruct Haction as [-> | ->]; repeat split; reflexivity.
Qed.

(** Any other action but 0 and 1 also gets the delete-route type, but
    the scope, route type and protocol of a route that is added. *)
Lemma if_route_other_actions c iface destination netmask gateway metric
    action ifindex w :
  action <> 0 -> action <> 1 -> action <> -1 -> action <> -2 ->
  let '(_, nlm, _) :=
    if_route_request c iface destination netmask gateway metric action
      ifindex w in
  nlmsg_type nlm 0 = RTM_DELROUTE
  /\ rtm_scope nlm 16
     = (if gateway =? INADDR_ANY then RT_SCOPE_LINK else RT_SCOPE_UNIVERSE)
  /\ rtm_type nlm 16 = RTN_UNICAST
  /\ rtm_protocol nlm 16 = RTPROT_BOOT.
Proof.
  intros H0 H1 Hm1 Hm2.
  destruct (if_route_request_spec c iface destination netmask gateway metric
              action ifindex w) as (nlm & -> & _ & _ & Hfixed).
  unfold nlmsg_type, rtm_scope, rtm_type, rtm_protocol, get_u16.
  rewrite !Hfixed by lia. unfold if_route_fixed.
  apply Z.eqb_neq in H0, H1, Hm1, Hm2. rewrite H0, H1, Hm1, Hm2.
  cbn [negb orb]. destruct (gateway =? INADDR_ANY); repeat split; reflexivity.
Qed.

(** The appends of [if_address] succeed or fail with ENOBUFS, and touch
    nothing of the state but [errno]. *)
Lemma if_address_request_results c iface address netmask broadcast action
    ifindex w :
  let '(rets, nlm, w') :=
    if_address_request c iface address netmask broadcast action ifindex w in
  but_errno w' = but_errno w
  /\ Forall (fun r => r = 0 \/ r = -1) rets
  /\ (In (-1) rets -> errno w' = ENOBUFS).
Proof.
  unfold if_address_request.
  repeat lazymatch goal with
         | |- context [add_attr_l ?n ?m ?t ?d ?w] =>
             let H := fresh "H" in
             pose proof (add_attr_l_result n m t d w) as H;
             destruct (add_attr_l n m t d w) as [[? ?] ?];
             destruct H as [[-> ->] | (-> & -> & ->)];
             cbv beta iota
         | |- context [if ?b then _ else _] => destruct b
         end.
  all: split; [reflexivity | split].
  all: try (repeat (constructor;
                    [first [left; reflexivity | right; reflexivity] |]);
            constructor).
  all: simpl; intros Hin;
    first [reflexivity
          | repeat (destruct Hin as [Hin | Hin]; [discriminate Hin |]);
            destruct Hin].
Qed.

(** With a name that fits [IF_NAMESIZE], no append of [if_address]
    fails. *)
Lemma if_address_request_fits c iface address netmask broadcast action
    ifindex w :
  Z.of_nat (length (name iface)) < IF_NAMESIZE ->
  Forall (fun r => r = 0)
    (fst (fst (if_address_request c iface address netmask broadcast action
                 ifindex w))).
Proof.
  intros Hname. unfold IF_NAMESIZE in Hname. unfold if_address_request.
  destruct (if_address_fixed_ok c netmask action ifindex) as [H0 L0].
  cbv zeta in H0, L0.
  set (n0 := if_address_fixed c netmask action ifindex) in *.
  assert (Hlo : NLMSG_HDRLEN <= 24) by (rewrite NLMSG_HDRLEN_eq; lia).
  assert (Hmax : sizeof_nlma <= INT_MAX) by (vm_compute; discriminate).
  assert (Hsize : sizeof_nlma = 88) by reflexivity.
  assert (Hdata : Z.of_nat (length (name iface ++ [0])) <= 16).
  { rewrite length_app. simpl. lia. }
  pose proof (align4_bounds
                (RTA_LENGTH (Z.of_nat (length (name iface ++ [0]))))) as Hal.
  fold (RTA_ALIGN (RTA_LENGTH (Z.of_nat (length (name iface ++ [0]))))) in Hal.
  rewrite RTA_LENGTH_eq in Hal.
  pose proof (add_attr_l_step 24 sizeof_nlma n0 n0 IFA_LABEL
                (name iface ++ [0]) w Hlo Hmax) as Hlabel.
  rewrite RTA_LENGTH_eq in Hlabel. cbv zeta in Hlabel.
  destruct (add_attr_l n0 sizeof_nlma IFA_LABEL (name iface ++ [0]) w)
    as [[r1 n1] w1].
  destruct Hlabel as (H1 & Hres1 & Hok1); [lia | exact H0 |].
  destruct Hok1 as [-> L1]; [rewrite L0; reflexivity | rewrite L0, Hsize; lia |].
  destruct Hres1 as [[_ ->] | [Hr _]]; [| discriminate Hr].
  rewrite L0 in L1.
  set (A := RTA_ALIGN (4 + Z.of_nat (length (name iface ++ [0])))) in *.
  assert (HA : A mod 4 = 0 /\ A <= 24) by lia.
  assert (Hal1 : (24 + A) mod 4 = 0).
  { rewrite Z.add_mod by lia. destruct HA as [-> _]. reflexivity. }
  destruct (add_attr_l_4 24 sizeof_nlma n0 n1 IFA_LOCAL address w Hlo Hmax H1)
    as (n2 & -> & H2 & L2); [rewrite L1; exact Hal1 | rewrite L1, Hsize; lia |].
  destruct (action >=? 0).
  - destruct (add_attr_l_4 24 sizeof_nlma n0 n2 IFA_BROADCAST broadcast w
                Hlo Hmax H2) as (n3 & -> & H3 & L3).
    + rewrite L2, L1, Z.add_mod, Hal1 by lia. reflexivity.
    + rewrite L2, L1, Hsize. lia.
    + simpl. repeat constructor.
  - simpl. repeat constructor.
Qed.

(** The builders do not look at what the appends return: once the kernel
    has given an index for the interface and [socket] and [bind] have
    succeeded, the message they have built is handed to [sendmsg].  No
    append of [if_route] fails, and none of [if_address] when the name of
    the interface fits [IF_NAMESIZE]. *)
Lemma if_request_sent_whatever_appends c iface address netmask broadcast
    destination gateway metric action k w :
  let ifindex := u32 (if_index k (name iface)) in
  let request := fun nlm =>
    load (set_u32 (set_u16 nlm 6 (Z.lor (nlmsg_flags nlm 0) NLM_F_ACK)) 8
            (u32 (seq w + 1))) 0 (Z.to_nat (nlmsg_len nlm 0)) in
  ifindex <> 0 ->
  succeed 2 k ->
  (let '(rets, nlm, w1) :=
     if_address_request c iface address netmask broadcast action ifindex w in
   Forall (fun r => r = 0 \/ r = -1) rets
   /\ (In (-1) rets -> errno w1 = ENOBUFS)
   /\ (Z.of_nat (length (name iface)) < IF_NAMESIZE ->
       Forall (fun r => r = 0) rets)
   /\ sent (final (if_address c iface address netmask broadcast action k w))
      = sent w ++ [request nlm])
  /\
  (let '(rets, nlm, w1) :=
     if_route_request c iface destination netmask gateway metric action
       ifindex w in
   Forall (fun r => r = 0) rets
   /\ sent (final (if_route c iface destination netmask gateway metric
                     action k w))
      = sent w ++ [request nlm]).
Proof.
  intros ifindex request Hfound Hok. apply Z.eqb_neq in Hfound. split.
  - pose proof (if_address_request_results c iface address netmask broadcast
                  action ifindex w) as Hres.
    pose proof (if_address_request_fits c iface address netmask broadcast
                  action ifindex w) as Hfits.
    unfold if_address. fold ifindex. rewrite Hfound.
    destruct (if_address_request _ _ _ _ _ _ _ _) as [[rets nlm] w1].
    destruct Hres as (Hw1 & Hrets & Herrno). simpl in Hfits.
    split; [exact Hrets |]. split; [exact Herrno |]. split; [exact Hfits |].
    destruct (send_netlink_sends nlm k w1 Hok) as (_ & Hsent & _).
    apply but_errno_fields in Hw1 as (Hseq & Hsent1 & _).
    rewrite Hseq, Hsent1 in Hsent.
    destruct (send_netlink nlm k w1); exact Hsent.
  - destruct (if_route_request_spec c iface destination netmask gateway
                metric action ifindex w) as (nlm & Hreq & _).
    unfold if_route. fold ifindex. rewrite Hfound, Hreq.
    split; [repeat constructor |].
    destruct (send_netlink_sends nlm k w Hok) as (_ & Hsent & _).
    destruct (send_netlink nlm k w); exact Hsent.
Qed.



(** ** The monitor at any turn of the pump *)

(** The walk of the monitor over messages of other types that
    [NLMSG_NEXT] steps over goes to its end and leaves the state alone. *)
Lemma for_each_link_passes buffer fuel : forall nlm bytes r w,
  0 <= nlm ->
  Z.of_nat (length buffer) <= nlm + 16 * Z.of_nat fuel ->
  Forall (fun m => other_msg buffer m
                   /\ NLMSG_ALIGN (nlmsg_len buffer m) <> 0)
    (nlmsgs fuel buffer nlm bytes) ->
  exists r', for_each_nlmsg fuel link_netlink buffer nlm bytes r w
             = Finished r' w.
Proof.
  induction fuel as [| fuel IH]; intros nlm bytes r w Hnlm Hfuel Hall;
    simpl in *;
    destruct (NLMSG_OK buffer nlm (size_t bytes)) eqn:Hok;
    try (exists r; reflexivity);
    apply NLMSG_OK_inside in Hok as [Hin Hstep]; [lia |].
  apply Forall_cons in Hall as [[[Hn Hd] Hnz] Hall].
  rewrite (link_netlink_other buffer nlm w Hn Hd). simpl.
  destruct (Z.eqb_spec (NLMSG_ALIGN (nlmsg_len buffer nlm)) 0) as [Hz | _];
    [contradiction |].
  apply IH; [lia | lia | exact Hall].
Qed.

Lemma set_errno_twice e e' w : set_errno e (set_errno e' w) = set_errno e w.
Proof. reflexivity. Qed.

(** The pump of the monitor goes through what it passes over. *)
Lemma get_netlink_loop_passed_over flags p : forall q buffer r w,
  passed_over p buffer ->
  exists r',
    get_netlink_loop flags link_netlink (p ++ q) buffer r w
    = get_netlink_loop flags link_netlink q (buffer_after p buffer) r'
        (after_interrupts p w).
Proof.
  induction p as [| [bs | e] p IH]; intros q buffer r w Hp.
  - exists r. reflexivity.
  - destruct Hp as [Hall Hp]. cbn [app get_netlink_loop buffer_after].
    fold (buffer_with buffer bs).
    destruct (for_each_link_passes (buffer_with buffer bs)
                (length (buffer_with buffer bs)) 0
                (Z.of_nat (length (take (Z.to_nat BUFFERLEN) bs))) r w)
      as (r1 & ->); [lia | lia | exact Hall |].
    destruct (IH q (buffer_with buffer bs) r1 w Hp) as (r' & ->).
    exists r'. reflexivity.
  - destruct Hp as [-> Hp]. cbn [app buffer_after].
    rewrite get_netlink_loop_eintr.
    destruct (IH q buffer r (set_errno EINTR w) Hp) as (r' & ->).
    exists r'. f_equal. unfold after_interrupts. cbn [existsb orb].
    destruct (existsb _ p); reflexivity.
Qed.

(** [link_netlink] calls a listener only when it answers 1. *)
Lemma link_netlink_call_answers_1 buffer nlm w :
  calls (snd (link_netlink buffer nlm w)) = calls w
  \/ fst (link_netlink buffer nlm w) = 1.
Proof. unfold link_netlink. case_ifs; simpl; auto. Qed.

Lemma for_each_link_call_stops fuel buffer : forall nlm bytes r w,
  match for_each_nlmsg fuel link_netlink buffer nlm bytes r w with
  | Stopped r' w' => calls w' = calls w \/ r' = 1
  | Finished _ w' | Spinning w' => w' = w
  end.
Proof.
  induction fuel as [| fuel IH]; intros nlm bytes r w; simpl;
    destruct (NLMSG_OK buffer nlm (size_t bytes)); try reflexivity;
    pose proof (link_netlink_calls buffer nlm w) as Hone;
    pose proof (link_netlink_call_answers_1 buffer nlm w) as Hcall;
    destruct (link_netlink buffer nlm w) as [r' w'];
    destruct Hone as [Hzero _]; simpl in Hcall;
    destruct (Z.eqb_spec r' 0) as [-> | Hne]; simpl; try exact Hcall;
    rewrite (Hzero eq_refl); try reflexivity.
  destruct (NLMSG_ALIGN (nlmsg_len buffer nlm) =? 0); [reflexivity | apply IH].
Qed.

(** The pump of the monitor calls a listener only when it returns 1. *)
Lemma get_netlink_loop_call_returns_1 flags q : forall buffer r w,
  calls (final (get_netlink_loop flags link_netlink q buffer r w)) = calls w
  \/ result (get_netlink_loop flags link_netlink q buffer r w) = Some 1.
Proof.
  induction q as [| [bs | e] q IH]; intros buffer r w; simpl.
  - destruct (negb _); simpl; auto.
  - set (buffer' := store buffer 0 _).
    pose proof (for_each_link_call_stops (length buffer') buffer' 0
                  (Z.of_nat (length (take (Z.to_nat BUFFERLEN) bs))) r w)
      as Hwalk.
    destruct (for_each_nlmsg _ _ _ _ _ _ _) as [r' w' | r' w' | w'];
      simpl; subst; auto.
    destruct Hwalk as [Hsame | ->]; auto.
  - destruct (e =? EAGAIN); [simpl; auto |].
    destruct (e =? EINTR); [| simpl; auto].
    apply (IH buffer r (set_errno e w)).
Qed.

(** C9.  A [manage_link] call makes at most one listener call, and makes
    it only when it returns 1.  At whatever turn of the pump the first
    link message is met, that message ends the call: when the pump has
    passed over [p] (interrupted reads, datagrams without link message)
    and the datagram read next holds a link message [o], behind messages
    [pre] of other types, the call returns 1 with the state [link_netlink]
    left after [o] alone, be [o] dispatched to a listener or filtered; the
    messages [post] behind [o] in the datagram are not handled and what
    else is queued on the socket stays there. *)
Theorem manage_link_handles_one fd if_carrier if_add if_remove k w :
  (exists l,
      calls (final (manage_link fd if_carrier if_add if_remove k w))
      = calls w ++ l /\ (length l <= 1)%nat)
  /\
  (calls (final (manage_link fd if_carrier if_add if_remove k w)) = calls w
   \/ result (manage_link fd if_carrier if_add if_remove k w) = Some 1)
  /\
  forall p bs q pre o post,
    incoming k = p ++ Datagram bs :: q ->
    passed_over p (xzalloc BUFFERLEN) ->
    let buffer := buffer_with (buffer_after p (xzalloc BUFFERLEN)) bs in
    nlmsgs_in (buffer_after p (xzalloc BUFFERLEN)) bs = pre ++ o :: post ->
    Forall (other_msg buffer) pre ->
    is_link_msg buffer o ->
    let w0 :=
      after_interrupts p (set_listeners if_carrier if_add if_remove w) in
    let w' := snd (link_netlink buffer o w0) in
    manage_link fd if_carrier if_add if_remove k w
    = Returns 1 (set_incoming q k) w'
    /\ exists l, calls w' = calls w ++ l /\ (length l <= 1)%nat.
Proof.
  split; [| split].
  - unfold manage_link, get_netlink.
    destruct (get_netlink_loop_link_calls MSG_DONTWAIT (incoming k)
                (xzalloc BUFFERLEN) (-1)
                (set_listeners if_carrier if_add if_remove w))
      as (l & Hl & Hlen).
    exists l. split; [| exact Hlen].
    destruct (get_netlink_loop _ _ _ _ _ _); exact Hl.
  - unfold manage_link, get_netlink.
    pose proof (get_netlink_loop_call_returns_1 MSG_DONTWAIT (incoming k)
                  (xzalloc BUFFERLEN) (-1)
                  (set_listeners if_carrier if_add if_remove w)) as H.
    destruct (get_netlink_loop _ _ _ _ _ _); exact H.
  - intros p bs q pre o post Hq Hp buffer Hmsgs Hpre Hlink w0 w'.
    split.
    + unfold manage_link, get_netlink. rewrite Hq.
      destruct (get_netlink_loop_passed_over MSG_DONTWAIT p
                  (Datagram bs :: q) (xzalloc BUFFERLEN) (-1)
                  (set_listeners if_carrier if_add if_remove w) Hp)
        as (r' & ->).
      fold w0.
      rewrite (get_netlink_loop_stops_at_link _ _ _ _ _ _ pre o post
                 Hmsgs Hpre Hlink).
      reflexivity.
    + pose proof (link_netlink_calls buffer o w0) as Hcalls.
      subst w'. destruct (link_netlink buffer o w0) as [r' w1].
      destruct Hcalls as [_ (l & Hl & Hlen)]. exists l.
      split; [| exact Hlen]. simpl. rewrite Hl. unfold w0, after_interrupts.
      destruct (existsb _ p); reflexivity.
Qed.

(** ** The theorems at work on sample data *)

Lemma add_attr_overflow_or_append_witness :
  (NLMSG_HDRLEN <= nlmsg_len SampleRuns.bare_address 0 <= sizeof_nlma)
  /\ (sizeof_nlma <= Z.of_nat (length SampleRuns.bare_address) <= INT_MAX)
  /\ RTA_LENGTH (Z.of_nat (length (name Sample.long_name ++ [0]))) < 2 ^ 16
  /\ add_attr_l SampleRuns.bare_address sizeof_nlma IFA_LABEL
       (name Sample.long_name ++ [0]) Sample.start
     = (-1, SampleRuns.bare_address, set_errno ENOBUFS Sample.start)
  /\ exists n',
      add_attr_32 SampleRuns.bare_address sizeof_nlma IFA_LABEL 7 Sample.start
      = (0, n', Sample.start)
      /\ attr_written n' 24 IFA_LABEL (le_bytes 4 7)
      /\ attr_appended SampleRuns.bare_address n' 4.
Proof.
  assert (H1 : NLMSG_HDRLEN <= nlmsg_len SampleRuns.bare_address 0
               <= sizeof_nlma) by (vm_compute; split; discriminate).
  assert (H2 : sizeof_nlma <= Z.of_nat (length SampleRuns.bare_address)
               <= INT_MAX) by (vm_compute; split; discriminate).
  assert (H3 : RTA_LENGTH (Z.of_nat (length (name Sample.long_name ++ [0])))
               < 2 ^ 16) by (vm_compute; reflexivity).
  split; [exact H1 |]. split; [exact H2 |]. split; [exact H3 |].
  exact (add_attr_overflow_or_append SampleRuns.bare_address sizeof_nlma
           IFA_LABEL (name Sample.long_name ++ [0]) 7 Sample.start H1 H2 H3).
Defined.

Lemma err_netlink_decodes_witness :
  (NLMSG_HDRLEN <= nlmsg_len SampleRuns.denied 0 <= INT_MAX)
  /\ err_netlink SampleRuns.denied 0 Sample.start
     = (-1, set_errno EACCES Sample.start).
Proof.
  assert (H1 : NLMSG_HDRLEN <= nlmsg_len SampleRuns.denied 0 <= INT_MAX)
    by (vm_compute; split; discriminate).
  split; [exact H1 |].
  refine (proj2 (proj2 (proj2 (err_netlink_decodes SampleRuns.denied 0
                                 Sample.start H1) eq_refl)) _ _ _);
    vm_compute; discriminate.
Defined.

Lemma link_netlink_classifies_witness :
  is_link_msg SampleRuns.added 0
  /\ is_loopback SampleRuns.added 0 = false
  /\ is_wireless_noise SampleRuns.added 0 = false
  /\ fst (link_netlink SampleRuns.added 0 SampleRuns.listening) = 1
  /\ calls (snd (link_netlink SampleRuns.added 0 SampleRuns.listening))
     = [(2%positive, Sample.eth0)].
Proof.
  assert (H1 : is_link_msg SampleRuns.added 0)
    by (split; [left; reflexivity | vm_compute; discriminate]).
  assert (H2 : is_loopback SampleRuns.added 0 = false) by reflexivity.
  assert (H3 : is_wireless_noise SampleRuns.added 0 = false) by reflexivity.
  split; [exact H1 |]. split; [exact H2 |]. split; [exact H3 |].
  pose proof (link_netlink_classifies SampleRuns.added 0 SampleRuns.listening
                H1 H2 H3) as H.
  cbv zeta in H.
  destruct (link_netlink SampleRuns.added 0 SampleRuns.listening) as [r w'].
  destruct H as (Hr & _ & Hadd & _).
  split; [exact Hr | exact (Hadd eq_refl eq_refl)].
Defined.

Lemma link_netlink_filters_witness :
  is_link_msg SampleRuns.looped 0
  /\ (is_loopback SampleRuns.looped 0 = true
      \/ is_wireless_noise SampleRuns.looped 0 = true)
  /\ link_netlink SampleRuns.looped 0 SampleRuns.listening
     = (1, SampleRuns.listening).
Proof.
  assert (H1 : is_link_msg SampleRuns.looped 0)
    by (split; [left; reflexivity | vm_compute; discriminate]).
  assert (H2 : is_loopback SampleRuns.looped 0 = true
               \/ is_wireless_noise SampleRuns.looped 0 = true)
    by (left; reflexivity).
  split; [exact H1 |]. split; [exact H2 |].
  exact (link_netlink_filters SampleRuns.looped 0 SampleRuns.listening H1 H2).
Defined.

Lemma link_netlink_without_name_witness :
  is_link_msg SampleRuns.nameless 0
  /\ is_loopback SampleRuns.nameless 0 = false
  /\ is_wireless_noise SampleRuns.nameless 0 = false
  /\ has_attr SampleRuns.nameless 0 IFLA_IFNAME = false
  /\ fst (link_netlink SampleRuns.nameless 0 SampleRuns.listening) = 1
  /\ calls (snd (link_netlink SampleRuns.nameless 0 SampleRuns.listening))
     = [(3%positive, [])].
Proof.
  assert (H1 : is_link_msg SampleRuns.nameless 0)
    by (split; [right; reflexivity | vm_compute; discriminate]).
  assert (H2 : is_loopback SampleRuns.nameless 0 = false) by reflexivity.
  assert (H3 : is_wireless_noise SampleRuns.nameless 0 = false)
    by reflexivity.
  assert (H4 : has_attr SampleRuns.nameless 0 IFLA_IFNAME = false)
    by reflexivity.
  split; [exact H1 |]. split; [exact H2 |]. split; [exact H3 |].
  split; [exact H4 |].
  pose proof (link_netlink_without_name SampleRuns.nameless 0
                SampleRuns.listening H1 H2 H3 H4) as H.
  destruct (link_netlink SampleRuns.nameless 0 SampleRuns.listening)
    as [r w'].
  exact H.
Defined.

Lemma send_netlink_next_seq_witness :
  succeed 2 (Sample.kernel_with [Datagram (Sample.ack 0)])
  /\ (NLMSG_HDRLEN <= nlmsg_len Sample.request 0
      <= Z.of_nat (length Sample.request))
  /\ (0 <= seq Sample.start <= UINT_MAX)
  /\ exists req,
      sent (final (send_netlink Sample.request
                     (Sample.kernel_with [Datagram (Sample.ack 0)])
                     Sample.start))
      = sent Sample.start ++ [req]
      /\ seq (final (send_netlink Sample.request
                       (Sample.kernel_with [Datagram (Sample.ack 0)])
                       Sample.start))
         = nlmsg_seq req 0
      /\ nlmsg_seq req 0 = u32 (seq Sample.start + 1)
      /\ (seq Sample.start < UINT_MAX ->
          nlmsg_seq req 0 = seq Sample.start + 1)
      /\ (seq Sample.start = UINT_MAX -> nlmsg_seq req 0 = 0)
      /\ nlmsg_seq req 0 <> seq Sample.start.
Proof.
  assert (H1 : succeed 2 (Sample.kernel_with [Datagram (Sample.ack 0)]))
    by (unfold succeed; simpl; constructor).
  assert (H2 : NLMSG_HDRLEN <= nlmsg_len Sample.request 0
               <= Z.of_nat (length Sample.request))
    by (vm_compute; split; discriminate).
  assert (H3 : 0 <= seq Sample.start <= UINT_MAX)
    by (vm_compute; split; discriminate).
  split; [exact H1 |]. split; [exact H2 |]. split; [exact H3 |].
  exact (send_netlink_next_seq Sample.request
           (Sample.kernel_with [Datagram (Sample.ack 0)]) Sample.start
           H1 H2 H3).
Defined.

Lemma if_route_delete_witness :
  (-1 = -1 \/ -1 = -2)
  /\ let '(_, nlm, _) :=
       if_route_request SampleRuns.cidr24 SampleRuns.iface_eth0 1 2 3 5 (-1)
         2 Sample.start in
     nlmsg_type nlm 0 = RTM_DELROUTE
     /\ rtm_scope nlm 16 = RT_SCOPE_NOWHERE
     /\ rtm_type nlm 16 = 0
     /\ rtm_protocol nlm 16 = 0.
Proof.
  assert (H1 : -1 = -1 \/ -1 = -2) by (left; reflexivity).
  split; [exact H1 |].
  exact (if_route_delete SampleRuns.cidr24 SampleRuns.iface_eth0 1 2 3 5 (-1)
           2 Sample.start H1).
Defined.

Lemma manage_link_handles_one_witness :
  incoming (Sample.kernel_with
              (SampleLinks.quiet
               ++ [Datagram SampleLinks.loopback_first;
                   Datagram (Sample.newlink 0 1)]))
  = SampleLinks.quiet
    ++ Datagram SampleLinks.loopback_first :: [Datagram (Sample.newlink 0 1)]
  /\ passed_over SampleLinks.quiet (xzalloc BUFFERLEN)
  /\ nlmsgs_in (buffer_after SampleLinks.quiet (xzalloc BUFFERLEN))
       SampleLinks.loopback_first = [] ++ 0 :: [44]
  /\ Forall (other_msg
               (buffer_with (buffer_after SampleLinks.quiet
                               (xzalloc BUFFERLEN))
                  SampleLinks.loopback_first)) []
  /\ is_link_msg
       (buffer_with (buffer_after SampleLinks.quiet (xzalloc BUFFERLEN))
          SampleLinks.loopback_first) 0
  /\ manage_link 3 (Some 1%positive) (Some 2%positive) (Some 3%positive)
       (Sample.kernel_with
          (SampleLinks.quiet
           ++ [Datagram SampleLinks.loopback_first;
               Datagram (Sample.newlink 0 1)]))
       Sample.start
     = Returns 1 (Sample.kernel_with [Datagram (Sample.newlink 0 1)])
         (set_errno EINTR SampleRuns.listening).
Proof.
  assert (H1 : incoming (Sample.kernel_with
                 (SampleLinks.quiet
                  ++ [Datagram SampleLinks.loopback_first;
                      Datagram (Sample.newlink 0 1)]))
               = SampleLinks.quiet
                 ++ Datagram SampleLinks.loopback_first
                    :: [Datagram (Sample.newlink 0 1)])
    by reflexivity.
  assert (H2 : passed_over SampleLinks.quiet (xzalloc BUFFERLEN)).
  { split; [reflexivity |]. split; [| exact I].
    change (nlmsgs_in (xzalloc BUFFERLEN) (Sample.noop ++ Sample.ack 0))
      with [0; 16].
    repeat constructor; vm_compute; discriminate. }
  assert (H3 : nlmsgs_in (buffer_after SampleLinks.quiet (xzalloc BUFFERLEN))
                 SampleLinks.loopback_first = [] ++ 0 :: [44])
    by (vm_compute; reflexivity).
  assert (H4 : Forall (other_msg
                 (buffer_with (buffer_after SampleLinks.quiet
                                 (xzalloc BUFFERLEN))
                    SampleLinks.loopback_first)) [])
    by constructor.
  assert (H5 : is_link_msg
                 (buffer_with (buffer_after SampleLinks.quiet
                                 (xzalloc BUFFERLEN))
                    SampleLinks.loopback_first) 0)
    by (split; [left; reflexivity | vm_compute; discriminate]).
  split; [exact H1 |]. split; [exact H2 |]. split; [exact H3 |].
  split; [exact H4 |]. split; [exact H5 |].
  exact (proj1 (proj2 (proj2 (manage_link_handles_one 3 (Some 1%positive)
                                (Some 2%positive) (Some 3%positive)
                                (Sample.kernel_with
                                   (SampleLinks.quiet
                                    ++ [Datagram SampleLinks.loopback_first;
                                        Datagram (Sample.newlink 0 1)]))
                                Sample.start))
                  SampleLinks.quiet SampleLinks.loopback_first
                  [Datagram (Sample.newlink 0 1)]
                  [] 0 [44] H1 H2 H3 H4 H5)).
Defined.




(** ** Where the code departs from the specification *)

(** The kernel's refusal of long names is what keeps an overflow from the
    wire.  Were [if_nametoindex] to give an index for a name of 60
    characters, the first append of [if_address] would overflow, and the
    request would be sent all the same, [if_address] reporting success. *)
Lemma if_address_sends_after_overflow :
  fst (fst (if_address_request SampleRuns.cidr24 Sample.long_name 1 2 3 1 2
              Sample.start)) = [-1; 0; 0]
  /\ errno (snd (if_address_request SampleRuns.cidr24 Sample.long_name 1 2 3
                   1 2 Sample.start)) = ENOBUFS
  /\ length (sent (final (if_address SampleRuns.cidr24 Sample.long_name
                            1 2 3 1
                            (Sample.kernel_with [Datagram (Sample.ack 0)])
                            Sample.start))) = 1%nat
  /\ result (if_address SampleRuns.cidr24 Sample.long_name 1 2 3 1
               (Sample.kernel_with [Datagram (Sample.ack 0)]) Sample.start)
     = Some 0.
Proof. vm_compute. repeat split; reflexivity. Qed.

(** C3 does not hold of the code: a link-added message for ["eth0"] with every bit of the
    change mask set passes both filters, but with no listener registered
    nothing is called. *)
Lemma link_added_without_listener :
  is_link_msg SampleRuns.added 0
  /\ is_loopback SampleRuns.added 0 = false
  /\ is_wireless_noise SampleRuns.added 0 = false
  /\ nlmsg_type SampleRuns.added 0 = RTM_NEWLINK
  /\ ifi_change SampleRuns.added (NLMSG_DATA 0) = UINT_MAX
  /\ manage_link 3 None None None
       (Sample.kernel_with [Datagram (Sample.newlink 0 UINT_MAX)])
       Sample.start
     = Returns 1 (Sample.kernel_with []) Sample.start
  /\ calls (final (manage_link 3 None None None
                     (Sample.kernel_with
                        [Datagram (Sample.newlink 0 UINT_MAX)])
                     Sample.start)) = [].
Proof.
  split; [split; [left; reflexivity | vm_compute; discriminate] |].
  repeat split; reflexivity.
Qed.

(** C4 does not hold of the code: with action -3 the request has the delete-route type but
    the universe scope, the unicast route type and the boot protocol. *)
Lemma if_route_minus_3 :
  let '(_, nlm, _) :=
    if_route_request SampleRuns.cidr24 SampleRuns.iface_eth0 1 2 3 5 (-3) 2
      Sample.start in
  nlmsg_type nlm 0 = RTM_DELROUTE
  /\ rtm_scope nlm 16 = RT_SCOPE_UNIVERSE
  /\ rtm_scope nlm 16 <> RT_SCOPE_NOWHERE
  /\ rtm_type nlm 16 = RTN_UNICAST
  /\ rtm_protocol nlm 16 = RTPROT_BOOT.
Proof. vm_compute. repeat split; try reflexivity; discriminate. Qed.

(** C5 does not hold of the code: the transaction that follows the one numbered [UINT_MAX] is
    numbered 0. *)
Lemma send_netlink_seq_wraps :
  exists req1 req2,
    sent (final (send_netlink Sample.request
                   (Sample.kernel_with [Datagram (Sample.ack 0)])
                   (final (send_netlink Sample.request
                             (Sample.kernel_with [Datagram (Sample.ack 0)])
                             (set_seq (UINT_MAX - 1) Sample.start)))))
    = [req1; req2]
    /\ nlmsg_seq req1 0 = UINT_MAX
    /\ nlmsg_seq req2 0 = 0
    /\ ~ nlmsg_seq req1 0 < nlmsg_seq req2 0.
Proof.
  eexists. eexists. split; [vm_compute; reflexivity |].
  vm_compute. repeat split; try reflexivity. discriminate.
Qed.

(** C2 does not hold of the code: a [recv] failure that follows a message the handler passed
    over is returned as 0, the result of a successful end, by the monitor
    pump and by the pump of a transaction alike. *)
Lemma get_netlink_loses_recv_failure :
  get_netlink 3 MSG_DONTWAIT link_netlink
    (Sample.kernel_with [Datagram Sample.noop; RecvFails ENOBUFS])
    Sample.start
  = Returns 0 (Sample.kernel_with []) (set_errno ENOBUFS Sample.start)
  /\ get_netlink 3 0 err_netlink
       (Sample.kernel_with [Datagram Sample.noop; RecvFails ENOBUFS])
       Sample.start
     = Returns 0 (Sample.kernel_with []) (set_errno ENOBUFS Sample.start)
  /\ result (if_address SampleRuns.cidr24 SampleRuns.iface_eth0 1 2 3 1
               (Sample.kernel_with [Datagram Sample.noop; RecvFails ENOBUFS])
               Sample.start)
     = Some 0.
Proof. vm_compute. repeat split; reflexivity. Qed.

(** * Further properties

    What follows goes beyond the claims above: the attributes of a message
    as a receiver reads them, the requests as they go out on the wire, the
    pump, the monitor and the transactions. *)

(** ** Blocks that agree on a range *)

Lemma get_u8_agree lo hi m m' a :
  agree lo hi m m' -> 0 <= a -> lo <= a < hi -> get_u8 m' a = get_u8 m a.
Proof.
  intros H Ha Hin. unfold get_u8. rewrite (H (Z.to_nat a)) by lia. reflexivity.
Qed.

Lemma get_u16_agree lo hi m m' a :
  agree lo hi m m' -> 0 <= a -> lo <= a -> a + 2 <= hi ->
  get_u16 m' a = get_u16 m a.
Proof.
  intros H Ha Hlo Hhi. unfold get_u16.
  rewrite !(get_u8_agree lo hi m m') by (assumption || lia). reflexivity.
Qed.

Lemma get_u32_agree lo hi m m' a :
  agree lo hi m m' -> 0 <= a -> lo <= a -> a + 4 <= hi ->
  get_u32 m' a = get_u32 m a.
Proof.
  intros H Ha Hlo Hhi. unfold get_u32.
  rewrite !(get_u16_agree lo hi m m') by (assumption || lia). reflexivity.
Qed.

Lemma load_agree lo hi m m' a (k : nat) :
  agree lo hi m m' -> 0 <= a -> lo <= a -> a + Z.of_nat k <= hi ->
  load m' a k = load m a k.
Proof.
  intros H Ha Hlo Hhi. unfold load. apply list_eq. intros i.
  destruct (decide (i < k)%nat) as [Hi | Hi].
  - rewrite !lookup_take_lt, !lookup_drop by lia. apply H. lia.
  - rewrite !lookup_take_ge by lia. reflexivity.
Qed.

Lemma agree_weaken lo hi lo' hi' m m' :
  agree lo hi m m' -> lo <= lo' -> hi' <= hi -> agree lo' hi' m m'.
Proof. intros H Hlo Hhi i Hi. apply H. lia. Qed.

Lemma agree_trans lo hi m1 m2 m3 :
  agree lo hi m1 m2 -> agree lo hi m2 m3 -> agree lo hi m1 m3.
Proof. intros H12 H23 i Hi. rewrite H23, H12 by exact Hi. reflexivity. Qed.

(** ** Attributes that cover a message *)

Lemma RTA_ALIGN_rta_len m a :
  rta_len m a <= RTA_ALIGN (rta_len m a) < rta_len m a + 4
  /\ RTA_ALIGN (rta_len m a) mod 4 = 0.
Proof.
  pose proof (get_u16_range m a) as Hr. fold (rta_len m a) in Hr.
  unfold RTA_ALIGN. apply align4_bounds. lia.
Qed.

(** An attribute inside the range on which two blocks agree reads the
    same in both. *)
Lemma attr_at_agree lo hi m m' a :
  agree lo hi m m' -> 0 <= a -> lo <= a ->
  sizeof_rtattr <= rta_len m a -> a + rta_len m a <= hi ->
  rta_len m' a = rta_len m a /\ attr_at m' a = attr_at m a.
Proof.
  intros H Ha Hlo Hlen Hhi. unfold sizeof_rtattr in Hlen.
  assert (Hl : rta_len m' a = rta_len m a).
  { unfold rta_len. apply (get_u16_agree lo hi); (assumption || lia). }
  split; [exact Hl |]. unfold attr_at. rewrite Hl. f_equal.
  - unfold rta_type. apply (get_u16_agree lo hi); (assumption || lia).
  - rewrite RTA_DATA_eq, RTA_LENGTH_eq.
    apply (load_agree lo hi); (assumption || lia).
Qed.

(** The walk of a receiver over attributes that cover the bytes up to [e],
    in a block that agrees on them and is walked up to [e']: the same
    attributes, then what the walk finds from [e] on. *)
Lemma rtattrs_tiles fuel : forall f1 f2 m m' lo a e e' tail,
  tiles fuel m a e = true ->
  agree lo e m m' ->
  0 <= lo <= a -> e <= e' <= INT_MAX ->
  e - a <= 4 * Z.of_nat f1 ->
  e' - a <= 4 * Z.of_nat f2 ->
  (forall f, e' - e <= 4 * Z.of_nat f -> rtattrs f m' e (e' - e) = tail) ->
  a <= e
  /\ rtattrs f2 m' a (e' - a) = rtattrs f1 m a (e - a) ++ tail
  /\ Forall (fun x => attr_at m' x = attr_at m x) (rtattrs f1 m a (e - a)).
Proof.
  induction fuel as [| fuel IH];
    intros f1 f2 m m' lo a e e' tail Ht Hag Hlo He Hf1 Hf2 Htail;
    unfold INT_MAX, sizeof_rtattr in *; simpl in Ht.
  all: assert (Hend : forall f, rtattrs f m e (e - e) = []).
  1, 3: (intros f; rewrite Z.sub_diag; destruct f; reflexivity).
  - destruct (Z.eqb_spec a e) as [-> | Hne]; [| discriminate].
    rewrite Hend, Htail by lia. repeat split; try lia; constructor.
  - destruct (Z.eqb_spec a e) as [-> | Hne].
    { rewrite Hend, Htail by lia. repeat split; try lia; constructor. }
    apply andb_prop in Ht as [Ht Hrest]. apply andb_prop in Ht as [H4 Hfit].
    apply Z.leb_le in H4, Hfit. unfold sizeof_rtattr in H4.
    pose proof (RTA_ALIGN_rta_len m a) as Hal.
    destruct (attr_at_agree lo e m m' a Hag) as [Hl Hat];
      try (unfold sizeof_rtattr); try lia.
    set (a' := a + RTA_ALIGN (rta_len m a)) in *.
    assert (Ha' : a' <= e).
    { destruct fuel; simpl in Hrest;
        destruct (Z.eqb_spec a' e); try lia; try discriminate.
      apply andb_prop in Hrest as [Hrest _].
      apply andb_prop in Hrest as [_ Hrest]. apply Z.leb_le in Hrest.
      pose proof (get_u16_range m a') as Hr. fold (rta_len m a') in Hr. lia. }
    destruct f1 as [| f1]; [lia |]. destruct f2 as [| f2]; [lia |].
    destruct (IH f1 f2 m m' lo a' e e' tail Hrest Hag) as (Hle & Hw & Hall);
      try (unfold INT_MAX, sizeof_rtattr); try lia; try assumption.
    simpl. unfold RTA_OK, sizeof_rtattr. rewrite Hl.
    repeat match goal with
           | |- context [?x <=? ?y] => destruct (Z.leb_spec x y); try lia
           end. simpl.
    rewrite !s32_small by lia.
    replace (e - a - RTA_ALIGN (rta_len m a)) with (e - a') by lia.
    replace (e' - a - RTA_ALIGN (rta_len m a)) with (e' - a') by lia.
    fold a'. rewrite Hw.
    repeat split; try lia. constructor; assumption.
Qed.

Lemma tiles_refl fuel m e : tiles fuel m e e = true.
Proof. destruct fuel; simpl; rewrite Z.eqb_refl; reflexivity. Qed.

Lemma tiles_extend fuel : forall f2 m m' lo a e e',
  tiles fuel m a e = true ->
  agree lo e m m' -> 0 <= lo <= a ->
  sizeof_rtattr <= rta_len m' e -> e + rta_len m' e <= e' ->
  e + RTA_ALIGN (rta_len m' e) = e' ->
  e' - a <= 4 * Z.of_nat f2 ->
  tiles f2 m' a e' = true.
Proof.
  induction fuel as [| fuel IH];
    intros f2 m m' lo a e e' Ht Hag Hlo Hn1 Hn2 Hn3 Hf2;
    unfold sizeof_rtattr in *; simpl in Ht.
  all: pose proof (RTA_ALIGN_rta_len m' e) as Hal'.
  all: assert (Hlast : forall f, e' - e <= 4 * Z.of_nat f ->
                  tiles f m' e e' = true).
  1, 3: (intros f Hf; destruct f as [| f]; [lia |];
         cbn [tiles]; unfold sizeof_rtattr; rewrite Hn3, tiles_refl;
         repeat match goal with
                | |- context [?x <=? ?y] =>
                    destruct (Z.leb_spec x y); try lia
                | |- context [?x =? ?y] =>
                    destruct (Z.eqb_spec x y); try lia
                end; reflexivity).
  - destruct (Z.eqb_spec a e) as [-> | Hne]; [| discriminate].
    apply Hlast. lia.
  - destruct (Z.eqb_spec a e) as [-> | Hne]; [apply Hlast; lia |].
    apply andb_prop in Ht as [Ht Hrest]. apply andb_prop in Ht as [H4 Hfit].
    apply Z.leb_le in H4, Hfit. unfold sizeof_rtattr in H4.
    pose proof (RTA_ALIGN_rta_len m a) as Hal.
    destruct (attr_at_agree lo e m m' a Hag) as [Hl _];
      try (unfold sizeof_rtattr); try lia.
    destruct f2 as [| f2]; [lia |]. cbn [tiles]. unfold sizeof_rtattr.
    rewrite Hl.
    rewrite (IH f2 m m' lo _ e e' Hrest Hag) by (unfold sizeof_rtattr; lia).
    repeat match goal with
           | |- context [?x <=? ?y] => destruct (Z.leb_spec x y); try lia
           | |- context [?x =? ?y] => destruct (Z.eqb_spec x y); try lia
           end; reflexivity.
Qed.

Lemma tiles_aligned fuel : forall m a e,
  tiles fuel m a e = true -> a mod 4 = 0 -> a <= e /\ e mod 4 = 0.
Proof.
  induction fuel as [| fuel IH]; intros m a e Ht Ha; simpl in Ht.
  - destruct (Z.eqb_spec a e) as [-> | Hne]; [| discriminate]. lia.
  - destruct (Z.eqb_spec a e) as [-> | Hne]; [lia |].
    apply andb_prop in Ht as [Ht Hrest]. apply andb_prop in Ht as [H4 Hfit].
    apply Z.leb_le in H4, Hfit. unfold sizeof_rtattr in H4.
    pose proof (RTA_ALIGN_rta_len m a) as Hal.
    destruct (IH m _ e Hrest) as [Hle Hmod]; [| lia].
    rewrite Z.add_mod, Ha, (proj2 Hal) by lia. reflexivity.
Qed.

(** Where the attributes of a message start. *)
Lemma NLMSG_SPACE_eq size :
  0 <= size <= INT_MAX ->
  NLMSG_SPACE size = NLMSG_DATA 0 + NLMSG_ALIGN size
  /\ 16 <= NLMSG_SPACE size <= size + 19
  /\ NLMSG_SPACE size mod 4 = 0.
Proof.
  intros Hs. unfold INT_MAX in Hs.
  unfold NLMSG_SPACE, NLMSG_DATA, NLMSG_LENGTH. rewrite NLMSG_HDRLEN_eq.
  unfold NLMSG_ALIGN. rewrite !align4_eq, !u32_small by lia.
  split; [| split]; Z.div_mod_to_equations; lia.
Qed.

(** The attributes of a well-formed message once one more has been
    written behind them. *)
Lemma attributes_appended size maxlen n n' type data :
  well_formed size maxlen n ->
  RTA_LENGTH (Z.of_nat (length data)) < 2 ^ 16 ->
  nlmsg_len n 0 + RTA_ALIGN (RTA_LENGTH (Z.of_nat (length data))) <= maxlen ->
  attr_written n' (nlmsg_len n 0) type data ->
  attr_appended n n' (Z.of_nat (length data)) ->
  well_formed size maxlen n'
  /\ nlmsg_len n' 0
     = nlmsg_len n 0 + RTA_ALIGN (RTA_LENGTH (Z.of_nat (length data)))
  /\ attributes n' size = attributes n size ++ [(u16 type, data)].
Proof.
  intros (Hlen & Hmax & Hsize & Hnl & Ht) Hdata Hfit (Wl & Wt & Wd)
         (Al & Afr & _ & _ & Anext & _).
  unfold INT_MAX in *.
  destruct (NLMSG_SPACE_eq size) as (Hstart & Hs16 & Hsmod).
  { unfold INT_MAX. lia. }
  destruct (tiles_aligned _ _ _ _ Ht Hsmod) as [_ Hmod].
  specialize (Anext Hmod).
  set (L := nlmsg_len n 0) in *. set (start := NLMSG_SPACE size) in *.
  pose proof (RTA_LENGTH_eq (Z.of_nat (length data))) as HRL.
  assert (Halign : RTA_LENGTH (Z.of_nat (length data))
                   <= RTA_ALIGN (RTA_LENGTH (Z.of_nat (length data)))).
  { unfold RTA_ALIGN. apply align4_bounds. lia. }
  assert (Hag : agree 4 L n n') by exact Afr.
  destruct (rtattrs_tiles (length n) (length n) (length n') n n' 4 start L
              (nlmsg_len n' 0) [L] Ht Hag) as (_ & Hw & Hall);
    try (unfold INT_MAX); try rewrite Al; try lia.
  { intros f Hf. destruct f as [| f]; [lia |]. simpl.
    unfold RTA_OK, sizeof_rtattr. rewrite Wl.
    repeat match goal with
           | |- context [?x <=? ?y] => destruct (Z.leb_spec x y); try lia
           end. simpl.
    rewrite s32_small by lia.
    replace (nlmsg_len n' 0 - L - RTA_ALIGN (RTA_LENGTH (Z.of_nat (length data))))
      with 0 by lia.
    destruct f; reflexivity. }
  split; [| split; [exact Anext |]].
  - repeat split; try (unfold INT_MAX); try lia.
    fold start. rewrite Al.
    apply (tiles_extend (length n) (length n) n n' 4 start L); try assumption;
      try (unfold sizeof_rtattr); rewrite ?Wl; try lia.
  - unfold attributes. rewrite <- !Hstart. fold start.
    unfold NLMSG_PAYLOAD. fold start. fold L.
    rewrite !s32_small by lia. rewrite Hw, map_app. f_equal.
    + apply map_ext_Forall. exact Hall.
    + simpl. unfold attr_at. rewrite Wt, Wl, RTA_LENGTH_eq.
      change (RTA_LENGTH 0) with 4.
      replace (Z.to_nat (4 + Z.of_nat (length data) - 4))
        with (length data) by lia.
      rewrite Wd. reflexivity.
Qed.

(** A message that ends with its fixed payload has no attribute. *)
Lemma attributes_bare size maxlen n :
  well_formed size maxlen n ->
  nlmsg_len n 0 = NLMSG_SPACE size ->
  attributes n size = [].
Proof.
  intros (Hlen & Hmax & Hsize & Hnl & Ht) HL. unfold attributes, NLMSG_PAYLOAD.
  rewrite HL, Z.sub_diag. destruct (length n); reflexivity.
Qed.

(** The attributes read in a block that holds the same message. *)
Lemma attributes_agree size maxlen n m :
  well_formed size maxlen n ->
  agree 16 (nlmsg_len n 0) n m ->
  nlmsg_len m 0 = nlmsg_len n 0 ->
  nlmsg_len n 0 <= Z.of_nat (length m) ->
  attributes m size = attributes n size.
Proof.
  intros (Hlen & Hmax & Hsize & Hnl & Ht) Hag HL Hm. unfold INT_MAX in *.
  destruct (NLMSG_SPACE_eq size) as (Hstart & Hs16 & Hsmod);
    [unfold INT_MAX; lia |].
  set (L := nlmsg_len n 0) in *. set (start := NLMSG_SPACE size) in *.
  destruct (rtattrs_tiles (length n) (length n) (length m) n m 16 start L L []
              Ht Hag) as (_ & Hw & Hall);
    try (unfold INT_MAX); try lia.
  { intros f _. rewrite Z.sub_diag. destruct f; reflexivity. }
  unfold attributes, NLMSG_PAYLOAD. rewrite <- !Hstart, HL. fold start L.
  rewrite !s32_small by lia. rewrite Hw, app_nil_r.
  apply map_ext_Forall. exact Hall.
Qed.

(** An append on a well-formed message with room for the attribute: the
    message stays well formed and a receiver finds the attribute behind
    those it found before. *)
Lemma add_attr_l_attributes size maxlen n type data w :
  well_formed size maxlen n ->
  RTA_LENGTH (Z.of_nat (length data)) < 2 ^ 16 ->
  nlmsg_len n 0 + RTA_ALIGN (RTA_LENGTH (Z.of_nat (length data))) <= maxlen ->
  exists n',
    add_attr_l n maxlen type data w = (0, n', w)
    /\ well_formed size maxlen n'
    /\ nlmsg_len n' 0
       = nlmsg_len n 0 + RTA_ALIGN (RTA_LENGTH (Z.of_nat (length data)))
    /\ attributes n' size = attributes n size ++ [(u16 type, data)]
    /\ agree 4 (nlmsg_len n 0) n n'.
Proof.
  intros Hwf Hdata Hfit. pose proof Hwf as (Hlen & Hmax & Hsize & Hnl & Ht).
  unfold INT_MAX in Hmax.
  destruct (NLMSG_SPACE_eq size) as (_ & Hs16 & Hsmod);
    [unfold INT_MAX; lia |].
  destruct (tiles_aligned _ _ _ _ Ht Hsmod) as [_ Hmod].
  pose proof (add_attr_l_spec n maxlen type data w) as Hspec.
  cbv zeta in Hspec. unfold NLMSG_ALIGN in Hspec.
  rewrite (align4_aligned (nlmsg_len n 0)) in Hspec by lia.
  destruct (Z.gtb_spec (nlmsg_len n 0
              + RTA_ALIGN (RTA_LENGTH (Z.of_nat (length data)))) maxlen)
    as [Hgt | _]; [lia |].
  destruct Hspec as (n' & Heq & Hwr & Happ);
    [rewrite NLMSG_HDRLEN_eq; lia | unfold INT_MAX; lia | exact Hdata |].
  destruct (attributes_appended size maxlen n n' type data Hwf Hdata Hfit
              Hwr Happ) as (Hwf' & HL' & Hattrs).
  exists n'.
  split; [exact Heq | split; [exact Hwf' | split; [exact HL' |]]].
  split; [exact Hattrs | exact (proj1 (proj2 Happ))].
Qed.

Lemma add_attr_32_attributes size maxlen n type v w :
  well_formed size maxlen n ->
  nlmsg_len n 0 + 8 <= maxlen ->
  exists n',
    add_attr_32 n maxlen type v w = (0, n', w)
    /\ well_formed size maxlen n'
    /\ nlmsg_len n' 0 = nlmsg_len n 0 + 8
    /\ attributes n' size = attributes n size ++ [(u16 type, le_bytes 4 v)]
    /\ agree 4 (nlmsg_len n 0) n n'.
Proof.
  intros Hwf Hfit. pose proof Hwf as (Hlen & Hmax & Hsize & Hnl & Ht).
  unfold INT_MAX in Hmax.
  destruct (NLMSG_SPACE_eq size) as (_ & Hs16 & Hsmod);
    [unfold INT_MAX; lia |].
  destruct (tiles_aligned _ _ _ _ Ht Hsmod) as [_ Hmod].
  pose proof (add_attr_32_spec n maxlen type v w) as Hspec.
  cbv zeta in Hspec. unfold NLMSG_ALIGN in Hspec.
  rewrite (align4_aligned (nlmsg_len n 0)) in Hspec by lia.
  change (RTA_ALIGN (RTA_LENGTH 4)) with 8 in Hspec.
  destruct (Z.gtb_spec (nlmsg_len n 0 + 8) maxlen) as [Hgt | _]; [lia |].
  destruct Hspec as (n' & Heq & Hwr & Happ);
    [rewrite NLMSG_HDRLEN_eq; lia | unfold INT_MAX; lia |].
  destruct (attributes_appended size maxlen n n' type (le_bytes 4 v) Hwf)
    as (Hwf' & HL' & Hattrs); try assumption;
    rewrite ?length_le_bytes; try reflexivity; try exact Hfit.
  rewrite length_le_bytes in HL'.
  exists n'.
  split; [exact Heq | split; [exact Hwf' | split; [exact HL' |]]].
  split; [exact Hattrs | exact (proj1 (proj2 Happ))].
Qed.

(** A successful append leaves the bytes behind the value it wrote as they
    were, the padding among them. *)
Lemma add_attr_l_behind size maxlen n type data w :
  well_formed size maxlen n ->
  RTA_LENGTH (Z.of_nat (length data)) < 2 ^ 16 ->
  nlmsg_len n 0 + RTA_ALIGN (RTA_LENGTH (Z.of_nat (length data))) <= maxlen ->
  agree (nlmsg_len n 0 + RTA_LENGTH (Z.of_nat (length data)))
    (Z.of_nat (length n)) n (snd (fst (add_attr_l n maxlen type data w))).
Proof.
  intros Hwf Hdata Hfit. pose proof Hwf as (Hlen & Hmax & Hsize & Hnl & Ht).
  unfold INT_MAX in Hmax.
  destruct (NLMSG_SPACE_eq size) as (_ & Hs16 & Hsmod);
    [unfold INT_MAX; lia |].
  destruct (tiles_aligned _ _ _ _ Ht Hsmod) as [_ Hmod].
  pose proof (add_attr_l_spec n maxlen type data w) as Hspec.
  cbv zeta in Hspec. unfold NLMSG_ALIGN in Hspec.
  rewrite (align4_aligned (nlmsg_len n 0)) in Hspec by lia.
  destruct (Z.gtb_spec (nlmsg_len n 0
              + RTA_ALIGN (RTA_LENGTH (Z.of_nat (length data)))) maxlen)
    as [Hgt | _]; [lia |].
  destruct Hspec as (n' & Heq & _ & Happ);
    [rewrite NLMSG_HDRLEN_eq; lia | unfold INT_MAX; lia | exact Hdata |].
  rewrite Heq. simpl. destruct Happ as (_ & _ & _ & _ & _ & Hup).
  unfold NLMSG_ALIGN in Hup.
  rewrite (align4_aligned (nlmsg_len n 0)) in Hup by lia.
  intros i Hi. apply Hup. lia.
Qed.

(** [add_attr_32] is [add_attr_l] on the four bytes of the value. *)
Lemma add_attr_32_as_l n maxlen type v w :
  add_attr_32 n maxlen type v w = add_attr_l n maxlen type (le_bytes 4 v) w.
Proof. reflexivity. Qed.

Lemma add_attrs_attributes size maxlen attrs : forall n w,
  well_formed size maxlen n ->
  Forall (fun a => RTA_LENGTH (Z.of_nat (length a.2)) < 2 ^ 16) attrs ->
  nlmsg_len n 0 + attrs_space attrs <= maxlen ->
  exists n',
    add_attrs n maxlen attrs w = (n', w)
    /\ well_formed size maxlen n'
    /\ nlmsg_len n' 0 = nlmsg_len n 0 + attrs_space attrs
    /\ attributes n' size = attributes n size ++ map as_written attrs.
Proof.
  induction attrs as [| [type data] attrs IH]; intros n w Hwf Hall Hfit.
  - exists n. simpl. rewrite app_nil_r, Z.add_0_r. auto.
  - apply Forall_cons in Hall as [Hdata Hall]. simpl in Hdata, Hfit.
    assert (Hpos : 0 <= attrs_space attrs).
    { clear. induction attrs as [| a attrs IH]; simpl; [lia |].
      pose proof (proj1 (align4_range (RTA_LENGTH (Z.of_nat (length a.2))))).
      unfold RTA_ALIGN. lia. }
    destruct (add_attr_l_attributes size maxlen n type data w Hwf Hdata)
      as (n1 & Heq & Hwf1 & HL1 & Hat1 & _); [lia |].
    destruct (IH n1 w Hwf1 Hall) as (n' & Heq' & Hwf' & HL' & Hat');
      [lia |].
    exists n'. simpl. rewrite Heq, Heq'.
    split; [reflexivity | split; [exact Hwf' | split]].
    + lia.
    + rewrite Hat', Hat1, <- app_assoc. reflexivity.
Qed.

(** ** The request on the wire *)

Lemma u16_lor a b :
  0 <= a < 2 ^ 16 -> 0 <= b < 2 ^ 16 -> u16 (Z.lor a b) = Z.lor a b.
Proof.
  intros Ha Hb. unfold u16. rewrite <- Z.land_ones by lia.
  rewrite Z.land_lor_distr_l, !Z.land_ones by lia.
  rewrite !Z.mod_small by lia. reflexivity.
Qed.

(** What [send_netlink] hands to [sendmsg] once [socket] and [bind] have
    succeeded: the first [nlmsg_len] bytes of the caller's message, with
    the acknowledgment flag added and the sequence number set. *)
Lemma send_netlink_request hdr k w :
  succeed 2 k ->
  NLMSG_HDRLEN <= nlmsg_len hdr 0 <= Z.of_nat (length hdr) ->
  exists req,
    sent (final (send_netlink hdr k w)) = sent w ++ [req]
    /\ Z.of_nat (length req) = nlmsg_len hdr 0
    /\ nlmsg_len req 0 = nlmsg_len hdr 0
    /\ nlmsg_type req 0 = nlmsg_type hdr 0
    /\ nlmsg_flags req 0 = Z.lor (nlmsg_flags hdr 0) NLM_F_ACK
    /\ nlmsg_seq req 0 = u32 (seq w + 1)
    /\ nlmsg_pid req 0 = nlmsg_pid hdr 0
    /\ agree 12 (nlmsg_len hdr 0) hdr req.
Proof.
  intros Hok Hlen. rewrite NLMSG_HDRLEN_eq in Hlen.
  destruct (send_netlink_sends hdr k w Hok) as (_ & Hsent & _).
  cbv zeta in Hsent. eexists. split; [exact Hsent |].
  set (L := nlmsg_len hdr 0) in *.
  set (hdr' := set_u32 _ 8 _).
  assert (Hl' : length hdr' = length hdr).
  { unfold hdr', set_u32, set_u16. rewrite !length_store. reflexivity. }
  assert (Hbyte : forall i : nat, Z.of_nat i < L ->
            load hdr' 0 (Z.to_nat L) !! i = hdr' !! i).
  { intros i Hi. unfold load. simpl. rewrite drop_0.
    apply lookup_take_lt. lia. }
  assert (H8 : forall a, 0 <= a < L ->
            get_u8 (load hdr' 0 (Z.to_nat L)) a = get_u8 hdr' a).
  { intros a Ha. apply get_u8_load. lia. }
  assert (H16 : forall a, 0 <= a -> a + 2 <= L ->
            get_u16 (load hdr' 0 (Z.to_nat L)) a = get_u16 hdr' a).
  { intros a Ha Hb. unfold get_u16. rewrite !H8 by lia. reflexivity. }
  assert (H32 : forall a, 0 <= a -> a + 4 <= L ->
            get_u32 (load hdr' 0 (Z.to_nat L)) a = get_u32 hdr' a).
  { intros a Ha Hb. apply get_u32_load; lia. }
  repeat split.
  - unfold load. rewrite length_take, length_drop. simpl. lia.
  - unfold nlmsg_len. rewrite H32 by lia. unfold hdr', set_u32, set_u16.
    rewrite !get_u32_store_other by (simpl; lia). reflexivity.
  - unfold nlmsg_type. rewrite H16 by lia. unfold hdr', set_u32, set_u16.
    rewrite !get_u16_store_other by (simpl; lia). reflexivity.
  - unfold nlmsg_flags at 1. rewrite H16 by lia. unfold hdr', set_u32.
    rewrite get_u16_store_other by (simpl; lia).
    rewrite get_u16_set_u16 by lia.
    apply u16_lor; [apply get_u16_range | unfold NLM_F_ACK; lia].
  - unfold nlmsg_seq. rewrite H32 by lia. unfold hdr'.
    rewrite get_u32_set_u32
      by (unfold set_u16; rewrite ?length_store; lia).
    unfold u32. rewrite Z.mod_mod by lia. reflexivity.
  - unfold nlmsg_pid. rewrite H32 by lia. unfold hdr', set_u32, set_u16.
    rewrite !get_u32_store_other by (simpl; lia). reflexivity.
  - intros i Hi. rewrite Hbyte by lia. unfold hdr', set_u32, set_u16.
    rewrite !lookup_store_other by (simpl; lia). reflexivity.
Qed.

(** ** The requests of the builders *)

Lemma if_route_fixed_well_formed c netmask gateway action :
  well_formed sizeof_rtmsg sizeof_nlmr (if_route_fixed c netmask gateway action).
Proof.
  destruct (if_route_fixed_ok c netmask gateway action) as [(Hl & _) HL].
  cbv zeta in HL. unfold well_formed. rewrite HL.
  split; [exact Hl |]. split; [vm_compute; discriminate |].
  split; [vm_compute; split; discriminate |].
  split; [vm_compute; split; discriminate |].
  apply tiles_refl.
Qed.

Lemma if_address_fixed_well_formed c netmask action ifindex :
  well_formed sizeof_ifaddrmsg sizeof_nlma
    (if_address_fixed c netmask action ifindex).
Proof.
  destruct (if_address_fixed_ok c netmask action ifindex) as [(Hl & _) HL].
  cbv zeta in HL. unfold well_formed. rewrite HL.
  split; [exact Hl |]. split; [vm_compute; discriminate |].
  split; [vm_compute; split; discriminate |].
  split; [vm_compute; split; discriminate |].
  apply tiles_refl.
Qed.


Lemma if_route_request_attributes c iface destination netmask gateway metric
    action ifindex w :
  exists nlm,
    if_route_request c iface destination netmask gateway metric action
      ifindex w = ([0; 0; 0; 0; 0], nlm, w)
    /\ well_formed sizeof_rtmsg sizeof_nlmr nlm
    /\ nlmsg_len nlm 0 = (if action =? 1 then 60 else 68)
    /\ attributes nlm sizeof_rtmsg =
       [(RTA_DST, le_bytes 4 destination)]
       ++ (if action =? 1 then []
           else [(RTA_PREFSRC, le_bytes 4 (addr iface))])
       ++ [(RTA_GATEWAY, le_bytes 4 gateway);
           (RTA_OIF, le_bytes 4 ifindex);
           (RTA_PRIORITY, le_bytes 4 metric)]
    /\ agree 4 (NLMSG_LENGTH sizeof_rtmsg)
         (if_route_fixed c netmask gateway action) nlm.
Proof.
  unfold if_route_request. change (NLMSG_LENGTH sizeof_rtmsg) with 28.
  pose proof (if_route_fixed_well_formed c netmask gateway action) as W0.
  destruct (if_route_fixed_ok c netmask gateway action) as [_ L0].
  cbv zeta in L0.
  pose proof (attributes_bare _ _ _ W0 L0) as A0.
  set (n0 := if_route_fixed c netmask gateway action) in *.
  assert (Hsize : sizeof_nlmr = 284) by reflexivity.
  assert (Hl : forall n type x,
             well_formed sizeof_rtmsg sizeof_nlmr n ->
             28 <= nlmsg_len n 0 <= 60 ->
             agree 4 28 n0 n ->
             exists n',
               add_attr_l n sizeof_nlmr type (le_bytes 4 x) w = (0, n', w)
               /\ well_formed sizeof_rtmsg sizeof_nlmr n'
               /\ nlmsg_len n' 0 = nlmsg_len n 0 + 8
               /\ attributes n' sizeof_rtmsg
                  = attributes n sizeof_rtmsg ++ [(u16 type, le_bytes 4 x)]
               /\ agree 4 28 n0 n').
  { intros n type x Wn Hb G.
    destruct (add_attr_32_attributes sizeof_rtmsg sizeof_nlmr n type x w Wn)
      as (n' & Heq & Wn' & HL & Hat & Hag); [rewrite Hsize; lia |].
    exists n'. rewrite <- add_attr_32_as_l.
    split; [exact Heq | split; [exact Wn' | split; [exact HL |]]].
    split; [exact Hat |]. apply (agree_trans 4 28 n0 n n' G).
    apply (agree_weaken _ _ _ _ _ _ Hag); lia. }
  assert (G0 : agree 4 28 n0 n0) by (intros i _; reflexivity).
  assert (B0 : 28 <= nlmsg_len n0 0 <= 60) by (rewrite L0; lia).
  destruct (Hl n0 RTA_DST destination W0 B0 G0)
    as (n1 & -> & W1 & L1 & A1 & G1).
  rewrite L0 in L1. rewrite A0 in A1.
  assert (Hsecond : exists n2,
             (if negb (action =? 1)
              then add_attr_l n1 sizeof_nlmr RTA_PREFSRC
                     (le_bytes 4 (addr iface)) w
              else (0, n1, w)) = (0, n2, w)
             /\ well_formed sizeof_rtmsg sizeof_nlmr n2
             /\ nlmsg_len n2 0 = (if action =? 1 then 36 else 44)
             /\ attributes n2 sizeof_rtmsg =
                [(RTA_DST, le_bytes 4 destination)]
                ++ (if action =? 1 then []
                    else [(RTA_PREFSRC, le_bytes 4 (addr iface))])
             /\ agree 4 28 n0 n2).
  { destruct (action =? 1); simpl negb; cbv iota.
    - exists n1. auto.
    - assert (B1 : 28 <= nlmsg_len n1 0 <= 60) by (rewrite L1; lia).
      destruct (Hl n1 RTA_PREFSRC (addr iface) W1 B1 G1)
        as (n2 & -> & W2 & L2 & A2 & G2).
      exists n2. rewrite L2, L1, A2, A1. auto. }
  destruct Hsecond as (n2 & -> & W2 & L2 & A2 & G2).
  assert (B2 : 28 <= nlmsg_len n2 0 <= 60)
    by (rewrite L2; destruct (action =? 1); lia).
  destruct (Hl n2 RTA_GATEWAY gateway W2 B2 G2)
    as (n3 & -> & W3 & L3 & A3 & G3).
  assert (B3 : 28 <= nlmsg_len n3 0 <= 60)
    by (rewrite L3, L2; destruct (action =? 1); lia).
  destruct (Hl n3 RTA_OIF ifindex W3 B3 G3)
    as (n4 & Heq4 & W4 & L4 & A4 & G4).
  rewrite <- add_attr_32_as_l in Heq4. rewrite Heq4.
  assert (B4 : 28 <= nlmsg_len n4 0 <= 60)
    by (rewrite L4, L3, L2; destruct (action =? 1); lia).
  destruct (Hl n4 RTA_PRIORITY metric W4 B4 G4)
    as (n5 & Heq5 & W5 & L5 & A5 & G5).
  rewrite <- add_attr_32_as_l in Heq5. rewrite Heq5.
  exists n5. split; [reflexivity |]. split; [exact W5 |].
  split; [| split; [| exact G5]].
  - rewrite L5, L4, L3, L2. destruct (action =? 1); reflexivity.
  - rewrite A5, A4, A3, A2. rewrite <- !app_assoc. reflexivity.
Qed.

Lemma if_address_request_attributes c iface address netmask broadcast action
    ifindex w :
  Z.of_nat (length (name iface)) < IF_NAMESIZE ->
  exists nlm,
    snd (fst (if_address_request c iface address netmask broadcast action
                ifindex w)) = nlm
    /\ snd (if_address_request c iface address netmask broadcast action
              ifindex w) = w
    /\ well_formed sizeof_ifaddrmsg sizeof_nlma nlm
    /\ nlmsg_len nlm 0
       = NLMSG_LENGTH sizeof_ifaddrmsg
         + RTA_ALIGN (RTA_LENGTH (Z.of_nat (length (name iface)) + 1))
         + (if action >=? 0 then 16 else 8)
    /\ attributes nlm sizeof_ifaddrmsg =
       [(IFA_LABEL, name iface ++ [0]); (IFA_LOCAL, le_bytes 4 address)]
       ++ (if action >=? 0 then [(IFA_BROADCAST, le_bytes 4 broadcast)]
           else [])
    /\ agree 4 (NLMSG_LENGTH sizeof_ifaddrmsg)
         (if_address_fixed c netmask action ifindex) nlm
    /\ agree
         (NLMSG_LENGTH sizeof_ifaddrmsg
          + RTA_LENGTH (Z.of_nat (length (name iface)) + 1))
         (NLMSG_LENGTH sizeof_ifaddrmsg
          + RTA_ALIGN (RTA_LENGTH (Z.of_nat (length (name iface)) + 1)))
         (if_address_fixed c netmask action ifindex) nlm.
Proof.
  intros Hname. unfold IF_NAMESIZE in Hname. unfold if_address_request.
  pose proof (if_address_fixed_well_formed c netmask action ifindex) as W0.
  destruct (if_address_fixed_ok c netmask action ifindex) as [_ L0].
  cbv zeta in L0.
  pose proof (attributes_bare _ _ _ W0 L0) as A0.
  set (n0 := if_address_fixed c netmask action ifindex) in *.
  assert (Hsize : sizeof_nlma = 88) by reflexivity.
  assert (Hlab : Z.of_nat (length (name iface ++ [0]))
                 = Z.of_nat (length (name iface)) + 1).
  { rewrite length_app. simpl. lia. }
  set (A := RTA_ALIGN (RTA_LENGTH (Z.of_nat (length (name iface)) + 1))).
  assert (HA : 0 <= A <= 24).
  { unfold A. rewrite RTA_LENGTH_eq. unfold RTA_ALIGN.
    rewrite align4_eq, u32_small by lia. Z.div_mod_to_equations. lia. }
  pose proof (add_attr_l_behind sizeof_ifaddrmsg sizeof_nlma n0 IFA_LABEL
                (name iface ++ [0]) w W0) as P1.
  destruct (add_attr_l_attributes sizeof_ifaddrmsg sizeof_nlma n0 IFA_LABEL
              (name iface ++ [0]) w W0)
    as (n1 & Heq1 & W1 & L1 & A1 & G1).
  { rewrite Hlab, RTA_LENGTH_eq. lia. }
  { rewrite Hlab, L0, Hsize. fold A. lia. }
  rewrite Heq1, Hlab, L0 in P1. simpl in P1. rewrite Heq1.
  assert (Hd : RTA_LENGTH (Z.of_nat (length (name iface)) + 1) < 2 ^ 16)
    by (rewrite RTA_LENGTH_eq; lia).
  assert (Hf : 24 + RTA_ALIGN (RTA_LENGTH (Z.of_nat (length (name iface)) + 1))
               <= sizeof_nlma) by (rewrite Hsize; fold A; lia).
  specialize (P1 Hd Hf). clear Hd Hf.
  assert (Z1 : agree (24 + RTA_LENGTH (Z.of_nat (length (name iface)) + 1))
                 (24 + A) n0 n1).
  { apply (agree_weaken _ _ _ _ _ _ P1); [lia |].
    destruct W0 as (Hl0 & _). rewrite Hl0, Hsize. lia. }
  clear P1.
  rewrite Hlab, L0 in L1. fold A in L1. rewrite A0 in A1. rewrite L0 in G1.
  assert (Hl : forall n type x,
             well_formed sizeof_ifaddrmsg sizeof_nlma n ->
             24 <= nlmsg_len n 0 <= 80 ->
             agree 4 24 n0 n ->
             exists n',
               add_attr_l n sizeof_nlma type (le_bytes 4 x) w = (0, n', w)
               /\ well_formed sizeof_ifaddrmsg sizeof_nlma n'
               /\ nlmsg_len n' 0 = nlmsg_len n 0 + 8
               /\ attributes n' sizeof_ifaddrmsg
                  = attributes n sizeof_ifaddrmsg
                    ++ [(u16 type, le_bytes 4 x)]
               /\ agree 4 24 n0 n'
               /\ agree 4 (nlmsg_len n 0) n n').
  { intros n type x Wn Hb G.
    destruct (add_attr_32_attributes sizeof_ifaddrmsg sizeof_nlma n type x w
                Wn) as (n' & Heq & Wn' & HL & Hat & Hag);
      [rewrite Hsize; lia |].
    exists n'. rewrite <- add_attr_32_as_l.
    split; [exact Heq | split; [exact Wn' | split; [exact HL |]]].
    split; [exact Hat |]. split; [| exact Hag].
    apply (agree_trans 4 24 n0 n n' G).
    apply (agree_weaken _ _ _ _ _ _ Hag); lia. }
  assert (Hpad : forall n n', agree 4 (nlmsg_len n 0) n n' ->
             24 + A <= nlmsg_len n 0 ->
             agree (24 + RTA_LENGTH (Z.of_nat (length (name iface)) + 1))
               (24 + A) n0 n ->
             agree (24 + RTA_LENGTH (Z.of_nat (length (name iface)) + 1))
               (24 + A) n0 n').
  { intros n n' Hag Hle Hz. apply (agree_trans _ _ n0 n n' Hz).
    apply (agree_weaken _ _ _ _ _ _ Hag); [rewrite RTA_LENGTH_eq; lia | lia]. }
  assert (B1 : 24 <= nlmsg_len n1 0 <= 80) by lia.
  destruct (Hl n1 IFA_LOCAL address W1 B1 G1)
    as (n2 & -> & W2 & L2 & A2 & G2 & S2).
  assert (C1 : 24 + A <= nlmsg_len n1 0) by lia.
  assert (Z2 := Hpad n1 n2 S2 C1 Z1).
  assert (B2 : 24 <= nlmsg_len n2 0 <= 80) by lia.
  change (NLMSG_LENGTH sizeof_ifaddrmsg) with 24.
  destruct (action >=? 0).
  - destruct (Hl n2 IFA_BROADCAST broadcast W2 B2 G2)
      as (n3 & -> & W3 & L3 & A3 & G3 & S3).
    assert (C2 : 24 + A <= nlmsg_len n2 0) by lia.
    assert (Z3 := Hpad n2 n3 S3 C2 Z2).
    exists n3. simpl. split; [reflexivity |]. split; [reflexivity |].
    split; [exact W3 |]. split; [lia |]. split; [| split; [exact G3 |]].
    + rewrite A3, A2, A1. reflexivity.
    + exact Z3.
  - exists n2. simpl. split; [reflexivity |]. split; [reflexivity |].
    split; [exact W2 |]. split; [lia |]. split; [| split; [exact G2 |]].
    + rewrite A2, A1. reflexivity.
    + exact Z2.
Qed.

(** What the builders leave to [send_netlink]. *)
Lemma final_if_route c iface destination netmask gateway metric action k w :
  u32 (if_index k (name iface)) <> 0 ->
  final (if_route c iface destination netmask gateway metric action k w)
  = final (send_netlink
             (snd (fst (if_route_request c iface destination netmask gateway
                          metric action (u32 (if_index k (name iface))) w)))
             k
             (snd (if_route_request c iface destination netmask gateway
                     metric action (u32 (if_index k (name iface))) w))).
Proof.
  intros Hidx. unfold if_route.
  destruct (Z.eqb_spec (u32 (if_index k (name iface))) 0) as [E | _];
    [contradiction |].
  destruct (if_route_request _ _ _ _ _ _ _ _ _) as [[rets nlm] w1]. simpl.
  destruct (send_netlink nlm k w1); reflexivity.
Qed.

Lemma final_if_address c iface address netmask broadcast action k w :
  u32 (if_index k (name iface)) <> 0 ->
  final (if_address c iface address netmask broadcast action k w)
  = final (send_netlink
             (snd (fst (if_address_request c iface address netmask broadcast
                          action (u32 (if_index k (name iface))) w)))
             k
             (snd (if_address_request c iface address netmask broadcast
                     action (u32 (if_index k (name iface))) w))).
Proof.
  intros Hidx. unfold if_address.
  destruct (Z.eqb_spec (u32 (if_index k (name iface))) 0) as [E | _];
    [contradiction |].
  destruct (if_address_request _ _ _ _ _ _ _ _) as [[rets nlm] w1]. simpl.
  destruct (send_netlink nlm k w1); reflexivity.
Qed.

(** A well-formed message goes out with its attributes. *)
Lemma send_netlink_attributes size maxlen nlm k w :
  well_formed size maxlen nlm ->
  succeed 2 k ->
  exists req,
    sent (final (send_netlink nlm k w)) = sent w ++ [req]
    /\ Z.of_nat (length req) = nlmsg_len nlm 0
    /\ attributes req size = attributes nlm size
    /\ nlmsg_type req 0 = nlmsg_type nlm 0
    /\ nlmsg_flags req 0 = Z.lor (nlmsg_flags nlm 0) NLM_F_ACK
    /\ nlmsg_seq req 0 = u32 (seq w + 1)
    /\ agree 12 (nlmsg_len nlm 0) nlm req.
Proof.
  intros Hwf Hok. pose proof Hwf as (Hlen & Hmax & Hsize & Hnl & _).
  destruct (NLMSG_SPACE_eq size) as (_ & Hs16 & _);
    [unfold INT_MAX in *; lia |].
  destruct (send_netlink_request nlm k w Hok)
    as (req & Hsent & Hl & HL & Ht & Hf & Hs & _ & Hag);
    [rewrite NLMSG_HDRLEN_eq; lia |].
  exists req. split; [exact Hsent |]. split; [exact Hl |].
  split; [| auto].
  apply (attributes_agree size maxlen nlm req Hwf); try assumption; try lia.
  apply (agree_weaken _ _ _ _ _ _ Hag); lia.
Qed.

(** X1.  Encoding then decoding.  A run of [add_attr_l] calls on a
    well-formed message with room for all the attributes, each value short
    enough for the 16-bit length field, succeeds throughout, and a receiver
    walking the result with [RTA_OK] and [RTA_NEXT] finds the attributes
    the message had, followed by those appended, in order, each with its
    type (as an [unsigned short]) and its value. *)
Theorem add_attrs_round_trip size maxlen n attrs w :
  well_formed size maxlen n ->
  Forall (fun a => RTA_LENGTH (Z.of_nat (length a.2)) < 2 ^ 16) attrs ->
  nlmsg_len n 0 + attrs_space attrs <= maxlen ->
  let '(n', w') := add_attrs n maxlen attrs w in
  w' = w
  /\ nlmsg_len n' 0 = nlmsg_len n 0 + attrs_space attrs
  /\ attributes n' size = attributes n size ++ map as_written attrs.
Proof.
  intros Hwf Hall Hfit.
  destruct (add_attrs_attributes size maxlen attrs n w Hwf Hall Hfit)
    as (n' & -> & _ & HL & Hat).
  auto.
Qed.

Lemma add_attrs_round_trip_witness :
  well_formed sizeof_ifaddrmsg sizeof_nlma SampleRuns.bare_address
  /\ Forall (fun a => RTA_LENGTH (Z.of_nat (length a.2)) < 2 ^ 16)
       [(IFA_LABEL, Sample.eth0 ++ [0]); (IFA_LOCAL, le_bytes 4 258)]
  /\ nlmsg_len SampleRuns.bare_address 0
     + attrs_space [(IFA_LABEL, Sample.eth0 ++ [0]);
                    (IFA_LOCAL, le_bytes 4 258)] <= sizeof_nlma
  /\ attributes
       (fst (add_attrs SampleRuns.bare_address sizeof_nlma
               [(IFA_LABEL, Sample.eth0 ++ [0]); (IFA_LOCAL, le_bytes 4 258)]
               Sample.start)) sizeof_ifaddrmsg
     = [(IFA_LABEL, [101; 116; 104; 48; 0]); (IFA_LOCAL, [2; 1; 0; 0])].
Proof.
  assert (H1 : well_formed sizeof_ifaddrmsg sizeof_nlma
                 SampleRuns.bare_address)
    by (repeat split; vm_compute; (reflexivity || discriminate)).
  assert (H2 : Forall (fun a => RTA_LENGTH (Z.of_nat (length a.2)) < 2 ^ 16)
                 [(IFA_LABEL, Sample.eth0 ++ [0]);
                  (IFA_LOCAL, le_bytes 4 258)])
    by (repeat constructor).
  assert (H3 : nlmsg_len SampleRuns.bare_address 0
               + attrs_space [(IFA_LABEL, Sample.eth0 ++ [0]);
                              (IFA_LOCAL, le_bytes 4 258)] <= sizeof_nlma)
    by (vm_compute; discriminate).
  split; [exact H1 |]. split; [exact H2 |]. split; [exact H3 |].
  pose proof (add_attrs_round_trip sizeof_ifaddrmsg sizeof_nlma
                SampleRuns.bare_address
                [(IFA_LABEL, Sample.eth0 ++ [0]); (IFA_LOCAL, le_bytes 4 258)]
                Sample.start H1 H2 H3) as H.
  destruct (add_attrs _ _ _ _) as [n' w'].
  destruct H as (_ & _ & H). exact H.
Defined.

(** X2.  [add_attr_32] is [add_attr_l] given the four bytes of the value
    in host order: the two functions test the same bound and write the same
    bytes, so they return the same result, message and [errno]. *)
Theorem add_attr_32_is_add_attr_l n maxlen type v w :
  add_attr_32 n maxlen type v w = add_attr_l n maxlen type (le_bytes 4 v) w.
Proof. apply add_attr_32_as_l. Qed.

(** X3.  What goes on the wire.  Once [socket] and [bind] have succeeded,
    [send_netlink] hands to [sendmsg] exactly the first [nlmsg_len] bytes of
    the caller's message, changed in two fields only: the acknowledgment
    flag is added to the flags and the sequence number is the next one.
    Length, type, port id and every byte from offset 12 on are the
    caller's. *)
Theorem send_netlink_wire_request hdr k w :
  succeed 2 k ->
  NLMSG_HDRLEN <= nlmsg_len hdr 0 <= Z.of_nat (length hdr) ->
  exists req,
    sent (final (send_netlink hdr k w)) = sent w ++ [req]
    /\ Z.of_nat (length req) = nlmsg_len hdr 0
    /\ nlmsg_len req 0 = nlmsg_len hdr 0
    /\ nlmsg_type req 0 = nlmsg_type hdr 0
    /\ nlmsg_flags req 0 = Z.lor (nlmsg_flags hdr 0) NLM_F_ACK
    /\ nlmsg_seq req 0 = u32 (seq w + 1)
    /\ nlmsg_pid req 0 = nlmsg_pid hdr 0
    /\ agree 12 (nlmsg_len hdr 0) hdr req.
Proof. apply send_netlink_request. Qed.

Lemma send_netlink_wire_request_witness :
  succeed 2 (Sample.kernel_with [Datagram (Sample.ack 0)])
  /\ (NLMSG_HDRLEN <= nlmsg_len Sample.request 0
      <= Z.of_nat (length Sample.request))
  /\ exists req,
      sent (final (send_netlink Sample.request
                     (Sample.kernel_with [Datagram (Sample.ack 0)])
                     Sample.start))
      = sent Sample.start ++ [req]
      /\ Z.of_nat (length req) = nlmsg_len Sample.request 0
      /\ nlmsg_len req 0 = nlmsg_len Sample.request 0
      /\ nlmsg_type req 0 = nlmsg_type Sample.request 0
      /\ nlmsg_flags req 0 = Z.lor (nlmsg_flags Sample.request 0) NLM_F_ACK
      /\ nlmsg_seq req 0 = u32 (seq Sample.start + 1)
      /\ nlmsg_pid req 0 = nlmsg_pid Sample.request 0
      /\ agree 12 (nlmsg_len Sample.request 0) Sample.request req.
Proof.
  assert (H1 : succeed 2 (Sample.kernel_with [Datagram (Sample.ack 0)]))
    by (unfold succeed; simpl; constructor).
  assert (H2 : NLMSG_HDRLEN <= nlmsg_len Sample.request 0
               <= Z.of_nat (length Sample.request))
    by (vm_compute; split; discriminate).
  split; [exact H1 |]. split; [exact H2 |].
  exact (send_netlink_wire_request Sample.request
           (Sample.kernel_with [Datagram (Sample.ack 0)]) Sample.start
           H1 H2).
Defined.

(** X4.  The route request on the wire.  For a known interface, once
    [socket] and [bind] have succeeded, the message [if_route] hands to
    [sendmsg] decodes to the destination, the preferred source (the
    interface's address; left out for action 1), the gateway, the
    interface index and the metric, in that order, each as a 4-byte value;
    it is 60 bytes long for action 1 and 68 otherwise. *)
Theorem if_route_wire_attributes c iface destination netmask gateway metric
    action k w :
  u32 (if_index k (name iface)) <> 0 ->
  succeed 2 k ->
  exists req,
    sent (final (if_route c iface destination netmask gateway metric action
                   k w)) = sent w ++ [req]
    /\ Z.of_nat (length req) = (if action =? 1 then 60 else 68)
    /\ attributes req sizeof_rtmsg =
       [(RTA_DST, le_bytes 4 destination)]
       ++ (if action =? 1 then []
           else [(RTA_PREFSRC, le_bytes 4 (addr iface))])
       ++ [(RTA_GATEWAY, le_bytes 4 gateway);
           (RTA_OIF, le_bytes 4 (u32 (if_index k (name iface))));
           (RTA_PRIORITY, le_bytes 4 metric)].
Proof.
  intros Hidx Hok. rewrite final_if_route by exact Hidx.
  destruct (if_route_request_attributes c iface destination netmask gateway
              metric action (u32 (if_index k (name iface))) w)
    as (nlm & -> & Hwf & HL & Hat & _).
  simpl.
  destruct (send_netlink_attributes _ _ nlm k w Hwf Hok)
    as (req & Hsent & Hl & Hattrs & _).
  exists req. split; [exact Hsent |]. split; [congruence |].
  rewrite Hattrs. exact Hat.
Qed.

Lemma if_route_wire_attributes_witness :
  u32 (if_index (Sample.kernel_with [Datagram (Sample.ack 0)])
         (name SampleRuns.iface_eth0)) <> 0
  /\ succeed 2 (Sample.kernel_with [Datagram (Sample.ack 0)])
  /\ exists req,
      sent (final (if_route SampleRuns.cidr24 SampleRuns.iface_eth0 1 2 3 5 0
                     (Sample.kernel_with [Datagram (Sample.ack 0)])
                     Sample.start)) = sent Sample.start ++ [req]
      /\ Z.of_nat (length req) = 68
      /\ attributes req sizeof_rtmsg =
         [(RTA_DST, [1; 0; 0; 0]); (RTA_PREFSRC, [0; 0; 0; 0]);
          (RTA_GATEWAY, [3; 0; 0; 0]); (RTA_OIF, [2; 0; 0; 0]);
          (RTA_PRIORITY, [5; 0; 0; 0])].
Proof.
  assert (H1 : u32 (if_index (Sample.kernel_with [Datagram (Sample.ack 0)])
                      (name SampleRuns.iface_eth0)) <> 0)
    by (vm_compute; discriminate).
  assert (H2 : succeed 2 (Sample.kernel_with [Datagram (Sample.ack 0)]))
    by (unfold succeed; simpl; constructor).
  split; [exact H1 |]. split; [exact H2 |].
  exact (if_route_wire_attributes SampleRuns.cidr24 SampleRuns.iface_eth0
           1 2 3 5 0 (Sample.kernel_with [Datagram (Sample.ack 0)])
           Sample.start H1 H2).
Defined.

(** The header and the fixed payload of a built message, on the wire. *)
Lemma wire_fixed_u8 lo L n0 nlm req i :
  agree 12 L nlm req -> agree 4 lo n0 nlm -> lo <= L ->
  12 <= i < lo -> get_u8 req i = get_u8 n0 i.
Proof.
  intros Hw Hf HL Hi.
  rewrite (get_u8_agree 12 L nlm req) by (assumption || lia).
  apply (get_u8_agree 4 lo); (assumption || lia).
Qed.

(** The fixed part of a route message depends on the gateway only
    through its being the unspecified address or not. *)
Lemma if_route_fixed_gateway c netmask gateway gateway' action :
  (gateway =? INADDR_ANY) = (gateway' =? INADDR_ANY) ->
  if_route_fixed c netmask gateway action
  = if_route_fixed c netmask gateway' action.
Proof.
  intros H. cbv delta [if_route_fixed]. cbv beta. rewrite H. reflexivity.
Qed.

(** X5.  Adding or changing a route.  For the actions 0 (change) and 1
    (add), the message [if_route] hands to [sendmsg] is a new-route
    request for an IPv4 unicast route in the main table: its flags are
    request, acknowledge, create and exclusive, with replace as well for
    action 0; the protocol is "kernel" for action 0 and "boot" for
    action 1; the scope is "link" when the gateway is the unspecified
    address and "universe" otherwise; the destination length is the prefix
    length of the netmask. *)
Theorem if_route_wire_header c iface destination netmask gateway metric
    action k w :
  action = 0 \/ action = 1 ->
  u32 (if_index k (name iface)) <> 0 ->
  succeed 2 k ->
  exists req,
    sent (final (if_route c iface destination netmask gateway metric action
                   k w)) = sent w ++ [req]
    /\ nlmsg_len req 0 = Z.of_nat (length req)
    /\ nlmsg_type req 0 = RTM_NEWROUTE
    /\ nlmsg_flags req 0 =
       Z.lor (if action =? 0 then NLM_F_REPLACE else 0)
         (Z.lor (Z.lor NLM_F_CREATE NLM_F_EXCL)
            (Z.lor NLM_F_REQUEST NLM_F_ACK))
    /\ nlmsg_seq req 0 = u32 (seq w + 1)
    /\ rtm_family req 16 = AF_INET
    /\ rtm_dst_len req 16 = u8 (c netmask)
    /\ rtm_table req 16 = RT_TABLE_MAIN
    /\ rtm_protocol req 16 = (if action =? 0 then RTPROT_KERNEL else RTPROT_BOOT)
    /\ rtm_scope req 16 =
       (if gateway =? INADDR_ANY then RT_SCOPE_LINK else RT_SCOPE_UNIVERSE)
    /\ rtm_type req 16 = RTN_UNICAST.
Proof.
  intros Hact Hidx Hok. rewrite final_if_route by exact Hidx.
  destruct (if_route_request_attributes c iface destination netmask gateway
              metric action (u32 (if_index k (name iface))) w)
    as (nlm & -> & Hwf & HL & _ & Hfix).
  simpl. change (NLMSG_LENGTH sizeof_rtmsg) with 28 in Hfix.
  destruct (send_netlink_request nlm k w Hok)
    as (req & Hsent & Hl & HL' & Ht & Hf & Hs & _ & Hag).
  { destruct Hwf as (Hlen & _). rewrite HL, NLMSG_HDRLEN_eq, Hlen.
    destruct (action =? 1); vm_compute; split; discriminate. }
  assert (HL28 : 28 <= nlmsg_len nlm 0)
    by (rewrite HL; destruct (action =? 1); lia).
  assert (H8 : forall i, 12 <= i < 28 ->
            get_u8 req i = get_u8 (if_route_fixed c netmask gateway action) i).
  { intros i Hi. apply (wire_fixed_u8 28 (nlmsg_len nlm 0) _ nlm); assumption. }
  assert (Htype : nlmsg_type nlm 0
                  = nlmsg_type (if_route_fixed c netmask gateway action) 0).
  { unfold nlmsg_type. apply (get_u16_agree 4 28); (assumption || lia). }
  assert (Hflags : nlmsg_flags nlm 0
                   = nlmsg_flags (if_route_fixed c netmask gateway action) 0).
  { unfold nlmsg_flags. apply (get_u16_agree 4 28); (assumption || lia). }
  exists req. split; [exact Hsent |]. split; [congruence |].
  rewrite Ht, Htype, Hf, Hflags, Hs.
  unfold rtm_family, rtm_dst_len, rtm_table, rtm_protocol, rtm_scope, rtm_type.
  rewrite !H8 by lia. clear - Hact.
  assert (Hcidr : get_u8 (if_route_fixed c netmask gateway action) (16 + 1)
                  = u8 (c netmask)).
  { unfold if_route_fixed. apply get_u8_set_u8. case_ifs;
      unfold set_u8, set_u16, set_u32; rewrite !length_store;
      vm_compute; split; congruence. }
  rewrite Hcidr. clear Hcidr.
  destruct (Z.eqb_spec gateway INADDR_ANY) as [-> | Hg].
  - destruct Hact as [-> | ->];
      repeat match goal with |- _ /\ _ => split end;
      lazymatch goal with
      | |- u32 _ = _ => reflexivity
      | |- _ => vm_compute; reflexivity
      end.
  - rewrite (if_route_fixed_gateway c netmask gateway 1 action)
      by (destruct gateway; (reflexivity || contradiction)).
    destruct Hact as [-> | ->];
      repeat match goal with |- _ /\ _ => split end;
      lazymatch goal with
      | |- u32 _ = _ => reflexivity
      | |- _ => vm_compute; reflexivity
      end.
Qed.

Lemma if_route_wire_header_witness :
  (0 = 0 \/ 0 = 1)
  /\ u32 (if_index (Sample.kernel_with [Datagram (Sample.ack 0)])
            (name SampleRuns.iface_eth0)) <> 0
  /\ succeed 2 (Sample.kernel_with [Datagram (Sample.ack 0)])
  /\ exists req,
      sent (final (if_route SampleRuns.cidr24 SampleRuns.iface_eth0 1 2 3 5 0
                     (Sample.kernel_with [Datagram (Sample.ack 0)])
                     Sample.start)) = sent Sample.start ++ [req]
      /\ nlmsg_len req 0 = Z.of_nat (length req)
      /\ nlmsg_type req 0 = RTM_NEWROUTE
      /\ nlmsg_flags req 0 = 1797
      /\ nlmsg_seq req 0 = 1
      /\ rtm_family req 16 = AF_INET
      /\ rtm_dst_len req 16 = 24
      /\ rtm_table req 16 = RT_TABLE_MAIN
      /\ rtm_protocol req 16 = RTPROT_KERNEL
      /\ rtm_scope req 16 = RT_SCOPE_UNIVERSE
      /\ rtm_type req 16 = RTN_UNICAST.
Proof.
  assert (H0 : 0 = 0 \/ 0 = 1) by (left; reflexivity).
  assert (H1 : u32 (if_index (Sample.kernel_with [Datagram (Sample.ack 0)])
                      (name SampleRuns.iface_eth0)) <> 0)
    by (vm_compute; discriminate).
  assert (H2 : succeed 2 (Sample.kernel_with [Datagram (Sample.ack 0)]))
    by (unfold succeed; simpl; constructor).
  split; [exact H0 |]. split; [exact H1 |]. split; [exact H2 |].
  exact (if_route_wire_header SampleRuns.cidr24 SampleRuns.iface_eth0
           1 2 3 5 0 (Sample.kernel_with [Datagram (Sample.ack 0)])
           Sample.start H0 H1 H2).
Defined.

(** X6.  The address request on the wire.  For a known interface whose
    name is shorter than IF_NAMESIZE, once [socket] and [bind] have
    succeeded, the message [if_address] hands to [sendmsg] decodes to the
    label (the interface name with its final NUL), the local address and,
    for an action that is not negative only, the broadcast address, in that
    order. *)
Theorem if_address_wire_attributes c iface address netmask broadcast action
    k w :
  Z.of_nat (length (name iface)) < IF_NAMESIZE ->
  u32 (if_index k (name iface)) <> 0 ->
  succeed 2 k ->
  exists req,
    sent (final (if_address c iface address netmask broadcast action k w))
    = sent w ++ [req]
    /\ Z.of_nat (length req)
       = NLMSG_LENGTH sizeof_ifaddrmsg
         + RTA_ALIGN (RTA_LENGTH (Z.of_nat (length (name iface)) + 1))
         + (if action >=? 0 then 16 else 8)
    /\ attributes req sizeof_ifaddrmsg =
       [(IFA_LABEL, name iface ++ [0]); (IFA_LOCAL, le_bytes 4 address)]
       ++ (if action >=? 0 then [(IFA_BROADCAST, le_bytes 4 broadcast)]
           else []).
Proof.
  intros Hname Hidx Hok. rewrite final_if_address by exact Hidx.
  destruct (if_address_request_attributes c iface address netmask broadcast
              action (u32 (if_index k (name iface))) w Hname)
    as (nlm & -> & -> & Hwf & HL & Hat & _ & _).
  destruct (send_netlink_attributes _ _ nlm k w Hwf Hok)
    as (req & Hsent & Hl & Hattrs & _).
  exists req. split; [exact Hsent |]. split; [congruence |].
  rewrite Hattrs. exact Hat.
Qed.

Lemma if_address_wire_attributes_witness :
  Z.of_nat (length (name SampleRuns.iface_eth0)) < IF_NAMESIZE
  /\ u32 (if_index (Sample.kernel_with [Datagram (Sample.ack 0)])
            (name SampleRuns.iface_eth0)) <> 0
  /\ succeed 2 (Sample.kernel_with [Datagram (Sample.ack 0)])
  /\ exists req,
      sent (final (if_address SampleRuns.cidr24 SampleRuns.iface_eth0 1 2 3
                     (-1) (Sample.kernel_with [Datagram (Sample.ack 0)])
                     Sample.start)) = sent Sample.start ++ [req]
      /\ Z.of_nat (length req) = 44
      /\ attributes req sizeof_ifaddrmsg =
         [(IFA_LABEL, [101; 116; 104; 48; 0]); (IFA_LOCAL, [1; 0; 0; 0])].
Proof.
  assert (H0 : Z.of_nat (length (name SampleRuns.iface_eth0)) < IF_NAMESIZE)
    by reflexivity.
  assert (H1 : u32 (if_index (Sample.kernel_with [Datagram (Sample.ack 0)])
                      (name SampleRuns.iface_eth0)) <> 0)
    by (vm_compute; discriminate).
  assert (H2 : succeed 2 (Sample.kernel_with [Datagram (Sample.ack 0)]))
    by (unfold succeed; simpl; constructor).
  split; [exact H0 |]. split; [exact H1 |]. split; [exact H2 |].
  exact (if_address_wire_attributes SampleRuns.cidr24 SampleRuns.iface_eth0
           1 2 3 (-1) (Sample.kernel_with [Datagram (Sample.ack 0)])
           Sample.start H0 H1 H2).
Defined.

Lemma u32_u32 z : u32 (u32 z) = u32 z.
Proof. unfold u32. apply Z.mod_mod. lia. Qed.

(** The header and the fixed payload [if_address] starts from. *)
Lemma if_address_fixed_fields c netmask action ifindex :
  let n0 := if_address_fixed c netmask action ifindex in
  nlmsg_type n0 0 = (if action >=? 0 then RTM_NEWADDR else RTM_DELADDR)
  /\ nlmsg_flags n0 0 =
     (if action >=? 0
      then Z.lor NLM_F_REQUEST (Z.lor NLM_F_CREATE NLM_F_REPLACE)
      else NLM_F_REQUEST)
  /\ ifa_family n0 16 = AF_INET
  /\ ifa_prefixlen n0 16 = u8 (c netmask)
  /\ get_u16 n0 (16 + 2) = 0
  /\ ifa_index n0 16 = u32 ifindex.
Proof.
  cbv zeta. unfold nlmsg_type, nlmsg_flags, ifa_family, ifa_prefixlen,
    ifa_index, if_address_fixed.
  assert (Hz : length (xzalloc sizeof_nlma) = 88%nat) by reflexivity.
  repeat match goal with |- _ /\ _ => split end.
  - unfold set_u8 at 1 2, set_u32 at 1.
    rewrite !get_u16_store_other by (simpl; lia).
    destruct (action >=? 0); vm_compute; reflexivity.
  - unfold set_u8 at 1 2, set_u32 at 1.
    rewrite !get_u16_store_other by (simpl; lia).
    destruct (action >=? 0); vm_compute; reflexivity.
  - unfold set_u8 at 1.
    rewrite get_u8_store_other by (simpl; lia).
    rewrite get_u8_set_u8; [reflexivity |].
    destruct (action >=? 0);
      unfold set_u8, set_u16, set_u32; rewrite !length_store, Hz; lia.
  - rewrite get_u8_set_u8; [reflexivity |].
    destruct (action >=? 0);
      unfold set_u8, set_u16, set_u32; rewrite !length_store, Hz; lia.
  - unfold set_u8 at 1 2, set_u32 at 1.
    rewrite !get_u16_store_other by (simpl; lia).
    destruct (action >=? 0); vm_compute; reflexivity.
  - unfold set_u8 at 1 2.
    rewrite !get_u32_store_other by (simpl; lia).
    rewrite get_u32_set_u32; [reflexivity | lia |].
    destruct (action >=? 0);
      unfold set_u8, set_u16, set_u32; rewrite !length_store, Hz; lia.
Qed.

(** X7.  The header of an address request.  For a known interface whose
    name is shorter than IF_NAMESIZE, the message [if_address] hands to
    [sendmsg] is a new-address request with the create and replace flags
    when the action is not negative and a delete-address request without
    them otherwise; in both cases it asks for an acknowledgment, names the
    IPv4 family, carries the prefix length of the netmask and the index the
    kernel gave for the interface name, and leaves the address flags and
    scope zero. *)
Theorem if_address_wire_header c iface address netmask broadcast action k w :
  Z.of_nat (length (name iface)) < IF_NAMESIZE ->
  u32 (if_index k (name iface)) <> 0 ->
  succeed 2 k ->
  exists req,
    sent (final (if_address c iface address netmask broadcast action k w))
    = sent w ++ [req]
    /\ nlmsg_len req 0 = Z.of_nat (length req)
    /\ nlmsg_type req 0 = (if action >=? 0 then RTM_NEWADDR else RTM_DELADDR)
    /\ nlmsg_flags req 0 =
       Z.lor (if action >=? 0
              then Z.lor NLM_F_REQUEST (Z.lor NLM_F_CREATE NLM_F_REPLACE)
              else NLM_F_REQUEST) NLM_F_ACK
    /\ nlmsg_seq req 0 = u32 (seq w + 1)
    /\ ifa_family req 16 = AF_INET
    /\ ifa_prefixlen req 16 = u8 (c netmask)
    /\ get_u16 req (16 + 2) = 0
    /\ ifa_index req 16 = u32 (if_index k (name iface)).
Proof.
  intros Hname Hidx Hok. rewrite final_if_address by exact Hidx.
  destruct (if_address_request_attributes c iface address netmask broadcast
              action (u32 (if_index k (name iface))) w Hname)
    as (nlm & -> & -> & Hwf & HL & _ & Hfix & _).
  change (NLMSG_LENGTH sizeof_ifaddrmsg) with 24 in Hfix, HL.
  assert (HL24 : 24 <= nlmsg_len nlm 0 <= Z.of_nat (length nlm)).
  { destruct Hwf as (Hlen & _ & _ & Hnl & _). rewrite Hlen.
    change (NLMSG_SPACE sizeof_ifaddrmsg) with 24 in Hnl. lia. }
  destruct (send_netlink_request nlm k w Hok)
    as (req & Hsent & Hl & HL' & Ht & Hf & Hs & _ & Hag);
    [rewrite NLMSG_HDRLEN_eq; lia |].
  set (n0 := if_address_fixed c netmask action (u32 (if_index k (name iface))))
    in *.
  assert (H8 : forall i, 12 <= i < 24 -> get_u8 req i = get_u8 n0 i).
  { intros i Hi. apply (wire_fixed_u8 24 (nlmsg_len nlm 0) _ nlm);
      (assumption || lia). }
  assert (Htype : nlmsg_type nlm 0 = nlmsg_type n0 0).
  { unfold nlmsg_type. apply (get_u16_agree 4 24); (assumption || lia). }
  assert (Hflags : nlmsg_flags nlm 0 = nlmsg_flags n0 0).
  { unfold nlmsg_flags. apply (get_u16_agree 4 24); (assumption || lia). }
  destruct (if_address_fixed_fields c netmask action
              (u32 (if_index k (name iface))))
    as (F1 & F2 & F3 & F4 & F5 & F6).
  fold n0 in F1, F2, F3, F4, F5, F6. rewrite u32_u32 in F6.
  exists req. split; [exact Hsent |]. split; [congruence |].
  rewrite Ht, Htype, F1, Hf, Hflags, F2, Hs.
  unfold ifa_family, ifa_prefixlen, ifa_index, get_u32, get_u16 in *.
  rewrite !H8 by lia.
  repeat match goal with |- _ /\ _ => split end;
    (reflexivity || assumption).
Qed.

Lemma if_address_wire_header_witness :
  Z.of_nat (length (name SampleRuns.iface_eth0)) < IF_NAMESIZE
  /\ u32 (if_index (Sample.kernel_with [Datagram (Sample.ack 0)])
            (name SampleRuns.iface_eth0)) <> 0
  /\ succeed 2 (Sample.kernel_with [Datagram (Sample.ack 0)])
  /\ exists req,
      sent (final (if_address SampleRuns.cidr24 SampleRuns.iface_eth0 1 2 3
                     1 (Sample.kernel_with [Datagram (Sample.ack 0)])
                     Sample.start)) = sent Sample.start ++ [req]
      /\ nlmsg_len req 0 = Z.of_nat (length req)
      /\ nlmsg_type req 0 = RTM_NEWADDR
      /\ nlmsg_flags req 0 = 1285
      /\ nlmsg_seq req 0 = 1
      /\ ifa_family req 16 = AF_INET
      /\ ifa_prefixlen req 16 = 24
      /\ get_u16 req (16 + 2) = 0
      /\ ifa_index req 16 = 2.
Proof.
  assert (H0 : Z.of_nat (length (name SampleRuns.iface_eth0)) < IF_NAMESIZE)
    by reflexivity.
  assert (H1 : u32 (if_index (Sample.kernel_with [Datagram (Sample.ack 0)])
                      (name SampleRuns.iface_eth0)) <> 0)
    by (vm_compute; discriminate).
  assert (H2 : succeed 2 (Sample.kernel_with [Datagram (Sample.ack 0)]))
    by (unfold succeed; simpl; constructor).
  split; [exact H0 |]. split; [exact H1 |]. split; [exact H2 |].
  exact (if_address_wire_header SampleRuns.cidr24 SampleRuns.iface_eth0
           1 2 3 1 (Sample.kernel_with [Datagram (Sample.ack 0)])
           Sample.start H0 H1 H2).
Defined.

Lemma get_u8_xzalloc n i : get_u8 (xzalloc n) i = 0.
Proof.
  unfold get_u8, xzalloc.
  destruct (replicate (Z.to_nat n) 0 !! Z.to_nat i) as [z |] eqn:Hz;
    [| reflexivity].
  apply lookup_replicate in Hz as [-> _]. reflexivity.
Qed.

(** Behind its fixed payload the message [if_address] starts from is
    zero. *)
Lemma if_address_fixed_zero c netmask action ifindex i :
  NLMSG_LENGTH sizeof_ifaddrmsg <= i ->
  get_u8 (if_address_fixed c netmask action ifindex) i = 0.
Proof.
  change (NLMSG_LENGTH sizeof_ifaddrmsg) with 24. intros Hi.
  unfold if_address_fixed. destruct (action >=? 0);
    unfold set_u8, set_u16, set_u32;
    rewrite !get_u8_store_other by (simpl; lia); apply get_u8_xzalloc.
Qed.

(** X8.  Clean padding.  In the address request on the wire, the bytes
    between the end of the label (the interface name and its NUL) and the
    next attribute are zero: the padding carries nothing of what the memory
    held before. *)
Theorem if_address_wire_padding c iface address netmask broadcast action
    k w :
  Z.of_nat (length (name iface)) < IF_NAMESIZE ->
  u32 (if_index k (name iface)) <> 0 ->
  succeed 2 k ->
  exists req,
    sent (final (if_address c iface address netmask broadcast action k w))
    = sent w ++ [req]
    /\ forall i,
        NLMSG_LENGTH sizeof_ifaddrmsg
        + RTA_LENGTH (Z.of_nat (length (name iface)) + 1) <= i
        < NLMSG_LENGTH sizeof_ifaddrmsg
          + RTA_ALIGN (RTA_LENGTH (Z.of_nat (length (name iface)) + 1)) ->
        get_u8 req i = 0.
Proof.
  intros Hname Hidx Hok. rewrite final_if_address by exact Hidx.
  destruct (if_address_request_attributes c iface address netmask broadcast
              action (u32 (if_index k (name iface))) w Hname)
    as (nlm & -> & -> & Hwf & HL & _ & _ & Hpad).
  assert (HL24 : 24 <= nlmsg_len nlm 0 <= Z.of_nat (length nlm)).
  { destruct Hwf as (Hlen & _ & _ & Hnl & _). rewrite Hlen.
    change (NLMSG_SPACE sizeof_ifaddrmsg) with 24 in Hnl. lia. }
  destruct (send_netlink_request nlm k w Hok)
    as (req & Hsent & _ & _ & _ & _ & _ & _ & Hag);
    [rewrite NLMSG_HDRLEN_eq; lia |].
  exists req. split; [exact Hsent |]. intros i Hi.
  pose proof (RTA_LENGTH_eq (Z.of_nat (length (name iface)) + 1)) as HR.
  change (NLMSG_LENGTH sizeof_ifaddrmsg) with 24 in *.
  rewrite (get_u8_agree 12 (nlmsg_len nlm 0) nlm req i Hag)
    by (destruct (action >=? 0); lia).
  rewrite (get_u8_agree _ _ _ nlm i Hpad) by lia.
  apply if_address_fixed_zero. change (NLMSG_LENGTH sizeof_ifaddrmsg) with 24.
  lia.
Qed.

Lemma if_address_wire_padding_witness :
  Z.of_nat (length (name SampleRuns.iface_eth0)) < IF_NAMESIZE
  /\ u32 (if_index (Sample.kernel_with [Datagram (Sample.ack 0)])
            (name SampleRuns.iface_eth0)) <> 0
  /\ succeed 2 (Sample.kernel_with [Datagram (Sample.ack 0)])
  /\ exists req,
      sent (final (if_address SampleRuns.cidr24 SampleRuns.iface_eth0 1 2 3
                     1 (Sample.kernel_with [Datagram (Sample.ack 0)])
                     Sample.start)) = sent Sample.start ++ [req]
      /\ forall i, 33 <= i < 36 -> get_u8 req i = 0.
Proof.
  assert (H0 : Z.of_nat (length (name SampleRuns.iface_eth0)) < IF_NAMESIZE)
    by reflexivity.
  assert (H1 : u32 (if_index (Sample.kernel_with [Datagram (Sample.ack 0)])
                      (name SampleRuns.iface_eth0)) <> 0)
    by (vm_compute; discriminate).
  assert (H2 : succeed 2 (Sample.kernel_with [Datagram (Sample.ack 0)]))
    by (unfold succeed; simpl; constructor).
  split; [exact H0 |]. split; [exact H1 |]. split; [exact H2 |].
  exact (if_address_wire_padding SampleRuns.cidr24 SampleRuns.iface_eth0
           1 2 3 1 (Sample.kernel_with [Datagram (Sample.ack 0)])
           Sample.start H0 H1 H2).
Defined.

(** ** The pump, whatever the handler *)

(** What holds of the state at every step of the pump holds at its end. *)
Lemma for_each_nlmsg_invariant (P : state -> Prop) callback fuel buffer :
  (forall nlm w, P w -> P (snd (callback buffer nlm w))) ->
  forall nlm bytes r w, P w ->
  match for_each_nlmsg fuel callback buffer nlm bytes r w with
  | Stopped _ w' | Finished _ w' | Spinning w' => P w'
  end.
Proof.
  intros Hcb. induction fuel as [| fuel IH]; intros nlm bytes r w Hw; simpl;
    destruct (NLMSG_OK buffer nlm (size_t bytes)); try exact Hw;
    specialize (Hcb nlm w Hw);
    destruct (callback buffer nlm w) as [r' w']; simpl in Hcb;
    destruct (negb (r' =? 0)); try exact Hcb.
  destruct (NLMSG_ALIGN (nlmsg_len buffer nlm) =? 0); [exact Hcb |].
  apply IH. exact Hcb.
Qed.

Lemma get_netlink_loop_invariant (P : state -> Prop) flags callback q :
  (forall e w, P w -> P (set_errno e w)) ->
  (forall buffer nlm w, P w -> P (snd (callback buffer nlm w))) ->
  forall buffer r w, P w ->
  P (final (get_netlink_loop flags callback q buffer r w)).
Proof.
  intros Herr Hcb. induction q as [| [bs | e] q IH]; intros buffer r w Hw;
    simpl.
  - destruct (negb _); simpl; auto.
  - set (buffer' := store buffer 0 _).
    pose proof (for_each_nlmsg_invariant P callback (length buffer') buffer'
                  (Hcb buffer') 0
                  (Z.of_nat (length (take (Z.to_nat BUFFERLEN) bs))) r w Hw)
      as Hwalk.
    destruct (for_each_nlmsg _ _ _ _ _ _ _) as [r' w' | r' w' | w'];
      simpl; auto.
  - destruct (e =? EAGAIN); [simpl; auto |].
    destruct (e =? EINTR); [| simpl; auto].
    apply IH. auto.
Qed.

Lemma get_netlink_invariant (P : state -> Prop) fd flags callback k w :
  (forall e w, P w -> P (set_errno e w)) ->
  (forall buffer nlm w, P w -> P (snd (callback buffer nlm w))) ->
  P w -> P (final (get_netlink fd flags callback k w)).
Proof.
  intros Herr Hcb Hw. unfold get_netlink.
  pose proof (get_netlink_loop_invariant P flags callback (incoming k)
                Herr Hcb (xzalloc BUFFERLEN) (-1) w Hw) as H.
  destruct (get_netlink_loop _ _ _ _ _ _); exact H.
Qed.

(** The pump retries an interrupted [recv]. *)
Lemma get_netlink_loop_interrupted flags callback n q buffer r w :
  get_netlink_loop flags callback (interrupted n ++ q) buffer r w
  = get_netlink_loop flags callback q buffer r
      (match n with O => w | S _ => set_errno EINTR w end).
Proof.
  revert w. induction n as [| n IH]; intros w; [reflexivity |].
  cbn [interrupted replicate app]. rewrite get_netlink_loop_eintr.
  fold (interrupted n). rewrite IH. destruct n; reflexivity.
Qed.

(** The pump stops at the first message for which the handler answers
    non-zero. *)
Lemma get_netlink_loop_stops flags callback bs q buffer r w pre o post :
  let buffer' := store buffer 0 (take (Z.to_nat BUFFERLEN) bs) in
  let bytes := Z.of_nat (length (take (Z.to_nat BUFFERLEN) bs)) in
  nlmsgs (length buffer') buffer' 0 bytes = pre ++ o :: post ->
  Forall (fun p => callback buffer' p w = (0, w)) pre ->
  fst (callback buffer' o w) <> 0 ->
  get_netlink_loop flags callback (Datagram bs :: q) buffer r w
  = Returns (fst (callback buffer' o w)) q (snd (callback buffer' o w)).
Proof.
  intros buffer' bytes Hmsgs Hpre Hstop.
  cbn [get_netlink_loop]. fold buffer'. fold bytes.
  rewrite (for_each_nlmsg_stops callback _ _ _ _ _ _ pre o post Hmsgs Hpre
             Hstop).
  reflexivity.
Qed.

(** ** Framing *)

(** In a datagram whose length is a multiple of 4, every message the walk
    reaches lies within the bytes received, and the walk goes on to the
    end: the handler decides the walk only by what it answers there. *)
Lemma for_each_nlmsg_framed callback callback' buffer total fuel :
  (forall p w, within buffer total p ->
               callback buffer p w = callback' buffer p w) ->
  forall nlm bytes r w,
  0 <= nlm -> 0 <= bytes <= INT_MAX -> bytes mod 4 = 0 ->
  nlm + bytes = total ->
  bytes <= 16 * Z.of_nat fuel ->
  for_each_nlmsg fuel callback buffer nlm bytes r w
  = for_each_nlmsg fuel callback' buffer nlm bytes r w
  /\ (forall w', for_each_nlmsg fuel callback buffer nlm bytes r w
                 <> Spinning w')
  /\ Forall (within buffer total) (nlmsgs fuel buffer nlm bytes).
Proof.
  intros Hcb. unfold INT_MAX.
  induction fuel as [| fuel IH]; intros nlm bytes r w Hnlm Hb Hmod Htot Hfuel;
    simpl; rewrite size_t_nonneg by lia;
    destruct (NLMSG_OK buffer nlm bytes) eqn:Hok;
    try (split; [reflexivity | split; [discriminate | constructor]]);
    unfold NLMSG_OK, sizeof_nlmsghdr in Hok;
    apply andb_prop in Hok as [Hok Hle]; apply andb_prop in Hok as [H16 Hlen];
    apply Z.leb_le in H16, Hlen, Hle; [lia |].
  assert (Hin : within buffer total nlm)
    by (unfold within, sizeof_nlmsghdr; lia).
  rewrite <- (Hcb nlm w Hin).
  destruct (callback buffer nlm w) as [r' w'].
  pose proof (align4_bounds (nlmsg_len buffer nlm)) as Hal.
  fold (NLMSG_ALIGN (nlmsg_len buffer nlm)) in Hal.
  assert (Hstep : 16 <= NLMSG_ALIGN (nlmsg_len buffer nlm) <= bytes
                  /\ NLMSG_ALIGN (nlmsg_len buffer nlm) mod 4 = 0).
  { destruct Hal as [Hr Hm]; [lia |]. split; [| exact Hm].
    split; [lia |]. revert Hm Hmod Hr Hle.
    generalize (NLMSG_ALIGN (nlmsg_len buffer nlm)). intros s Hm Hmod Hr Hle.
    Z.div_mod_to_equations. lia. }
  destruct Hstep as [Hstep Hsmod].
  destruct (Z.eqb_spec (NLMSG_ALIGN (nlmsg_len buffer nlm)) 0) as [Hz | _];
    [lia |].
  destruct (IH (nlm + NLMSG_ALIGN (nlmsg_len buffer nlm))
              (bytes - NLMSG_ALIGN (nlmsg_len buffer nlm)) r' w')
    as (Heq & Hns & Hall); try lia.
  { rewrite Zminus_mod, Hmod, Hsmod. reflexivity. }
  split; [| split].
  - destruct (negb (r' =? 0)); [reflexivity | exact Heq].
  - destruct (negb (r' =? 0)); [discriminate | exact Hns].
  - constructor; assumption.
Qed.

(** ** Interface names *)

Lemma cstring_good m n : forall a,
  (length (cstring m a n) <= n)%nat
  /\ Forall (fun c => 0 < c < 2 ^ 8) (cstring m a n).
Proof.
  induction n as [| n IH]; intros a; simpl.
  - split; [lia | constructor].
  - destruct (Z.eqb_spec (get_u8 m a) 0) as [Hz | Hnz]; simpl.
    + split; [lia | constructor].
    + destruct (IH (a + 1)) as [Hl Hall]. split; [lia |].
      constructor; [| exact Hall].
      pose proof (get_u8_range m a). lia.
Qed.

Lemma scan_rtattrs_good fuel buffer nlm ifi : forall rta len ifn ifn',
  good_name ifn ->
  scan_rtattrs fuel buffer nlm ifi rta len ifn = Some ifn' ->
  good_name ifn'.
Proof.
  assert (Hc : forall a, good_name (cstring buffer a (Z.to_nat IF_NAMESIZE))).
  { intros a. destruct (cstring_good buffer (Z.to_nat IF_NAMESIZE) a)
      as [Hl Hall].
    split; [| exact Hall]. unfold IF_NAMESIZE in *. lia. }
  induction fuel as [| fuel IH]; intros rta len ifn ifn' Hg Hs; simpl in Hs;
    destruct (RTA_OK buffer rta len); try (injection Hs as <-; exact Hg);
    destruct (_ && _); try discriminate Hs.
  - injection Hs as <-.
    destruct (_ =? IFLA_IFNAME); [apply Hc | exact Hg].
  - apply IH in Hs; [exact Hs |].
    destruct (_ =? IFLA_IFNAME); [apply Hc | exact Hg].
Qed.

(** Every call [link_netlink] makes is given a good name. *)
Lemma link_netlink_good_names buffer nlm w (l0 : list (listener * list Z)) :
  (exists l, calls w = l0 ++ l /\ Forall (fun x => good_name x.2) l) ->
  exists l, calls (snd (link_netlink buffer nlm w)) = l0 ++ l
            /\ Forall (fun x => good_name x.2) l.
Proof.
  intros (l & Hl & Hall). unfold link_netlink.
  assert (Hnil : good_name []) by (split; [vm_compute; discriminate | constructor]).
  assert (Hcall : forall f ifn, good_name ifn ->
             exists l', calls (call_if_set f ifn w) = l0 ++ l'
                        /\ Forall (fun x => good_name x.2) l').
  { intros f ifn Hg. rewrite calls_call_if_set, Hl, <- app_assoc.
    eexists. split; [reflexivity |].
    apply Forall_app. split; [exact Hall |].
    destruct f; simpl; [constructor; [exact Hg | constructor] | constructor]. }
  assert (Hsame : exists l', calls w = l0 ++ l'
                             /\ Forall (fun x => good_name x.2) l')
    by (exists l; auto).
  destruct (_ && _); [exact Hsame |].
  destruct (_ <? _); [exact Hsame |].
  destruct (negb _); [exact Hsame |].
  destruct (scan_rtattrs _ _ _ _ _ _ _) as [ifn |] eqn:Hscan;
    [| exact Hsame].
  apply scan_rtattrs_good in Hscan; [| exact Hnil].
  case_ifs; apply Hcall; exact Hscan.
Qed.

(** ** The monitor *)

Lemma call_if_set_fields f arg w :
  nl_carrier (call_if_set f arg w) = nl_carrier w
  /\ nl_add (call_if_set f arg w) = nl_add w
  /\ nl_remove (call_if_set f arg w) = nl_remove w
  /\ seq (call_if_set f arg w) = seq w
  /\ sent (call_if_set f arg w) = sent w
  /\ errno (call_if_set f arg w) = errno w.
Proof. destruct f; simpl; auto 10. Qed.

(** [link_netlink] leaves the listener slots, the sequence counter and the
    requests sent as they are. *)
Lemma link_netlink_fields buffer nlm w :
  nl_carrier (snd (link_netlink buffer nlm w)) = nl_carrier w
  /\ nl_add (snd (link_netlink buffer nlm w)) = nl_add w
  /\ nl_remove (snd (link_netlink buffer nlm w)) = nl_remove w
  /\ seq (snd (link_netlink buffer nlm w)) = seq w
  /\ sent (snd (link_netlink buffer nlm w)) = sent w.
Proof.
  unfold link_netlink.
  assert (Hcall : forall f arg,
             nl_carrier (call_if_set f arg w) = nl_carrier w
             /\ nl_add (call_if_set f arg w) = nl_add w
             /\ nl_remove (call_if_set f arg w) = nl_remove w
             /\ seq (call_if_set f arg w) = seq w
             /\ sent (call_if_set f arg w) = sent w).
  { intros f arg. destruct (call_if_set_fields f arg w)
      as (H1 & H2 & H3 & H4 & H5 & _). auto. }
  destruct (_ && _); [simpl; auto |].
  destruct (_ <? _); [simpl; auto |].
  destruct (negb _); [simpl; auto |].
  destruct (scan_rtattrs _ _ _ _ _ _ _); [| simpl; auto].
  destruct (_ =? RTM_NEWLINK); [destruct (_ =? UINT_MAX) |]; simpl;
    apply Hcall.
Qed.

(** X9.  Every name a listener is given by [manage_link] is a proper
    interface name: at most IF_NAMESIZE characters long and free of NUL
    bytes, whatever the kernel sent. *)
Theorem manage_link_names fd if_carrier if_add if_remove k w :
  exists l,
    calls (final (manage_link fd if_carrier if_add if_remove k w))
    = calls w ++ l
    /\ Forall (fun x => good_name x.2) l.
Proof.
  unfold manage_link.
  apply (get_netlink_invariant
           (fun w' => exists l, calls w' = calls w ++ l
                                /\ Forall (fun x => good_name x.2) l)).
  - intros e w' H. exact H.
  - intros buffer nlm w' H. apply link_netlink_good_names. exact H.
  - exists []. simpl. rewrite app_nil_r. split; [reflexivity | constructor].
Qed.

(** X10.  [manage_link] replaces the three listener slots by its arguments,
    NULL included, and they are still those when it returns; it sends
    nothing and leaves the sequence counter of [send_netlink] alone. *)
Theorem manage_link_registers fd if_carrier if_add if_remove k w :
  let w' := final (manage_link fd if_carrier if_add if_remove k w) in
  nl_carrier w' = if_carrier
  /\ nl_add w' = if_add
  /\ nl_remove w' = if_remove
  /\ seq w' = seq w
  /\ sent w' = sent w.
Proof.
  cbv zeta. unfold manage_link.
  apply (get_netlink_invariant
           (fun w' => nl_carrier w' = if_carrier /\ nl_add w' = if_add
                      /\ nl_remove w' = if_remove /\ seq w' = seq w
                      /\ sent w' = sent w)).
  - intros e w' H. exact H.
  - intros buffer nlm w' (H1 & H2 & H3 & H4 & H5).
    destruct (link_netlink_fields buffer nlm w') as (F1 & F2 & F3 & F4 & F5).
    rewrite F1, F2, F3, F4, F5. auto.
  - simpl. auto.
Qed.

(** X11.  An idle socket.  When [recv] is interrupted any number of times
    and then finds nothing to read, [manage_link] returns 0 with EAGAIN in
    [errno], having called no listener. *)
Theorem manage_link_idle fd if_carrier if_add if_remove k w n :
  manage_link fd if_carrier if_add if_remove
    (set_incoming (interrupted n) k) w
  = Returns 0 (set_incoming [] k)
      (set_errno EAGAIN (set_listeners if_carrier if_add if_remove w)).
Proof.
  unfold manage_link, get_netlink. cbn [incoming set_incoming].
  rewrite <- (app_nil_r (interrupted n)), get_netlink_loop_interrupted.
  rewrite get_netlink_loop_drained. destruct n; reflexivity.
Qed.

(** The walk over a datagram whose length is a multiple of 4 and whose
    messages the handler all passes over ends at the end of the datagram,
    with the state as it was. *)
Lemma for_each_nlmsg_passes callback buffer fuel : forall nlm bytes r w,
  0 <= bytes <= INT_MAX -> bytes mod 4 = 0 ->
  bytes <= 16 * Z.of_nat fuel ->
  Forall (fun p => callback buffer p w = (0, w))
    (nlmsgs fuel buffer nlm bytes) ->
  exists r', for_each_nlmsg fuel callback buffer nlm bytes r w
             = Finished r' w.
Proof.
  unfold INT_MAX.
  induction fuel as [| fuel IH]; intros nlm bytes r w Hb Hmod Hfuel Hall;
    simpl in *; rewrite size_t_nonneg in * by lia;
    destruct (NLMSG_OK buffer nlm bytes) eqn:Hok;
    try (exists r; reflexivity);
    unfold NLMSG_OK, sizeof_nlmsghdr in Hok;
    apply andb_prop in Hok as [Hok Hle]; apply andb_prop in Hok as [H16 Hlen];
    apply Z.leb_le in H16, Hlen, Hle; [lia |].
  apply Forall_cons in Hall as [Hcb Hall]. rewrite Hcb. simpl.
  pose proof (align4_bounds (nlmsg_len buffer nlm)) as Hal.
  fold (NLMSG_ALIGN (nlmsg_len buffer nlm)) in Hal.
  assert (Hstep : 16 <= NLMSG_ALIGN (nlmsg_len buffer nlm) <= bytes
                  /\ NLMSG_ALIGN (nlmsg_len buffer nlm) mod 4 = 0).
  { destruct Hal as [Hr Hm]; [lia |]. split; [| exact Hm].
    split; [lia |]. revert Hm Hmod Hr Hle.
    generalize (NLMSG_ALIGN (nlmsg_len buffer nlm)). intros s Hm Hmod Hr Hle.
    Z.div_mod_to_equations. lia. }
  destruct Hstep as [Hstep Hsmod].
  destruct (Z.eqb_spec (NLMSG_ALIGN (nlmsg_len buffer nlm)) 0) as [Hz | _];
    [lia |].
  apply IH; try lia; [| exact Hall].
  rewrite Zminus_mod, Hmod, Hsmod. reflexivity.
Qed.

(** X12.  Other people's messages.  A datagram whose length is a multiple
    of 4 and that holds no link message (one shorter than a message header
    among them) is read and dropped by [manage_link]: with nothing else to
    read it returns 0 with EAGAIN in [errno], having called no listener. *)
Theorem manage_link_ignores fd if_carrier if_add if_remove k w bs :
  Z.of_nat (length (take (Z.to_nat BUFFERLEN) bs)) mod 4 = 0 ->
  Forall (fun p => nlmsg_type (first_buffer bs) p <> RTM_NEWLINK
                   /\ nlmsg_type (first_buffer bs) p <> RTM_DELLINK)
    (first_nlmsgs bs) ->
  manage_link fd if_carrier if_add if_remove
    (set_incoming [Datagram bs] k) w
  = Returns 0 (set_incoming [] k)
      (set_errno EAGAIN (set_listeners if_carrier if_add if_remove w)).
Proof.
  intros Hmod Hall. unfold manage_link, get_netlink.
  cbn [incoming set_incoming get_netlink_loop].
  fold (first_buffer bs).
  set (w0 := set_listeners if_carrier if_add if_remove w).
  destruct (for_each_nlmsg_passes link_netlink (first_buffer bs)
              (length (first_buffer bs)) 0
              (Z.of_nat (length (take (Z.to_nat BUFFERLEN) bs))) (-1) w0)
    as (r' & ->).
  - rewrite length_take. unfold INT_MAX, BUFFERLEN. lia.
  - exact Hmod.
  - unfold first_buffer. rewrite length_store, length_take.
    unfold xzalloc, BUFFERLEN. rewrite length_replicate. lia.
  - eapply Forall_impl; [exact Hall |].
    intros p [Hn Hd]. apply link_netlink_other; assumption.
  - reflexivity.
Qed.

Lemma manage_link_ignores_witness :
  Z.of_nat (length (take (Z.to_nat BUFFERLEN)
                      (Sample.noop ++ Sample.ack 0))) mod 4 = 0
  /\ Forall (fun p =>
               nlmsg_type (first_buffer (Sample.noop ++ Sample.ack 0)) p
               <> RTM_NEWLINK
               /\ nlmsg_type (first_buffer (Sample.noop ++ Sample.ack 0)) p
                  <> RTM_DELLINK)
       (first_nlmsgs (Sample.noop ++ Sample.ack 0))
  /\ manage_link 3 (Some 1%positive) (Some 2%positive) (Some 3%positive)
       (set_incoming [Datagram (Sample.noop ++ Sample.ack 0)]
          (Sample.kernel_with []))
       Sample.start
     = Returns 0 (Sample.kernel_with [])
         (set_errno EAGAIN SampleRuns.listening).
Proof.
  assert (H1 : Z.of_nat (length (take (Z.to_nat BUFFERLEN)
                                   (Sample.noop ++ Sample.ack 0))) mod 4 = 0)
    by reflexivity.
  assert (H2 : Forall (fun p =>
               nlmsg_type (first_buffer (Sample.noop ++ Sample.ack 0)) p
               <> RTM_NEWLINK
               /\ nlmsg_type (first_buffer (Sample.noop ++ Sample.ack 0)) p
                  <> RTM_DELLINK)
               (first_nlmsgs (Sample.noop ++ Sample.ack 0))).
  { change (first_nlmsgs (Sample.noop ++ Sample.ack 0)) with [0; 16].
    repeat constructor; vm_compute; discriminate. }
  split; [exact H1 |]. split; [exact H2 |].
  exact (manage_link_ignores 3 (Some 1%positive) (Some 2%positive)
           (Some 3%positive) (Sample.kernel_with []) Sample.start
           (Sample.noop ++ Sample.ack 0) H1 H2).
Defined.

(** X13.  A link message cut short.  When the first datagram read holds,
    behind messages of other types, a link message too short for its fixed
    payload, [manage_link] returns -1 with EBADMSG in [errno]; no listener
    is called and what else is queued on the socket stays there. *)
Theorem manage_link_bad_message fd if_carrier if_add if_remove k w bs q
    pre o post :
  incoming k = Datagram bs :: q ->
  first_nlmsgs bs = pre ++ o :: post ->
  Forall (fun p => nlmsg_type (first_buffer bs) p <> RTM_NEWLINK
                   /\ nlmsg_type (first_buffer bs) p <> RTM_DELLINK) pre ->
  nlmsg_type (first_buffer bs) o = RTM_NEWLINK
  \/ nlmsg_type (first_buffer bs) o = RTM_DELLINK ->
  NLMSG_HDRLEN <= nlmsg_len (first_buffer bs) o
  < NLMSG_LENGTH sizeof_ifinfomsg ->
  manage_link fd if_carrier if_add if_remove k w
  = Returns (-1) (set_incoming q k)
      (set_errno EBADMSG (set_listeners if_carrier if_add if_remove w)).
Proof.
  intros Hq Hmsgs Hpre Htype Hlen. unfold manage_link, get_netlink.
  rewrite Hq.
  set (w0 := set_listeners if_carrier if_add if_remove w).
  pose proof (link_netlink_truncated (first_buffer bs) o w0 Htype Hlen)
    as Hbad.
  rewrite (get_netlink_loop_stops MSG_DONTWAIT link_netlink bs q
             (xzalloc BUFFERLEN) (-1) w0 pre o post).
  - fold (first_buffer bs). rewrite Hbad. reflexivity.
  - exact Hmsgs.
  - eapply Forall_impl; [exact Hpre |].
    intros p [Hn Hd]. apply link_netlink_other; assumption.
  - fold (first_buffer bs). rewrite Hbad. discriminate.
Qed.

Lemma manage_link_bad_message_witness :
  incoming (Sample.kernel_with
              [Datagram SampleLinks.cut_short; Datagram (Sample.newlink 0 1)])
  = Datagram SampleLinks.cut_short :: [Datagram (Sample.newlink 0 1)]
  /\ first_nlmsgs SampleLinks.cut_short = [0] ++ 16 :: []
  /\ Forall (fun p =>
               nlmsg_type (first_buffer SampleLinks.cut_short) p
               <> RTM_NEWLINK
               /\ nlmsg_type (first_buffer SampleLinks.cut_short) p
                  <> RTM_DELLINK) [0]
  /\ (nlmsg_type (first_buffer SampleLinks.cut_short) 16 = RTM_NEWLINK
      \/ nlmsg_type (first_buffer SampleLinks.cut_short) 16 = RTM_DELLINK)
  /\ (NLMSG_HDRLEN <= nlmsg_len (first_buffer SampleLinks.cut_short) 16
      < NLMSG_LENGTH sizeof_ifinfomsg)
  /\ manage_link 3 (Some 1%positive) (Some 2%positive) (Some 3%positive)
       (Sample.kernel_with
          [Datagram SampleLinks.cut_short; Datagram (Sample.newlink 0 1)])
       Sample.start
     = Returns (-1) (Sample.kernel_with [Datagram (Sample.newlink 0 1)])
         (set_errno EBADMSG SampleRuns.listening).
Proof.
  assert (H1 : incoming (Sample.kernel_with
                 [Datagram SampleLinks.cut_short;
                  Datagram (Sample.newlink 0 1)])
               = Datagram SampleLinks.cut_short
                 :: [Datagram (Sample.newlink 0 1)])
    by reflexivity.
  assert (H2 : first_nlmsgs SampleLinks.cut_short = [0] ++ 16 :: [])
    by (vm_compute; reflexivity).
  assert (H3 : Forall (fun p =>
               nlmsg_type (first_buffer SampleLinks.cut_short) p
               <> RTM_NEWLINK
               /\ nlmsg_type (first_buffer SampleLinks.cut_short) p
                  <> RTM_DELLINK) [0])
    by (repeat constructor; vm_compute; discriminate).
  assert (H4 : nlmsg_type (first_buffer SampleLinks.cut_short) 16
               = RTM_NEWLINK
               \/ nlmsg_type (first_buffer SampleLinks.cut_short) 16
                  = RTM_DELLINK)
    by (right; reflexivity).
  assert (H5 : NLMSG_HDRLEN <= nlmsg_len (first_buffer SampleLinks.cut_short) 16
               < NLMSG_LENGTH sizeof_ifinfomsg)
    by (vm_compute; split; [discriminate | reflexivity]).
  split; [exact H1 |]. split; [exact H2 |]. split; [exact H3 |].
  split; [exact H4 |]. split; [exact H5 |].
  exact (manage_link_bad_message 3 (Some 1%positive) (Some 2%positive)
           (Some 3%positive)
           (Sample.kernel_with
              [Datagram SampleLinks.cut_short; Datagram (Sample.newlink 0 1)])
           Sample.start SampleLinks.cut_short [Datagram (Sample.newlink 0 1)]
           [0] 16 [] H1 H2 H3 H4 H5).
Defined.

(** X14.  Framing.  In the walk [get_netlink] makes over a datagram whose
    length is a multiple of 4, every message handed to the handler lies
    within the bytes received, header and all: replacing the handler by one
    that differs only on messages reaching outside them changes nothing.
    The walk also goes through: it does not stay on one message for
    ever. *)
Theorem get_netlink_framing callback callback' buffer bytes r w :
  0 <= bytes <= Z.of_nat (length buffer) ->
  Z.of_nat (length buffer) <= INT_MAX ->
  bytes mod 4 = 0 ->
  (forall p w, within buffer bytes p ->
               callback buffer p w = callback' buffer p w) ->
  for_each_nlmsg (length buffer) callback buffer 0 bytes r w
  = for_each_nlmsg (length buffer) callback' buffer 0 bytes r w
  /\ (forall w', for_each_nlmsg (length buffer) callback buffer 0 bytes r w
                 <> Spinning w')
  /\ Forall (within buffer bytes) (nlmsgs (length buffer) buffer 0 bytes).
Proof.
  intros Hb Hmax Hmod Hcb.
  apply (for_each_nlmsg_framed callback callback' buffer bytes
           (length buffer) Hcb); lia.
Qed.

Lemma get_netlink_framing_witness :
  (0 <= 104 <= Z.of_nat (length (first_buffer SampleRuns.three)))
  /\ Z.of_nat (length (first_buffer SampleRuns.three)) <= INT_MAX
  /\ 104 mod 4 = 0
  /\ (forall p w, within (first_buffer SampleRuns.three) 104 p ->
                  link_netlink (first_buffer SampleRuns.three) p w
                  = link_netlink (first_buffer SampleRuns.three) p w)
  /\ Forall (within (first_buffer SampleRuns.three) 104)
       (nlmsgs (length (first_buffer SampleRuns.three))
          (first_buffer SampleRuns.three) 0 104).
Proof.
  assert (H1 : 0 <= 104 <= Z.of_nat (length (first_buffer SampleRuns.three)))
    by (vm_compute; split; discriminate).
  assert (H2 : Z.of_nat (length (first_buffer SampleRuns.three)) <= INT_MAX)
    by (vm_compute; discriminate).
  assert (H3 : 104 mod 4 = 0) by reflexivity.
  assert (H4 : forall p w, within (first_buffer SampleRuns.three) 104 p ->
                 link_netlink (first_buffer SampleRuns.three) p w
                 = link_netlink (first_buffer SampleRuns.three) p w)
    by (intros; reflexivity).
  split; [exact H1 |]. split; [exact H2 |]. split; [exact H3 |].
  split; [exact H4 |].
  exact (proj2 (proj2 (get_netlink_framing link_netlink link_netlink
                         (first_buffer SampleRuns.three) 104 (-1)
                         Sample.start H1 H2 H3 H4))).
Defined.

(** ** Transactions *)

Lemma succeed_first_failure n k : succeed n k <-> first_failure n k = None.
Proof.
  unfold succeed, first_failure. generalize (take n (syscalls k)). intros l.
  induction l as [| [e |] l IH]; simpl.
  - split; [reflexivity | constructor].
  - split; [| discriminate]. intros H. apply Forall_cons in H as [H _].
    discriminate H.
  - rewrite <- IH. split.
    + intros H. apply Forall_cons in H as [_ H]. exact H.
    + intros H. constructor; [reflexivity | exact H].
Qed.

(** Once its three system calls have succeeded, [send_netlink] is the
    pump, blocking, with [err_netlink] as its handler, run after the
    request has gone out. *)
Lemma send_netlink_pumps hdr k w :
  succeed 3 k ->
  exists k' w1,
    send_netlink hdr k w = get_netlink 0 0 err_netlink k' w1
    /\ incoming k' = incoming k
    /\ errno w1 = errno w
    /\ seq w1 = u32 (seq w + 1)
    /\ calls w1 = calls w
    /\ exists req, sent w1 = sent w ++ [req].
Proof.
  intros Hok. unfold send_netlink.
  destruct (syscall_succeeds 2 k w Hok) as (k1 & -> & Hok1 & _ & Hin1).
  destruct (syscall_succeeds 1 k1 w Hok1) as (k2 & -> & Hok2 & _ & Hin2).
  simpl Z.eqb. cbv iota.
  set (w1 := log_sent _ _).
  destruct (syscall_succeeds 0 k2 w1 Hok2) as (k3 & -> & _ & _ & Hin3).
  simpl Z.eqb. cbv iota. simpl negb. cbv iota.
  exists k3, w1. split; [reflexivity |].
  split; [congruence |]. subst w1. simpl.
  repeat split. eexists. reflexivity.
Qed.

(** X15.  No time-out.  Once the request has gone out, a [send_netlink]
    whose [recv] is interrupted any number of times and then finds nothing
    more to read never returns: the transaction waits for an answer for
    ever. *)
Theorem send_netlink_waits hdr k w n :
  succeed 3 k ->
  incoming k = interrupted n ->
  result (send_netlink hdr k w) = None
  /\ length (sent (final (send_netlink hdr k w))) = S (length (sent w)).
Proof.
  intros Hok Hq.
  destruct (send_netlink_pumps hdr k w Hok)
    as (k' & w1 & -> & Hin & _ & _ & _ & req & Hsent).
  unfold get_netlink. rewrite Hin, Hq.
  rewrite <- (app_nil_r (interrupted n)), get_netlink_loop_interrupted.
  simpl. split; [reflexivity |].
  destruct n; simpl; rewrite Hsent, length_app; simpl; lia.
Qed.

Lemma send_netlink_waits_witness :
  succeed 3 (Sample.kernel_with (interrupted 2))
  /\ incoming (Sample.kernel_with (interrupted 2)) = interrupted 2
  /\ result (send_netlink Sample.request
               (Sample.kernel_with (interrupted 2)) Sample.start) = None
  /\ length (sent (final (send_netlink Sample.request
                            (Sample.kernel_with (interrupted 2))
                            Sample.start))) = 1%nat.
Proof.
  assert (H1 : succeed 3 (Sample.kernel_with (interrupted 2)))
    by (unfold succeed; simpl; constructor).
  assert (H2 : incoming (Sample.kernel_with (interrupted 2)) = interrupted 2)
    by reflexivity.
  split; [exact H1 |]. split; [exact H2 |].
  exact (send_netlink_waits Sample.request
           (Sample.kernel_with (interrupted 2)) Sample.start 2 H1 H2).
Defined.

(** X16.  EAGAIN counts as success.  Although [send_netlink] reads
    blocking, a [recv] that fails with EAGAIN (after any number of
    interrupted ones) ends the transaction with the result 0: the request
    is reported as done without any acknowledgment having been read. *)
Theorem send_netlink_eagain hdr k w n q :
  succeed 3 k ->
  incoming k = interrupted n ++ RecvFails EAGAIN :: q ->
  result (send_netlink hdr k w) = Some 0
  /\ errno (final (send_netlink hdr k w)) = EAGAIN.
Proof.
  intros Hok Hq.
  destruct (send_netlink_pumps hdr k w Hok) as (k' & w1 & -> & Hin & _).
  unfold get_netlink. rewrite Hin, Hq.
  rewrite get_netlink_loop_interrupted, get_netlink_loop_eagain.
  split; reflexivity.
Qed.

Lemma send_netlink_eagain_witness :
  succeed 3 (Sample.kernel_with
               (interrupted 1 ++ RecvFails EAGAIN
                :: [Datagram (Sample.ack (- EACCES))]))
  /\ incoming (Sample.kernel_with
                 (interrupted 1 ++ RecvFails EAGAIN
                  :: [Datagram (Sample.ack (- EACCES))]))
     = interrupted 1 ++ RecvFails EAGAIN :: [Datagram (Sample.ack (- EACCES))]
  /\ result (send_netlink Sample.request
               (Sample.kernel_with
                  (interrupted 1 ++ RecvFails EAGAIN
                   :: [Datagram (Sample.ack (- EACCES))]))
               Sample.start) = Some 0
  /\ errno (final (send_netlink Sample.request
                     (Sample.kernel_with
                        (interrupted 1 ++ RecvFails EAGAIN
                         :: [Datagram (Sample.ack (- EACCES))]))
                     Sample.start)) = EAGAIN.
Proof.
  assert (H1 : succeed 3 (Sample.kernel_with
                            (interrupted 1 ++ RecvFails EAGAIN
                             :: [Datagram (Sample.ack (- EACCES))])))
    by (unfold succeed; simpl; constructor).
  assert (H2 : incoming (Sample.kernel_with
                           (interrupted 1 ++ RecvFails EAGAIN
                            :: [Datagram (Sample.ack (- EACCES))]))
               = interrupted 1 ++ RecvFails EAGAIN
                 :: [Datagram (Sample.ack (- EACCES))])
    by reflexivity.
  split; [exact H1 |]. split; [exact H2 |].
  exact (send_netlink_eagain Sample.request
           (Sample.kernel_with
              (interrupted 1 ++ RecvFails EAGAIN
               :: [Datagram (Sample.ack (- EACCES))]))
           Sample.start 1 [Datagram (Sample.ack (- EACCES))] H1 H2).
Defined.

(** What [err_netlink] answers to an error message. *)
Lemma err_netlink_answer buffer nlm w :
  nlmsg_type buffer nlm = NLMSG_ERROR ->
  NLMSG_HDRLEN <= nlmsg_len buffer nlm <= INT_MAX ->
  err_netlink buffer nlm w =
  let payload := nlmsg_len buffer nlm - NLMSG_HDRLEN in
  let code := err_error buffer (NLMSG_DATA nlm) in
  if payload <? sizeof_nlmsgerr then (-1, set_errno EBADMSG w)
  else if code =? 0 then (payload, w)
  else (-1, set_errno (s32 (- code)) w).
Proof.
  intros Herr [Hhdr Hmax]. rewrite NLMSG_HDRLEN_eq in *.
  unfold INT_MAX in *. unfold err_netlink. rewrite Herr. simpl negb.
  cbv iota zeta. rewrite s32_size_t. unfold sizeof_nlmsghdr.
  rewrite s32_small by lia. rewrite size_t_nonneg by lia. reflexivity.
Qed.

Lemma err_netlink_passes buffer nlm w :
  nlmsg_type buffer nlm <> NLMSG_ERROR -> err_netlink buffer nlm w = (0, w).
Proof.
  intros Hne. unfold err_netlink. apply Z.eqb_neq in Hne. rewrite Hne.
  reflexivity.
Qed.

(** The transaction ends at the first error message of the first
    datagram, with what [err_netlink] answers to it. *)
Lemma send_netlink_answer hdr k w bs q pre o post :
  succeed 3 k ->
  incoming k = Datagram bs :: q ->
  first_nlmsgs bs = pre ++ o :: post ->
  Forall (fun p => nlmsg_type (first_buffer bs) p <> NLMSG_ERROR) pre ->
  nlmsg_type (first_buffer bs) o = NLMSG_ERROR ->
  NLMSG_HDRLEN <= nlmsg_len (first_buffer bs) o <= INT_MAX ->
  let payload := nlmsg_len (first_buffer bs) o - NLMSG_HDRLEN in
  let code := err_error (first_buffer bs) (NLMSG_DATA o) in
  exists k' w',
    send_netlink hdr k w
    = Returns (if payload <? sizeof_nlmsgerr then -1
               else if code =? 0 then payload else -1) k' w'
    /\ incoming k' = q
    /\ errno w' = (if payload <? sizeof_nlmsgerr then EBADMSG
                   else if code =? 0 then errno w else s32 (- code)).
Proof.
  intros Hok Hq Hmsgs Hpre Herr Hlen payload code.
  destruct (send_netlink_pumps hdr k w Hok)
    as (k' & w1 & -> & Hin & Herrno & _).
  unfold get_netlink. rewrite Hin, Hq.
  pose proof (err_netlink_answer (first_buffer bs) o w1 Herr Hlen) as Hans.
  cbv zeta in Hans. fold payload code in Hans.
  assert (Hpay : sizeof_nlmsgerr <= payload -> payload <> 0)
    by (unfold sizeof_nlmsgerr; lia).
  rewrite (get_netlink_loop_stops 0 err_netlink bs q (xzalloc BUFFERLEN)
             (-1) w1 pre o post).
  - fold (first_buffer bs).
    exists (set_incoming q k'), (snd (err_netlink (first_buffer bs) o w1)).
    rewrite Hans. split; [| split].
    + destruct (payload <? sizeof_nlmsgerr); [reflexivity |].
      destruct (code =? 0); reflexivity.
    + reflexivity.
    + destruct (payload <? sizeof_nlmsgerr); [reflexivity |].
      destruct (code =? 0); [exact Herrno | reflexivity].
  - exact Hmsgs.
  - eapply Forall_impl; [exact Hpre |].
    intros p Hp. apply err_netlink_passes. exact Hp.
  - fold (first_buffer bs). rewrite Hans.
    destruct (Z.ltb_spec payload sizeof_nlmsgerr); [discriminate |].
    destruct (code =? 0); [simpl; auto | discriminate].
Qed.

(** X17.  The acknowledgment decides.  Once its three system calls have
    succeeded, [send_netlink] ends at the first error message of the first
    datagram, passing over the messages of other types before it: with
    -1 and EBADMSG when the message is too short for an error payload;
    with the length of the payload, which is positive, when the code is 0;
    with -1 and the negated code in [errno] otherwise.  The messages behind
    it are not looked at and what else is queued on the socket stays
    there. *)
Theorem send_netlink_acknowledged hdr k w bs q pre o post :
  succeed 3 k ->
  incoming k = Datagram bs :: q ->
  first_nlmsgs bs = pre ++ o :: post ->
  Forall (fun p => nlmsg_type (first_buffer bs) p <> NLMSG_ERROR) pre ->
  nlmsg_type (first_buffer bs) o = NLMSG_ERROR ->
  NLMSG_HDRLEN <= nlmsg_len (first_buffer bs) o <= INT_MAX ->
  let payload := nlmsg_len (first_buffer bs) o - NLMSG_HDRLEN in
  let code := err_error (first_buffer bs) (NLMSG_DATA o) in
  exists k' w',
    send_netlink hdr k w
    = Returns (if payload <? sizeof_nlmsgerr then -1
               else if code =? 0 then payload else -1) k' w'
    /\ incoming k' = q
    /\ (payload < sizeof_nlmsgerr -> errno w' = EBADMSG)
    /\ (sizeof_nlmsgerr <= payload -> code = 0 -> errno w' = errno w)
    /\ (sizeof_nlmsgerr <= payload -> code <> 0 -> - INT_MAX <= code ->
        errno w' = - code).
Proof.
  intros Hok Hq Hmsgs Hpre Herr Hlen payload code.
  destruct (send_netlink_answer hdr k w bs q pre o post Hok Hq Hmsgs Hpre
              Herr Hlen) as (k' & w' & Heq & Hin & Herrno).
  fold payload code in Heq, Herrno.
  exists k', w'. split; [exact Heq |]. split; [exact Hin |].
  split; [| split].
  - intros Hshort. apply Z.ltb_lt in Hshort. rewrite Hshort in Herrno.
    exact Herrno.
  - intros Hlong Hzero. apply Z.ltb_ge in Hlong. rewrite Hlong in Herrno.
    rewrite Hzero in Herrno. exact Herrno.
  - intros Hlong Hcode Hmin. apply Z.ltb_ge in Hlong.
    rewrite Hlong in Herrno. apply Z.eqb_neq in Hcode.
    rewrite Hcode in Herrno. rewrite Herrno.
    pose proof (s32_range (get_u32 (first_buffer bs) (NLMSG_DATA o))) as Hr.
    apply s32_small. unfold code, err_error, get_s32, INT_MAX in *. lia.
Qed.

Lemma send_netlink_acknowledged_witness :
  succeed 3 (Sample.kernel_with
               [Datagram SampleLinks.refusal; Datagram (Sample.ack 0)])
  /\ incoming (Sample.kernel_with
                 [Datagram SampleLinks.refusal; Datagram (Sample.ack 0)])
     = Datagram SampleLinks.refusal :: [Datagram (Sample.ack 0)]
  /\ first_nlmsgs SampleLinks.refusal = [0] ++ 16 :: []
  /\ Forall (fun p => nlmsg_type (first_buffer SampleLinks.refusal) p
                      <> NLMSG_ERROR) [0]
  /\ nlmsg_type (first_buffer SampleLinks.refusal) 16 = NLMSG_ERROR
  /\ (NLMSG_HDRLEN <= nlmsg_len (first_buffer SampleLinks.refusal) 16
      <= INT_MAX)
  /\ exists k' w',
      send_netlink Sample.request
        (Sample.kernel_with
           [Datagram SampleLinks.refusal; Datagram (Sample.ack 0)])
        Sample.start = Returns (-1) k' w'
      /\ incoming k' = [Datagram (Sample.ack 0)]
      /\ errno w' = EACCES.
Proof.
  assert (H1 : succeed 3 (Sample.kernel_with
                 [Datagram SampleLinks.refusal; Datagram (Sample.ack 0)]))
    by (unfold succeed; simpl; constructor).
  assert (H2 : incoming (Sample.kernel_with
                 [Datagram SampleLinks.refusal; Datagram (Sample.ack 0)])
               = Datagram SampleLinks.refusal :: [Datagram (Sample.ack 0)])
    by reflexivity.
  assert (H3 : first_nlmsgs SampleLinks.refusal = [0] ++ 16 :: [])
    by (vm_compute; reflexivity).
  assert (H4 : Forall (fun p => nlmsg_type (first_buffer SampleLinks.refusal) p
                                <> NLMSG_ERROR) [0])
    by (repeat constructor; vm_compute; discriminate).
  assert (H5 : nlmsg_type (first_buffer SampleLinks.refusal) 16 = NLMSG_ERROR)
    by reflexivity.
  assert (H6 : NLMSG_HDRLEN <= nlmsg_len (first_buffer SampleLinks.refusal) 16
               <= INT_MAX)
    by (vm_compute; split; discriminate).
  split; [exact H1 |]. split; [exact H2 |]. split; [exact H3 |].
  split; [exact H4 |]. split; [exact H5 |]. split; [exact H6 |].
  destruct (send_netlink_acknowledged Sample.request
              (Sample.kernel_with
                 [Datagram SampleLinks.refusal; Datagram (Sample.ack 0)])
              Sample.start SampleLinks.refusal [Datagram (Sample.ack 0)]
              [0] 16 [] H1 H2 H3 H4 H5 H6)
    as (k' & w' & Heq & Hin & _ & _ & Hcode).
  exists k', w'. split; [exact Heq |]. split; [exact Hin |].
  apply Hcode; vm_compute; discriminate.
Defined.

(** What a builder makes of the result of the transaction. *)
Lemma transaction_result hdr k w bs q pre o post :
  succeed 3 k ->
  incoming k = Datagram bs :: q ->
  first_nlmsgs bs = pre ++ o :: post ->
  Forall (fun p => nlmsg_type (first_buffer bs) p <> NLMSG_ERROR) pre ->
  nlmsg_type (first_buffer bs) o = NLMSG_ERROR ->
  NLMSG_LENGTH sizeof_nlmsgerr <= nlmsg_len (first_buffer bs) o <= INT_MAX ->
  let code := err_error (first_buffer bs) (NLMSG_DATA o) in
  let out :=
    match send_netlink hdr k w with
    | Returns r k w => Returns (if r =? -1 then -1 else 0) k w
    | Hangs w => Hangs w
    end in
  (code = 0 -> result out = Some 0)
  /\ (code <> 0 -> - INT_MAX <= code ->
      result out = Some (-1) /\ errno (final out) = - code).
Proof.
  intros Hok Hq Hmsgs Hpre Herr Hlen code out.
  assert (Hlen' : NLMSG_HDRLEN <= nlmsg_len (first_buffer bs) o <= INT_MAX).
  { unfold NLMSG_LENGTH, sizeof_nlmsgerr in Hlen. lia. }
  destruct (send_netlink_answer hdr k w bs q pre o post Hok Hq Hmsgs Hpre
              Herr Hlen') as (k' & w' & Heq & _ & Herrno).
  fold code in Heq, Herrno. subst out. rewrite Heq.
  assert (Hlong : (nlmsg_len (first_buffer bs) o - NLMSG_HDRLEN
                   <? sizeof_nlmsgerr) = false).
  { apply Z.ltb_ge. unfold NLMSG_LENGTH in Hlen. lia. }
  rewrite Hlong in *. split.
  - intros Hzero. rewrite Hzero. simpl.
    destruct (Z.eqb_spec (nlmsg_len (first_buffer bs) o - NLMSG_HDRLEN) (-1))
      as [E | _]; [| reflexivity].
    unfold NLMSG_LENGTH, sizeof_nlmsgerr in Hlen. lia.
  - intros Hcode Hmin. apply Z.eqb_neq in Hcode. rewrite Hcode in *.
    simpl. split; [reflexivity |]. rewrite Herrno.
    pose proof (s32_range (get_u32 (first_buffer bs) (NLMSG_DATA o))) as Hr.
    apply s32_small. unfold code, err_error, get_s32, INT_MAX in *. lia.
Qed.

(** X18.  What the builders report.  For a known interface, once the
    system calls have succeeded, [if_address] and [if_route] return 0 when
    the first error message the kernel answers carries the code 0, and -1
    with the negated code in [errno] when it carries another code: the
    positive result of [send_netlink] is not passed on. *)
Theorem if_request_result c iface address netmask broadcast destination
    gateway metric action k w bs q pre o post :
  u32 (if_index k (name iface)) <> 0 ->
  succeed 3 k ->
  incoming k = Datagram bs :: q ->
  first_nlmsgs bs = pre ++ o :: post ->
  Forall (fun p => nlmsg_type (first_buffer bs) p <> NLMSG_ERROR) pre ->
  nlmsg_type (first_buffer bs) o = NLMSG_ERROR ->
  NLMSG_LENGTH sizeof_nlmsgerr <= nlmsg_len (first_buffer bs) o <= INT_MAX ->
  let code := err_error (first_buffer bs) (NLMSG_DATA o) in
  let a := if_address c iface address netmask broadcast action k w in
  let r := if_route c iface destination netmask gateway metric action k w in
  (code = 0 -> result a = Some 0 /\ result r = Some 0)
  /\ (code <> 0 -> - INT_MAX <= code ->
      result a = Some (-1) /\ errno (final a) = - code
      /\ result r = Some (-1) /\ errno (final r) = - code).
Proof.
  intros Hidx Hok Hq Hmsgs Hpre Herr Hlen code a r.
  subst a r. unfold if_address, if_route.
  destruct (Z.eqb_spec (u32 (if_index k (name iface))) 0) as [E | _];
    [contradiction |].
  destruct (if_address_request _ _ _ _ _ _ _ _) as [[rets nlm] w1].
  destruct (if_route_request _ _ _ _ _ _ _ _ _) as [[rets' nlm'] w1'].
  destruct (transaction_result nlm k w1 bs q pre o post Hok Hq Hmsgs Hpre
              Herr Hlen) as [Ha0 Ha1].
  destruct (transaction_result nlm' k w1' bs q pre o post Hok Hq Hmsgs Hpre
              Herr Hlen) as [Hr0 Hr1].
  fold code in Ha0, Ha1, Hr0, Hr1. split.
  - intros Hzero. split; [apply Ha0 | apply Hr0]; exact Hzero.
  - intros Hcode Hmin.
    destruct (Ha1 Hcode Hmin) as [A1 A2]. destruct (Hr1 Hcode Hmin) as [R1 R2].
    auto.
Qed.

Lemma if_request_result_witness :
  u32 (if_index (Sample.kernel_with [Datagram SampleLinks.refusal])
         (name SampleRuns.iface_eth0)) <> 0
  /\ succeed 3 (Sample.kernel_with [Datagram SampleLinks.refusal])
  /\ incoming (Sample.kernel_with [Datagram SampleLinks.refusal])
     = Datagram SampleLinks.refusal :: []
  /\ first_nlmsgs SampleLinks.refusal = [0] ++ 16 :: []
  /\ Forall (fun p => nlmsg_type (first_buffer SampleLinks.refusal) p
                      <> NLMSG_ERROR) [0]
  /\ nlmsg_type (first_buffer SampleLinks.refusal) 16 = NLMSG_ERROR
  /\ (NLMSG_LENGTH sizeof_nlmsgerr
      <= nlmsg_len (first_buffer SampleLinks.refusal) 16 <= INT_MAX)
  /\ result (if_address SampleRuns.cidr24 SampleRuns.iface_eth0 1 2 3 1
               (Sample.kernel_with [Datagram SampleLinks.refusal])
               Sample.start) = Some (-1)
  /\ errno (final (if_route SampleRuns.cidr24 SampleRuns.iface_eth0 1 2 3 5 1
                     (Sample.kernel_with [Datagram SampleLinks.refusal])
                     Sample.start)) = EACCES.
Proof.
  assert (H0 : u32 (if_index (Sample.kernel_with [Datagram SampleLinks.refusal])
                      (name SampleRuns.iface_eth0)) <> 0)
    by (vm_compute; discriminate).
  assert (H1 : succeed 3 (Sample.kernel_with [Datagram SampleLinks.refusal]))
    by (unfold succeed; simpl; constructor).
  assert (H2 : incoming (Sample.kernel_with [Datagram SampleLinks.refusal])
               = Datagram SampleLinks.refusal :: [])
    by reflexivity.
  assert (H3 : first_nlmsgs SampleLinks.refusal = [0] ++ 16 :: [])
    by (vm_compute; reflexivity).
  assert (H4 : Forall (fun p => nlmsg_type (first_buffer SampleLinks.refusal) p
                                <> NLMSG_ERROR) [0])
    by (repeat constructor; vm_compute; discriminate).
  assert (H5 : nlmsg_type (first_buffer SampleLinks.refusal) 16 = NLMSG_ERROR)
    by reflexivity.
  assert (H6 : NLMSG_LENGTH sizeof_nlmsgerr
               <= nlmsg_len (first_buffer SampleLinks.refusal) 16 <= INT_MAX)
    by (vm_compute; split; discriminate).
  split; [exact H0 |]. split; [exact H1 |]. split; [exact H2 |].
  split; [exact H3 |]. split; [exact H4 |]. split; [exact H5 |].
  split; [exact H6 |].
  destruct (proj2 (if_request_result SampleRuns.cidr24 SampleRuns.iface_eth0
                     1 2 3 3 3 5 1
                     (Sample.kernel_with [Datagram SampleLinks.refusal])
                     Sample.start SampleLinks.refusal [] [0] 16 []
                     H0 H1 H2 H3 H4 H5 H6))
    as (A1 & _ & _ & R2); [vm_compute; discriminate.. |].
  split; [exact A1 | exact R2].
Defined.

(** X19.  A system call fails.  When [socket], [bind] or [sendmsg] fails,
    [send_netlink] returns -1 with the [errno] of that call and reads
    nothing from the socket.  The sequence number is used up, and the
    request counted as sent, only when the failing call is [sendmsg]. *)
Theorem send_netlink_refused hdr k w e :
  first_failure 3 k = Some e ->
  exists k' w',
    send_netlink hdr k w = Returns (-1) k' w'
    /\ errno w' = e
    /\ incoming k' = incoming k
    /\ calls w' = calls w
    /\ (succeed 2 k ->
        seq w' = u32 (seq w + 1) /\ exists req, sent w' = sent w ++ [req])
    /\ (~ succeed 2 k -> seq w' = seq w /\ sent w' = sent w).
Proof.
  unfold first_failure, succeed, send_netlink, syscall. intros Hfail.
  assert (Hno1 : forall e1 s, ~ Forall (fun x : option Z => x = None)
                                  (take 2 (Some e1 :: s))).
  { intros e1 s H. apply Forall_cons in H as [H _]. discriminate H. }
  assert (Hno2 : forall e2 s, ~ Forall (fun x : option Z => x = None)
                                  (take 2 (None :: Some e2 :: s))).
  { intros e2 s H. apply Forall_cons in H as [_ H].
    apply Forall_cons in H as [H _]. discriminate H. }
  destruct (syscalls k) as [| [e1 |] s] eqn:Hs; simpl in Hfail.
  - discriminate Hfail.
  - injection Hfail as ->. simpl. eexists _, _. split; [reflexivity |].
    split; [reflexivity |]. split; [reflexivity |]. split; [reflexivity |].
    split; [intros H; destruct (Hno1 e s H) | intros _; split; reflexivity].
  - simpl. destruct s as [| [e2 |] s]; simpl in Hfail.
    + discriminate Hfail.
    + injection Hfail as ->. simpl. eexists _, _. split; [reflexivity |].
      split; [reflexivity |]. split; [reflexivity |]. split; [reflexivity |].
      split; [intros H; destruct (Hno2 e s H) | intros _; split; reflexivity].
    + simpl. destruct s as [| [e3 |] s]; simpl in Hfail;
        try discriminate Hfail.
      injection Hfail as ->. simpl. eexists _, _. split; [reflexivity |].
      split; [reflexivity |]. split; [reflexivity |]. split; [reflexivity |].
      split.
      * intros _. split; [reflexivity | eexists; reflexivity].
      * intros H. exfalso. apply H. repeat constructor.
Qed.

Lemma send_netlink_refused_witness :
  first_failure 3 (SampleLinks.kernel_failing [None; Some EACCES])
  = Some EACCES
  /\ exists k' w',
      send_netlink Sample.request
        (SampleLinks.kernel_failing [None; Some EACCES]) Sample.start
      = Returns (-1) k' w'
      /\ errno w' = EACCES
      /\ incoming k' = [Datagram (Sample.ack 0)]
      /\ seq w' = 0
      /\ sent w' = [].
Proof.
  assert (H1 : first_failure 3 (SampleLinks.kernel_failing [None; Some EACCES])
               = Some EACCES) by reflexivity.
  split; [exact H1 |].
  destruct (send_netlink_refused Sample.request
              (SampleLinks.kernel_failing [None; Some EACCES]) Sample.start
              EACCES H1)
    as (k' & w' & Heq & Herrno & Hin & _ & _ & Hearly).
  exists k', w'. split; [exact Heq |]. split; [exact Herrno |].
  split; [exact Hin |].
  apply Hearly. unfold succeed. simpl. intros H.
  apply Forall_cons in H as [_ H]. apply Forall_cons in H as [H _].
  discriminate H.
Defined.

(** X20.  Opening the link socket.  When [socket] and [bind] succeed,
    [open_link_socket] returns the descriptor the kernel gave, whichever it
    is, after [set_cloexec] has been applied to that descriptor; when one of
    them fails it returns -1 with the [errno] of that call, and
    [set_cloexec] is not called.  In no case does it read from the
    socket. *)
Theorem open_link_socket_result set_cloexec given k w :
  0 <= given ->
  (succeed 2 k ->
   exists k',
     open_link_socket set_cloexec given k w
     = (given, k', set_cloexec given w)
     /\ incoming k' = incoming k)
  /\ (forall e, first_failure 2 k = Some e ->
      exists k',
        open_link_socket set_cloexec given k w = (-1, k', set_errno e w)
        /\ incoming k' = incoming k).
Proof.
  intros Hfd.
  assert (Hne : (given =? -1) = false) by (apply Z.eqb_neq; lia).
  split.
  - intros Hok. unfold open_link_socket, socket.
    destruct (syscall_succeeds 1 k w Hok) as (k1 & -> & Hok1 & _ & Hin1).
    simpl. rewrite Hne.
    destruct (syscall_succeeds 0 k1 w Hok1) as (k2 & -> & _ & _ & Hin2).
    simpl. exists k2. split; [reflexivity | congruence].
  - unfold first_failure, open_link_socket, socket, syscall. intros e Hfail.
    destruct (syscalls k) as [| [e1 |] s] eqn:Hs; simpl in Hfail.
    + discriminate Hfail.
    + injection Hfail as ->. simpl. eexists. split; reflexivity.
    + simpl. rewrite Hne.
      destruct s as [| [e2 |] s]; simpl in Hfail; try discriminate Hfail.
      injection Hfail as ->. simpl. eexists. split; reflexivity.
Qed.

Lemma open_link_socket_result_witness :
  0 <= 5
  /\ succeed 2 (Sample.kernel_with [Datagram (Sample.ack 0)])
  /\ first_failure 2 (SampleLinks.kernel_failing [None; Some EACCES])
     = Some EACCES
  /\ (exists k',
         open_link_socket SampleLinks.cloexec_fails 5
           (Sample.kernel_with [Datagram (Sample.ack 0)]) Sample.start
         = (5, k', set_errno EACCES Sample.start)
         /\ incoming k' = [Datagram (Sample.ack 0)])
  /\ exists k',
      open_link_socket SampleLinks.cloexec_fails 5
        (SampleLinks.kernel_failing [None; Some EACCES]) Sample.start
      = (-1, k', set_errno EACCES Sample.start)
      /\ incoming k' = [Datagram (Sample.ack 0)].
Proof.
  assert (H0 : 0 <= 5) by lia.
  assert (H1 : succeed 2 (Sample.kernel_with [Datagram (Sample.ack 0)]))
    by (unfold succeed; simpl; constructor).
  assert (H2 : first_failure 2 (SampleLinks.kernel_failing [None; Some EACCES])
               = Some EACCES) by reflexivity.
  split; [exact H0 |]. split; [exact H1 |]. split; [exact H2 |]. split.
  - exact (proj1 (open_link_socket_result SampleLinks.cloexec_fails 5
                    (Sample.kernel_with [Datagram (Sample.ack 0)])
                    Sample.start H0) H1).
  - exact (proj2 (open_link_socket_result SampleLinks.cloexec_fails 5
                    (SampleLinks.kernel_failing [None; Some EACCES])
                    Sample.start H0) EACCES H2).
Defined.
